(** * AgentGov scanner: detection pipeline, shallow embedding

    The TypeScript sources of [packages/scanner], and the text helpers of
    the formatters of [packages/reporter], are embedded as Rocq functions.
    Conventions of the embedding:

    - a JavaScript [string] is a [string] of bytes, one byte per code unit
      (the model covers ASCII text);
    - a JavaScript [number] is an exact rational [Q]: the rounding error of
      IEEE doubles is not modelled, [Math.round] and [Math.min] are written
      out on [Q]; numeric results are compared with [==];
    - a [RegExp] is its source text together with a syntax tree; [exec] and
      [test] run a backtracking matcher with the priorities of the
      ECMAScript one (leftmost start, greedy quantifiers, ordered
      alternation);
    - a [Map<string, AgentRecord>] is an association list in insertion
      order, which is also the order of [Map.prototype.values];
    - the file system, [fast-glob], [ignore], [JSON.parse], [git] and
      [randomUUID] are oracles gathered in a record [World];
    - the [async] functions run one step at a time, so they are plain
      functions of the world; the progress callback is the list of progress
      records it receives. *)

From Stdlib Require Import List String Ascii Bool Arith ZArith QArith Qround Qminmax Lia Lqa.
From Stdlib Require Import Sorting.Sorted Sorting.Permutation.
From Stdlib Require Import Numbers.DecimalString.
Import ListNotations.

Local Open Scope string_scope.
Local Open Scope list_scope.

(* ------------------------------------------------------------------ *)
(** ** JavaScript strings *)

Module Js.

Definition dquote : string := String (ascii_of_nat 34) EmptyString.
Definition newline : ascii := ascii_of_nat 10.

Definition code (c : ascii) : nat := nat_of_ascii c.

Definition between (lo hi : nat) (c : ascii) : bool :=
  (lo <=? code c)%nat && (code c <=? hi)%nat.

Definition isUpper (c : ascii) : bool := between 65 90 c.
Definition isLower (c : ascii) : bool := between 97 122 c.
Definition isDigit (c : ascii) : bool := between 48 57 c.

(** [\s]: tab, line feed, vertical tab, form feed, carriage return, space. *)
Definition isSpace (c : ascii) : bool := between 9 13 c || (code c =? 32)%nat.

(** [\w] *)
Definition isWord (c : ascii) : bool :=
  isUpper c || isLower c || isDigit c || (code c =? 95)%nat.

Definition lowerChar (c : ascii) : ascii :=
  if isUpper c then ascii_of_nat (code c + 32) else c.

Definition upperChar (c : ascii) : ascii :=
  if isLower c then ascii_of_nat (code c - 32) else c.

Fixpoint mapChars (f : ascii -> ascii) (s : string) : string :=
  match s with
  | EmptyString => EmptyString
  | String c s' => String (f c) (mapChars f s')
  end.

Definition toLowerCase : string -> string := mapChars lowerChar.
Definition toUpperCase : string -> string := mapChars upperChar.

(** [s.slice(0, n)] *)
Fixpoint take (n : nat) (s : string) : string :=
  match n, s with
  | S n', String c s' => String c (take n' s')
  | _, _ => EmptyString
  end.

(** [s.slice(n)] *)
Fixpoint drop (n : nat) (s : string) : string :=
  match n, s with
  | S n', String _ s' => drop n' s'
  | _, _ => s
  end.

Fixpoint startsWith (p s : string) : bool :=
  match p, s with
  | EmptyString, _ => true
  | String a p', String b s' => Ascii.eqb a b && startsWith p' s'
  | String _ _, EmptyString => false
  end.

Fixpoint includes (s sub : string) : bool :=
  startsWith sub s ||
  match s with
  | EmptyString => false
  | String _ s' => includes s' sub
  end.

Fixpoint trimStart (s : string) : string :=
  match s with
  | String c s' => if isSpace c then trimStart s' else s
  | EmptyString => EmptyString
  end.

(** [trimEnd], computed from the right: a space is dropped when all that
    follows it has been dropped. *)
Fixpoint trimEnd (s : string) : string :=
  match s with
  | EmptyString => EmptyString
  | String c s' =>
      match trimEnd s' with
      | EmptyString => if isSpace c then EmptyString else String c EmptyString
      | t => String c t
      end
  end.

Definition trim (s : string) : string := trimEnd (trimStart s).

(** [s.split(sep)] for a one-character separator: the pieces between the
    separators, so a string without separator gives one piece and the empty
    string gives one empty piece. *)
Fixpoint split (sep : ascii) (s : string) : list string :=
  match s with
  | EmptyString => [EmptyString]
  | String c s' =>
      if Ascii.eqb c sep then EmptyString :: split sep s'
      else match split sep s' with
           | piece :: rest => String c piece :: rest
           | [] => [String c EmptyString]
           end
  end.

(** Decimal rendering of an integer, as a template literal prints it. *)
Definition showZ (z : Z) : string := NilZero.string_of_int (Z.to_int z).

(** [Math.round]: the nearest integer, a tie going up. *)
Definition Math_round (x : Q) : Z := Qfloor (x + (1 # 2)).

(** [Math.floor] *)
Definition Math_floor (x : Q) : Z := Qfloor x.

(** [Math.min] *)
Definition Math_min (x y : Q) : Q := if Qle_bool x y then x else y.

End Js.

(* ------------------------------------------------------------------ *)
(** ** Regular expressions *)

Module Re.

(** Syntax trees.  A quantifier applies to a single-character class, which
    is all the patterns of the scanner use. *)
Inductive regex : Type :=
| Eps
| Fail
| Chr (p : ascii -> bool)
| Star (p : ascii -> bool)
| Plus (p : ascii -> bool)
| Opt (p : ascii -> bool)
| WordB
| Eol
| Grp (r : regex)
| Seq (r1 r2 : regex)
| Alt (r1 r2 : regex).

(** Matcher state: the character before the cursor (for [\b]), the text
    after the cursor, and the text of the capture group. *)
Record mstate : Type := MState {
  prev : option ascii;
  rest : string;
  cap : option string
}.

Definition isWordOpt (c : option ascii) : bool :=
  match c with Some c => Js.isWord c | None => false end.

Definition headOf (s : string) : option ascii :=
  match s with String c _ => Some c | EmptyString => None end.

Definition advance (c : ascii) (s' : string) (st : mstate) : mstate :=
  MState (Some c) s' (cap st).

Definition orElse {A} (x : option A) (y : option A) : option A :=
  match x with Some _ => x | None => y end.

(** Greedy star over a class: take as many characters as possible, give
    one back at a time while the continuation fails. *)
Fixpoint star (p : ascii -> bool) (k : mstate -> option mstate)
         (pv : option ascii) (cp : option string) (s : string) : option mstate :=
  match s with
  | String c s' =>
      if p c then orElse (star p k (Some c) cp s') (k (MState pv s cp))
      else k (MState pv s cp)
  | EmptyString => k (MState pv s cp)
  end.

Fixpoint run (r : regex) (k : mstate -> option mstate) (st : mstate) : option mstate :=
  match r with
  | Eps => k st
  | Fail => None
  | Chr p =>
      match rest st with
      | String c s' => if p c then k (advance c s' st) else None
      | EmptyString => None
      end
  | Star p => star p k (prev st) (cap st) (rest st)
  | Plus p =>
      match rest st with
      | String c s' => if p c then star p k (Some c) (cap st) s' else None
      | EmptyString => None
      end
  | Opt p =>
      match rest st with
      | String c s' => if p c then orElse (k (advance c s' st)) (k st) else k st
      | EmptyString => k st
      end
  | WordB =>
      if xorb (isWordOpt (prev st)) (isWordOpt (headOf (rest st))) then k st else None
  | Eol =>
      match rest st with
      | EmptyString => k st
      | String _ _ => None
      end
  | Grp r1 =>
      run r1 (fun st' =>
                let n := (String.length (rest st) - String.length (rest st'))%nat in
                k (MState (prev st') (rest st') (Some (Js.take n (rest st))))) st
  | Seq r1 r2 => run r1 (run r2 k) st
  | Alt r1 r2 => orElse (run r1 k st) (run r2 k st)
  end.

(** The result of a successful [exec]: [index], [match[0]], [match[1]]. *)
Record matchResult : Type := MatchResult {
  index : nat;
  m0 : string;
  m1 : option string
}.

Definition matchAt (r : regex) (pv : option ascii) (s : string) : option (string * option string) :=
  match run r Some (MState pv s None) with
  | Some st' => Some (Js.take (String.length s - String.length (rest st')) s, cap st')
  | None => None
  end.

(** Leftmost match: every start position is tried in turn, the end of the
    text included. *)
Fixpoint search (r : regex) (pv : option ascii) (i : nat) (s : string) : option matchResult :=
  match matchAt r pv s with
  | Some (m, c) => Some (MatchResult i m c)
  | None =>
      match s with
      | String c s' => search r (Some c) (S i) s'
      | EmptyString => None
      end
  end.

(** *** Parsing a pattern source *)

(** [.]: anything but a line terminator. *)
Definition dot (c : ascii) : bool :=
  negb ((Js.code c =? 10)%nat || (Js.code c =? 13)%nat).

(** With the [i] flag a class also accepts the other case of a letter. *)
Definition withFlags (ignoreCase : bool) (p : ascii -> bool) : ascii -> bool :=
  if ignoreCase then fun c => p c || p (Js.lowerChar c) || p (Js.upperChar c) else p.

Definition escapeClass (c : ascii) : ascii -> bool :=
  if Ascii.eqb c "s" then Js.isSpace
  else if Ascii.eqb c "w" then Js.isWord
  else if Ascii.eqb c "d" then Js.isDigit
  else Ascii.eqb c.

(** The items of a character class up to the closing bracket. *)
Fixpoint parseClassItems (s : string) : option ((ascii -> bool) * string) :=
  let item (q : ascii -> bool) (r : option ((ascii -> bool) * string)) :=
    match r with
    | Some (p, s'') => Some ((fun c => q c || p c), s'')
    | None => None
    end in
  match s with
  | EmptyString => None
  | String a s' =>
      if Ascii.eqb a "]" then Some ((fun _ => false), s')
      else
        match s' with
        | EmptyString => None
        | String b s'' =>
            if Ascii.eqb a "\" then item (escapeClass b) (parseClassItems s'')
            else if Ascii.eqb b "-" then
              match s'' with
              | EmptyString => None
              | String hi s3 =>
                  if Ascii.eqb hi "]" then item (Ascii.eqb a) (parseClassItems s')
                  else item (Js.between (Js.code a) (Js.code hi)) (parseClassItems s3)
              end
            else item (Ascii.eqb a) (parseClassItems s')
        end
  end.

Definition parseClass (s : string) : option ((ascii -> bool) * string) :=
  match s with
  | EmptyString => None
  | String a s' =>
      if Ascii.eqb a "^" then
        match parseClassItems s' with
        | Some (p, s'') => Some ((fun c => negb (p c)), s'')
        | None => None
        end
      else parseClassItems s
  end.

(** A quantifier after an atom. *)
Definition quantified (r : regex) (s : string) : regex * string :=
  match s with
  | EmptyString => (r, s)
  | String q s' =>
      if Ascii.eqb q "*" then (match r with Chr p => Star p | _ => Fail end, s')
      else if Ascii.eqb q "+" then (match r with Chr p => Plus p | _ => Fail end, s')
      else if Ascii.eqb q "?" then (match r with Chr p => Opt p | _ => Fail end, s')
      else (r, s)
  end.

Fixpoint parseAlt (ic : bool) (fuel : nat) (s : string) : regex * string :=
  match fuel with
  | O => (Fail, s)
  | S f =>
      let '(r, s1) := parseSeq ic f s in
      match s1 with
      | EmptyString => (r, s1)
      | String c s2 =>
          if Ascii.eqb c "|" then let '(r2, s3) := parseAlt ic f s2 in (Alt r r2, s3)
          else (r, s1)
      end
  end
with parseSeq (ic : bool) (fuel : nat) (s : string) : regex * string :=
  match fuel with
  | O => (Fail, s)
  | S f =>
      match s with
      | EmptyString => (Eps, s)
      | String c _ =>
          if Ascii.eqb c "|" || Ascii.eqb c ")" then (Eps, s)
          else
            let '(a, s1) := parseAtom ic f s in
            let '(q, s2) := quantified a s1 in
            let '(r, s3) := parseSeq ic f s2 in
            (Seq q r, s3)
      end
  end
with parseAtom (ic : bool) (fuel : nat) (s : string) : regex * string :=
  match fuel with
  | O => (Fail, s)
  | S f =>
      match s with
      | EmptyString => (Fail, s)
      | String c s1 =>
          if Ascii.eqb c "(" then
            let '(r, s2) := parseAlt ic f s1 in
            match s2 with
            | EmptyString => (Fail, s2)
            | String d s3 => if Ascii.eqb d ")" then (Grp r, s3) else (Fail, s2)
            end
          else if Ascii.eqb c "[" then
            match parseClass s1 with
            | Some (p, s2) => (Chr (withFlags ic p), s2)
            | None => (Fail, s1)
            end
          else if Ascii.eqb c "\" then
            match s1 with
            | EmptyString => (Fail, s1)
            | String e s2 =>
                if Ascii.eqb e "b" then (WordB, s2)
                else (Chr (withFlags ic (escapeClass e)), s2)
            end
          else if Ascii.eqb c "." then (Chr dot, s1)
          else if Ascii.eqb c "$" then (Eol, s1)
          else (Chr (withFlags ic (Ascii.eqb c)), s1)
      end
  end.

(** No part of the tree is the mark of a construct outside the fragment. *)
Fixpoint wellFormed (r : regex) : bool :=
  match r with
  | Fail => false
  | Grp r1 => wellFormed r1
  | Seq r1 r2 | Alt r1 r2 => wellFormed r1 && wellFormed r2
  | _ => true
  end.

Definition parse (ignoreCase : bool) (src : string) : regex :=
  match parseAlt ignoreCase (2 * String.length src + 2) src with
  | (r, EmptyString) => r
  | (_, String _ _) => Fail
  end.

End Re.

(** A [RegExp] object without the [g] flag: [exec] and [test] keep no
    state between calls. *)
Record RegExp : Type := mkRegExp {
  source : string;
  ignoreCase : bool;
  ast : Re.regex
}.

(** The literal [/src/]. *)
Definition re (src : string) : RegExp := mkRegExp src false (Re.parse false src).

(** The literal [/src/i]. *)
Definition rei (src : string) : RegExp := mkRegExp src true (Re.parse true src).

Definition RegExp_exec (r : RegExp) (s : string) : option Re.matchResult :=
  Re.search (ast r) None 0 s.

Definition RegExp_test (r : RegExp) (s : string) : bool :=
  match RegExp_exec r s with Some _ => true | None => false end.

(* ------------------------------------------------------------------ *)
(** ** [node:path], POSIX flavour, on normalised paths *)

Module Path.

(** The text after the last [/]. *)
Fixpoint basename (p : string) : string :=
  match p with
  | EmptyString => EmptyString
  | String c p' =>
      if Js.includes p' "/" then basename p'
      else if Ascii.eqb c "/" then p' else p
  end.

(** The text from the last dot on, when there is one. *)
Fixpoint fromLastDot (b : string) : option string :=
  match b with
  | EmptyString => None
  | String c b' =>
      match fromLastDot b' with
      | Some e => Some e
      | None => if Ascii.eqb c "." then Some b else None
      end
  end.

(** [extname]: the extension of the last portion, from its last dot; empty
    when there is no dot, when the only dot starts the portion, and for
    [..]. *)
Definition extname (p : string) : string :=
  let b := basename p in
  match b with
  | EmptyString => EmptyString
  | String _ b' =>
      match fromLastDot b' with
      | Some e => if String.eqb b ".." then EmptyString else e
      | None => EmptyString
      end
  end.

(** [join(dir, file)] *)
Definition join (dir file : string) : string := dir ++ "/" ++ file.

End Path.

(* ------------------------------------------------------------------ *)
(** ** Core types ([types/index.ts]) *)

Inductive AgentFramework : Type :=
| langchain | langgraph | crewai | autogen | semantic_kernel | haystack
| llamaindex | openai_assistants | anthropic_claude | aws_bedrock
| google_vertex | vercel_ai | custom | unknown_framework.

(** The string each framework is in the source. *)
Definition frameworkName (f : AgentFramework) : string :=
  match f with
  | langchain => "langchain"
  | langgraph => "langgraph"
  | crewai => "crewai"
  | autogen => "autogen"
  | semantic_kernel => "semantic-kernel"
  | haystack => "haystack"
  | llamaindex => "llamaindex"
  | openai_assistants => "openai-assistants"
  | anthropic_claude => "anthropic-claude"
  | aws_bedrock => "aws-bedrock"
  | google_vertex => "google-vertex"
  | vercel_ai => "vercel-ai"
  | custom => "custom"
  | unknown_framework => "unknown"
  end.

Definition AgentFramework_eqb (a b : AgentFramework) : bool :=
  String.eqb (frameworkName a) (frameworkName b).

Inductive Language : Type := python | typescript | javascript | unknown.

Definition Language_eqb (a b : Language) : bool :=
  match a, b with
  | python, python | typescript, typescript
  | javascript, javascript | unknown, unknown => true
  | _, _ => false
  end.

Inductive RiskSeverity : Type := low | medium | high | critical.

Inductive EvidenceType : Type :=
| import | instantiation | config_file | dependency | env_var | code_pattern.

Definition EvidenceType_eqb (a b : EvidenceType) : bool :=
  match a, b with
  | import, import | instantiation, instantiation | config_file, config_file
  | dependency, dependency | env_var, env_var | code_pattern, code_pattern => true
  | _, _ => false
  end.

Record RiskFlag : Type := mkRiskFlag {
  severity : RiskSeverity;
  riskType : string;
  riskDescription : string
}.

Record DetectionEvidence : Type := mkEvidence {
  type : EvidenceType;
  pattern : string;
  matchedText : string;
  filePath : string;
  line : option nat;
  confidenceContribution : Q
}.

Module PatternDefinition.
Record t : Type := mk {
  pattern : RegExp;
  type : EvidenceType;
  confidence : Q;
  description : string
}.
End PatternDefinition.

Module FrameworkPatterns.
Record t : Type := mk {
  framework : AgentFramework;
  displayName : string;
  languages : list Language;
  imports : list PatternDefinition.t;
  instantiations : list PatternDefinition.t;
  configFiles : option (list string);
  dependencies : option (list string)
}.
End FrameworkPatterns.

(** [AgentCapabilities]: the three flags the risk rules read.  The scanner
    itself never fills [capabilities]. *)
Record AgentCapabilities : Type := mkCapabilities {
  hasDatabase : option bool;
  canSendEmail : option bool;
  canSpawnAgents : option bool
}.

(** [AgentRecord], with [location] and [metadata] flattened; the optional
    fields that the scanner never writes ([line], [column], [repository],
    [dependencies], [configFiles], [modelProvider], [modelId]) are left
    out.  A date is its time value in milliseconds. *)
Record AgentRecord : Type := mkAgent {
  id : string;
  name : string;
  framework : AgentFramework;
  confidence : Q;
  location_filePath : string;
  metadata_language : Language;
  metadata_entryPoint : option string;
  metadata_owner : option string;
  metadata_lastModified : option Z;
  capabilities : option AgentCapabilities;
  risks : option (list RiskFlag);
  evidence : list DetectionEvidence
}.

(* ------------------------------------------------------------------ *)
(** ** The pattern registry ([patterns/]) *)

Module DependencyMapping.
Inductive language : Type := DepPython | DepTypescript | DepJavascript | DepAny.
Record t : Type := mk {
  name : string;
  framework : AgentFramework;
  confidence : Q;
  lang : language
}.
End DependencyMapping.

Module EnvVarPattern.
Record t : Type := mk {
  pattern : RegExp;
  provider : string;
  confidence : Q
}.
End EnvVarPattern.

Module Patterns.
Import PatternDefinition FrameworkPatterns.

(** *** [patterns/python/] *)

Definition langchainPatterns : FrameworkPatterns.t := {|
  framework := langchain;
  displayName := "LangChain";
  languages := [python];
  imports := [
      {| pattern := re "from\s+langchain[._\s]"; type := import;
         confidence := 0.3; description := "LangChain import" |};
      {| pattern := re "import\s+langchain"; type := import;
         confidence := 0.3; description := "LangChain module import" |};
      {| pattern := re "from\s+langchain_core"; type := import;
         confidence := 0.3; description := "LangChain Core import" |};
      {| pattern := re "from\s+langchain_openai"; type := import;
         confidence := 0.3; description := "LangChain OpenAI integration" |};
      {| pattern := re "from\s+langchain_anthropic"; type := import;
         confidence := 0.3; description := "LangChain Anthropic integration" |};
      {| pattern := re "from\s+langchain_community"; type := import;
         confidence := 0.3; description := "LangChain Community import" |} ];
  instantiations := [
      {| pattern := re "AgentExecutor\s*\("; type := instantiation;
         confidence := 0.3; description := "LangChain AgentExecutor instantiation" |};
      {| pattern := re "create_react_agent\s*\("; type := instantiation;
         confidence := 0.3; description := "LangChain React agent creation" |};
      {| pattern := re "create_openai_functions_agent\s*\("; type := instantiation;
         confidence := 0.3; description := "LangChain OpenAI Functions agent" |};
      {| pattern := re "initialize_agent\s*\("; type := instantiation;
         confidence := 0.3; description := "LangChain agent initialization" |};
      {| pattern := re "create_tool_calling_agent\s*\("; type := instantiation;
         confidence := 0.3; description := "LangChain tool-calling agent" |} ];
  configFiles := None;
  dependencies := Some ["langchain"; "langchain-core"; "langchain-openai"; "langchain-anthropic"; "langchain-community"]
|}.

Definition langgraphPatterns : FrameworkPatterns.t := {|
  framework := langgraph;
  displayName := "LangGraph";
  languages := [python];
  imports := [
      {| pattern := re "from\s+langgraph"; type := import;
         confidence := 0.3; description := "LangGraph import" |};
      {| pattern := re "import\s+langgraph"; type := import;
         confidence := 0.3; description := "LangGraph module import" |} ];
  instantiations := [
      {| pattern := re "StateGraph\s*\("; type := instantiation;
         confidence := 0.3; description := "LangGraph StateGraph creation" |};
      {| pattern := re "\.compile\s*\(\s*\)"; type := instantiation;
         confidence := 0.15; description := "LangGraph graph compilation" |};
      {| pattern := re "MessageGraph\s*\("; type := instantiation;
         confidence := 0.3; description := "LangGraph MessageGraph creation" |} ];
  configFiles := None;
  dependencies := Some ["langgraph"; "langgraph-checkpoint"]
|}.

Definition crewaiPatterns : FrameworkPatterns.t := {|
  framework := crewai;
  displayName := "CrewAI";
  languages := [python];
  imports := [
      {| pattern := re "from\s+crewai\s+import"; type := import;
         confidence := 0.3; description := "CrewAI import" |};
      {| pattern := re "import\s+crewai"; type := import;
         confidence := 0.3; description := "CrewAI module import" |};
      {| pattern := re "from\s+crewai_tools"; type := import;
         confidence := 0.25; description := "CrewAI tools import" |};
      {| pattern := re "from\s+crewai\.project\s+import"; type := import;
         confidence := 0.3; description := "CrewAI project import" |} ];
  instantiations := [
      {| pattern := re "Crew\s*\("; type := instantiation;
         confidence := 0.3; description := "CrewAI Crew instantiation" |};
      {| pattern := re "@CrewBase"; type := instantiation;
         confidence := 0.3; description := "CrewAI class decorator" |};
      {| pattern := re "@agent\b"; type := code_pattern;
         confidence := 0.15; description := "CrewAI agent decorator" |};
      {| pattern := re "@task\b"; type := code_pattern;
         confidence := 0.15; description := "CrewAI task decorator" |} ];
  configFiles := Some ["crewai.yaml"; "crewai.yml"];
  dependencies := Some ["crewai"; "crewai-tools"]
|}.

Definition autogenPatterns : FrameworkPatterns.t := {|
  framework := autogen;
  displayName := "AutoGen / AG2";
  languages := [python];
  imports := [
      {| pattern := re "from\s+autogen\s+import"; type := import;
         confidence := 0.3; description := "AutoGen import" |};
      {| pattern := re "import\s+autogen"; type := import;
         confidence := 0.3; description := "AutoGen module import" |};
      {| pattern := re "from\s+pyautogen"; type := import;
         confidence := 0.3; description := "PyAutoGen import" |};
      {| pattern := re "from\s+ag2\s+import"; type := import;
         confidence := 0.3; description := "AG2 import" |};
      {| pattern := re "import\s+ag2"; type := import;
         confidence := 0.3; description := "AG2 module import" |};
      {| pattern := re "from\s+autogen_agentchat"; type := import;
         confidence := 0.3; description := "AutoGen AgentChat import" |} ];
  instantiations := [
      {| pattern := re "AssistantAgent\s*\("; type := instantiation;
         confidence := 0.3; description := "AutoGen AssistantAgent" |};
      {| pattern := re "UserProxyAgent\s*\("; type := instantiation;
         confidence := 0.3; description := "AutoGen UserProxyAgent" |};
      {| pattern := re "ConversableAgent\s*\("; type := instantiation;
         confidence := 0.3; description := "AutoGen ConversableAgent" |};
      {| pattern := re "GroupChat\s*\("; type := instantiation;
         confidence := 0.25; description := "AutoGen GroupChat" |} ];
  configFiles := None;
  dependencies := Some ["autogen"; "pyautogen"; "ag2"; "autogen-agentchat"]
|}.

Definition semanticKernelPatterns : FrameworkPatterns.t := {|
  framework := semantic_kernel;
  displayName := "Semantic Kernel";
  languages := [python];
  imports := [
      {| pattern := re "from\s+semantic_kernel"; type := import;
         confidence := 0.3; description := "Semantic Kernel import" |};
      {| pattern := re "import\s+semantic_kernel"; type := import;
         confidence := 0.3; description := "Semantic Kernel module import" |} ];
  instantiations := [
      {| pattern := re "Kernel\s*\(\s*\)"; type := instantiation;
         confidence := 0.25; description := "Semantic Kernel instantiation" |};
      {| pattern := re "ChatCompletionAgent\s*\("; type := instantiation;
         confidence := 0.3; description := "Semantic Kernel ChatCompletionAgent" |} ];
  configFiles := None;
  dependencies := Some ["semantic-kernel"]
|}.

Definition haystackPatterns : FrameworkPatterns.t := {|
  framework := haystack;
  displayName := "Haystack";
  languages := [python];
  imports := [
      {| pattern := re "from\s+haystack\.components\.agents"; type := import;
         confidence := 0.3; description := "Haystack agents import" |};
      {| pattern := re "from\s+haystack"; type := import;
         confidence := 0.2; description := "Haystack import" |} ];
  instantiations := [
      {| pattern := re "Pipeline\s*\(\s*\)"; type := instantiation;
         confidence := 0.15; description := "Haystack Pipeline instantiation" |} ];
  configFiles := None;
  dependencies := Some ["haystack"; "haystack-ai"; "haystack-experimental"]
|}.

Definition llamaindexPatterns : FrameworkPatterns.t := {|
  framework := llamaindex;
  displayName := "LlamaIndex";
  languages := [python];
  imports := [
      {| pattern := re "from\s+llama_index"; type := import;
         confidence := 0.25; description := "LlamaIndex import" |};
      {| pattern := re "import\s+llama_index"; type := import;
         confidence := 0.25; description := "LlamaIndex module import" |} ];
  instantiations := [
      {| pattern := re "VectorStoreIndex\s*\("; type := instantiation;
         confidence := 0.15; description := "LlamaIndex VectorStoreIndex" |};
      {| pattern := re "QueryEngine\s*\("; type := instantiation;
         confidence := 0.2; description := "LlamaIndex QueryEngine" |} ];
  configFiles := None;
  dependencies := Some ["llama-index"; "llama-index-core"]
|}.

Definition openaiAssistantsPatterns : FrameworkPatterns.t := {|
  framework := openai_assistants;
  displayName := "OpenAI Assistants";
  languages := [python];
  imports := [
      {| pattern := re "from\s+openai\s+import"; type := import;
         confidence := 0.2; description := "OpenAI import" |};
      {| pattern := re "import\s+openai"; type := import;
         confidence := 0.2; description := "OpenAI module import" |} ];
  instantiations := [
      {| pattern := re "\.beta\.assistants\.create\s*\("; type := instantiation;
         confidence := 0.35; description := "OpenAI Assistants API create" |};
      {| pattern := re "\.beta\.threads\.create\s*\("; type := instantiation;
         confidence := 0.25; description := "OpenAI Threads API create" |};
      {| pattern := re "client\.beta\.assistants"; type := instantiation;
         confidence := 0.3; description := "OpenAI Assistants API access" |} ];
  configFiles := None;
  dependencies := Some ["openai"]
|}.

Definition anthropicPatterns : FrameworkPatterns.t := {|
  framework := anthropic_claude;
  displayName := "Anthropic Claude";
  languages := [python];
  imports := [
      {| pattern := re "from\s+anthropic\s+import"; type := import;
         confidence := 0.2; description := "Anthropic import" |};
      {| pattern := re "from\s+claude_agent_sdk"; type := import;
         confidence := 0.35; description := "Claude Agent SDK import" |} ];
  instantiations := [
      {| pattern := re "tool_use"; type := code_pattern;
         confidence := 0.2; description := "Anthropic tool_use pattern" |};
      {| pattern := re "ClaudeAgentOptions\s*\("; type := instantiation;
         confidence := 0.35; description := "Claude Agent SDK instantiation" |} ];
  configFiles := None;
  dependencies := Some ["anthropic"; "claude-agent-sdk"]
|}.

Definition awsBedrockPatterns : FrameworkPatterns.t := {|
  framework := aws_bedrock;
  displayName := "AWS Bedrock Agents";
  languages := [python];
  imports := [
      {| pattern := re ("boto3\.client\s*\(\s*['" ++ Js.dquote ++ "]bedrock-agent['" ++ Js.dquote ++ "]\s*\)"); type := import;
         confidence := 0.35; description := "AWS Bedrock Agent client" |};
      {| pattern := re ("boto3\.client\s*\(\s*['" ++ Js.dquote ++ "]bedrock-agent-runtime['" ++ Js.dquote ++ "]\s*\)"); type := import;
         confidence := 0.35; description := "AWS Bedrock Agent Runtime client" |};
      {| pattern := re ("boto3\.client\s*\(\s*['" ++ Js.dquote ++ "]bedrock['" ++ Js.dquote ++ "]\s*\)"); type := import;
         confidence := 0.2; description := "AWS Bedrock client" |} ];
  instantiations := [
      {| pattern := re "create_agent\s*\("; type := instantiation;
         confidence := 0.2; description := "Bedrock create_agent call" |};
      {| pattern := re "invoke_agent\s*\("; type := instantiation;
         confidence := 0.25; description := "Bedrock invoke_agent call" |} ];
  configFiles := None;
  dependencies := Some ["boto3"]
|}.

Definition googleVertexPatterns : FrameworkPatterns.t := {|
  framework := google_vertex;
  displayName := "Google Vertex AI";
  languages := [python];
  imports := [
      {| pattern := re "from\s+vertexai\s+import\s+agent_engines"; type := import;
         confidence := 0.35; description := "Vertex AI agent_engines import" |};
      {| pattern := re "import\s+vertexai"; type := import;
         confidence := 0.15; description := "Vertex AI import" |};
      {| pattern := re "from\s+langchain_google_vertexai"; type := import;
         confidence := 0.25; description := "LangChain Google Vertex AI integration" |} ];
  instantiations := [
      {| pattern := re "agent_engines\.create"; type := instantiation;
         confidence := 0.3; description := "Vertex AI agent engine creation" |} ];
  configFiles := None;
  dependencies := Some ["vertexai"; "langchain-google-vertexai"]
|}.

Definition langchainJsPatterns : FrameworkPatterns.t := {|
  framework := langchain;
  displayName := "LangChain.js";
  languages := [typescript; javascript];
  imports := [
      {| pattern := re ("from\s+[" ++ Js.dquote ++ "']langchain"); type := import;
         confidence := 0.3; description := "LangChain.js import" |};
      {| pattern := re ("from\s+[" ++ Js.dquote ++ "']@langchain\/"); type := import;
         confidence := 0.3; description := "LangChain.js scoped import" |};
      {| pattern := re ("require\s*\(\s*[" ++ Js.dquote ++ "']langchain"); type := import;
         confidence := 0.3; description := "LangChain.js require" |} ];
  instantiations := [
      {| pattern := re "new\s+AgentExecutor\s*\("; type := instantiation;
         confidence := 0.3; description := "LangChain.js AgentExecutor" |};
      {| pattern := re "createReactAgent\s*\("; type := instantiation;
         confidence := 0.3; description := "LangChain.js React agent" |};
      {| pattern := re "createOpenAIFunctionsAgent\s*\("; type := instantiation;
         confidence := 0.3; description := "LangChain.js OpenAI Functions agent" |};
      {| pattern := re "initializeAgent\s*\("; type := instantiation;
         confidence := 0.3; description := "LangChain.js agent initialization" |} ];
  configFiles := None;
  dependencies := Some ["langchain"; "@langchain/core"; "@langchain/openai"; "@langchain/anthropic"; "@langchain/community"]
|}.

Definition vercelAiPatterns : FrameworkPatterns.t := {|
  framework := vercel_ai;
  displayName := "Vercel AI SDK";
  languages := [typescript; javascript];
  imports := [
      {| pattern := re ("from\s+[" ++ Js.dquote ++ "']ai[" ++ Js.dquote ++ "']"); type := import;
         confidence := 0.25; description := "Vercel AI SDK import" |};
      {| pattern := re ("from\s+[" ++ Js.dquote ++ "']@ai-sdk\/"); type := import;
         confidence := 0.3; description := "Vercel AI SDK scoped import" |} ];
  instantiations := [
      {| pattern := re "generateText\s*\("; type := instantiation;
         confidence := 0.2; description := "Vercel AI SDK generateText" |};
      {| pattern := re "streamText\s*\("; type := instantiation;
         confidence := 0.2; description := "Vercel AI SDK streamText" |};
      {| pattern := re "\btool\s*\(\s*\{"; type := instantiation;
         confidence := 0.2; description := "Vercel AI SDK tool definition" |} ];
  configFiles := None;
  dependencies := Some ["ai"; "@ai-sdk/openai"; "@ai-sdk/anthropic"; "@ai-sdk/google"]
|}.

Definition openaiSdkJsPatterns : FrameworkPatterns.t := {|
  framework := openai_assistants;
  displayName := "OpenAI SDK";
  languages := [typescript; javascript];
  imports := [
      {| pattern := re ("from\s+[" ++ Js.dquote ++ "']openai[" ++ Js.dquote ++ "']"); type := import;
         confidence := 0.2; description := "OpenAI SDK import" |};
      {| pattern := re ("require\s*\(\s*[" ++ Js.dquote ++ "']openai[" ++ Js.dquote ++ "']\s*\)"); type := import;
         confidence := 0.2; description := "OpenAI SDK require" |} ];
  instantiations := [
      {| pattern := re "new\s+OpenAI\s*\("; type := instantiation;
         confidence := 0.15; description := "OpenAI client instantiation" |};
      {| pattern := re "chat\.completions\.create"; type := instantiation;
         confidence := 0.15; description := "OpenAI chat completions" |};
      {| pattern := re "\.beta\.assistants"; type := instantiation;
         confidence := 0.3; description := "OpenAI Assistants API" |};
      {| pattern := re "tools\s*:\s*\["; type := code_pattern;
         confidence := 0.1; description := "Tool definitions array" |} ];
  configFiles := None;
  dependencies := Some ["openai"]
|}.

(** *** [patterns/config/] *)

Definition DEPENDENCY_MAPPINGS : list DependencyMapping.t := [
  DependencyMapping.mk "langchain" langchain 0.3 DependencyMapping.DepPython;
  DependencyMapping.mk "langchain-core" langchain 0.3 DependencyMapping.DepPython;
  DependencyMapping.mk "langchain-openai" langchain 0.3 DependencyMapping.DepPython;
  DependencyMapping.mk "langchain-anthropic" langchain 0.3 DependencyMapping.DepPython;
  DependencyMapping.mk "langchain-community" langchain 0.3 DependencyMapping.DepPython;
  DependencyMapping.mk "langgraph" langgraph 0.3 DependencyMapping.DepPython;
  DependencyMapping.mk "langgraph-checkpoint" langgraph 0.25 DependencyMapping.DepPython;
  DependencyMapping.mk "crewai" crewai 0.3 DependencyMapping.DepPython;
  DependencyMapping.mk "crewai-tools" crewai 0.25 DependencyMapping.DepPython;
  DependencyMapping.mk "autogen" autogen 0.3 DependencyMapping.DepPython;
  DependencyMapping.mk "pyautogen" autogen 0.3 DependencyMapping.DepPython;
  DependencyMapping.mk "ag2" autogen 0.3 DependencyMapping.DepPython;
  DependencyMapping.mk "autogen-agentchat" autogen 0.3 DependencyMapping.DepPython;
  DependencyMapping.mk "semantic-kernel" semantic_kernel 0.3 DependencyMapping.DepPython;
  DependencyMapping.mk "haystack-ai" haystack 0.3 DependencyMapping.DepPython;
  DependencyMapping.mk "haystack" haystack 0.25 DependencyMapping.DepPython;
  DependencyMapping.mk "llama-index" llamaindex 0.25 DependencyMapping.DepPython;
  DependencyMapping.mk "llama-index-core" llamaindex 0.25 DependencyMapping.DepPython;
  DependencyMapping.mk "openai" openai_assistants 0.15 DependencyMapping.DepAny;
  DependencyMapping.mk "anthropic" anthropic_claude 0.15 DependencyMapping.DepAny;
  DependencyMapping.mk "claude-agent-sdk" anthropic_claude 0.35 DependencyMapping.DepPython;
  DependencyMapping.mk "vertexai" google_vertex 0.2 DependencyMapping.DepPython;
  DependencyMapping.mk "langchain-google-vertexai" google_vertex 0.25 DependencyMapping.DepPython;
  DependencyMapping.mk "@langchain/core" langchain 0.3 DependencyMapping.DepTypescript;
  DependencyMapping.mk "@langchain/openai" langchain 0.3 DependencyMapping.DepTypescript;
  DependencyMapping.mk "@langchain/anthropic" langchain 0.3 DependencyMapping.DepTypescript;
  DependencyMapping.mk "@langchain/community" langchain 0.3 DependencyMapping.DepTypescript;
  DependencyMapping.mk "ai" vercel_ai 0.2 DependencyMapping.DepTypescript;
  DependencyMapping.mk "@ai-sdk/openai" vercel_ai 0.25 DependencyMapping.DepTypescript;
  DependencyMapping.mk "@ai-sdk/anthropic" vercel_ai 0.25 DependencyMapping.DepTypescript;
  DependencyMapping.mk "@ai-sdk/google" vercel_ai 0.25 DependencyMapping.DepTypescript ].

Definition ENV_VAR_PATTERNS : list EnvVarPattern.t := [
  EnvVarPattern.mk (re "OPENAI_API_KEY\s*=") "openai" 0.1;
  EnvVarPattern.mk (re "ANTHROPIC_API_KEY\s*=") "anthropic" 0.1;
  EnvVarPattern.mk (re "AZURE_OPENAI_API_KEY\s*=") "azure-openai" 0.1;
  EnvVarPattern.mk (re "AZURE_OPENAI_ENDPOINT\s*=") "azure-openai" 0.1;
  EnvVarPattern.mk (re "GOOGLE_API_KEY\s*=") "google" 0.05;
  EnvVarPattern.mk (re "GEMINI_API_KEY\s*=") "google" 0.1;
  EnvVarPattern.mk (re "AWS_BEDROCK") "aws-bedrock" 0.1;
  EnvVarPattern.mk (re "HUGGINGFACE_API_KEY\s*=") "huggingface" 0.05;
  EnvVarPattern.mk (re "COHERE_API_KEY\s*=") "cohere" 0.05;
  EnvVarPattern.mk (re "OPENROUTER_API_KEY\s*=") "openrouter" 0.1 ].

(** *** [patterns/index.ts] *)

Definition ALL_PATTERNS : list FrameworkPatterns.t := [
  langchainPatterns; langgraphPatterns; crewaiPatterns; autogenPatterns;
  semanticKernelPatterns; haystackPatterns; llamaindexPatterns;
  openaiAssistantsPatterns; anthropicPatterns; awsBedrockPatterns;
  googleVertexPatterns;
  langchainJsPatterns; vercelAiPatterns; openaiSdkJsPatterns ].

Definition Language_includes (ls : list Language) (l : Language) : bool :=
  existsb (Language_eqb l) ls.

Definition getPatternsForLanguage (language : Language) : list FrameworkPatterns.t :=
  filter (fun p => Language_includes (languages p) language) ALL_PATTERNS.

(** [Array.prototype.includes] on strings. *)
Definition Array_includes (l : list string) (x : string) : bool :=
  existsb (String.eqb x) l.

(** [[...new Set(names)]]: the first occurrence of each name, in order. *)
Fixpoint uniqueStrings (seen : list string) (l : list string) : list string :=
  match l with
  | [] => []
  | x :: l' =>
      if Array_includes seen x then uniqueStrings seen l'
      else x :: uniqueStrings (seen ++ [x]) l'
  end.

Definition getAgentConfigFileNames : list string :=
  let names :=
    fold_left (fun names p =>
                 match configFiles p with
                 | Some cf => names ++ cf
                 | None => names
                 end) ALL_PATTERNS [] in
  let names :=
    names ++ ["agents.yaml"; "agents.yml"; "agent.json"; "agent_config.json";
              "agent_config.yaml"] in
  uniqueStrings [] names.

Definition LANGUAGE_EXTENSIONS : list (string * Language) := [
  (".py", python); (".pyw", python);
  (".ts", typescript); (".tsx", typescript);
  (".js", javascript); (".jsx", javascript);
  (".mjs", javascript); (".cjs", javascript) ].

(** [LANGUAGE_EXTENSIONS[ext]] *)
Fixpoint lookupExtension (ext : string) (table : list (string * Language)) : option Language :=
  match table with
  | [] => None
  | (e, l) :: table' => if String.eqb e ext then Some l else lookupExtension ext table'
  end.

Definition DEPENDENCY_FILES : list string :=
  ["requirements.txt"; "pyproject.toml"; "setup.py"; "setup.cfg"; "Pipfile";
   "package.json"].

Definition SKIP_DIRECTORIES : list string :=
  ["node_modules"; "__pycache__"; ".git"; ".svn"; ".hg"; "dist"; "build";
   ".next"; ".nuxt"; "venv"; ".venv"; "env"; ".env"; ".tox"; ".mypy_cache";
   ".pytest_cache"; "coverage"; ".coverage"; "htmlcov"; ".eggs"; "*.egg-info";
   ".terraform"].

Definition MAX_FILE_SIZE : N := 1000000.

End Patterns.

(* ------------------------------------------------------------------ *)
(** ** The outside world *)

Inductive IgnoreArg : Type :=
| IgnoreText (content : string)
| IgnoreList (patterns : list string).

Record GitLogEntry : Type := mkLogEntry {
  author_name : string;
  date : string
}.

(** What the scanner gets from outside.  A failing call ([readFile], [stat],
    [JSON.parse], [git.log] throwing) is [None]. *)
Record World : Type := mkWorld {
  process_cwd : string;
  resolve : string -> string;
  (** [fg(patterns, {cwd, ignore, ...})] *)
  fg : list string -> string -> list string -> list string;
  (** [ig.ignores(f)] of an [ignore()] object after the given [add] calls *)
  ignores : list IgnoreArg -> string -> bool;
  readFile : string -> option string;
  (** [(await stat(p)).size] *)
  stat : string -> option N;
  (** the n-th value of [randomUUID()] *)
  randomUUID : nat -> string;
  (** [JSON.parse] of a [package.json]: the entries of [dependencies] and
      of [devDependencies], values rendered as a template literal does *)
  parsePackageJson : string -> option (list (string * string) * list (string * string));
  (** [git rev-parse --is-inside-work-tree] succeeds *)
  isInsideWorkTree : string -> bool;
  (** [git.log({file, maxCount: 50})], most recent entry first *)
  gitLog : string -> string -> option (list GitLogEntry);
  (** the time value of [new Date(s)] *)
  Date_parse : string -> Z;
  Date_now : Z;
  (** the time value of [new Date()] moved back six months by [setMonth] *)
  sixMonthsAgo : Z
}.

(* ------------------------------------------------------------------ *)
(** ** [Map<string, V>] *)

Section JsMap.
Context {V : Type}.

Definition JsMap : Type := list (string * V).

Fixpoint Map_get (k : string) (m : JsMap) : option V :=
  match m with
  | [] => None
  | (k', v) :: m' => if String.eqb k' k then Some v else Map_get k m'
  end.

Definition Map_has (k : string) (m : JsMap) : bool :=
  match Map_get k m with Some _ => true | None => false end.

(** [set] keeps the position of a key that is already there. *)
Fixpoint Map_set (k : string) (v : V) (m : JsMap) : JsMap :=
  match m with
  | [] => [(k, v)]
  | (k', v') :: m' =>
      if String.eqb k' k then (k, v) :: m' else (k', v') :: Map_set k v m'
  end.

Definition Map_keys (m : JsMap) : list string := map fst m.
Definition Map_values (m : JsMap) : list V := map snd m.
Definition Map_size (m : JsMap) : nat := List.length m.

End JsMap.
Arguments JsMap : clear implicits.

(* ------------------------------------------------------------------ *)
(** ** [analyzers/file-analyzer.ts] *)

Module FileDetection.
Record t : Type := mk {
  framework : AgentFramework;
  displayName : string;
  evidence : list DetectionEvidence;
  totalConfidence : Q
}.
End FileDetection.

Module FileAnalysisResult.
Record t : Type := mk {
  filePath : string;
  language : Language;
  detections : list FileDetection.t
}.
End FileAnalysisResult.

Definition detectLanguage (filePath : string) : Language :=
  let ext := Js.toLowerCase (Path.extname filePath) in
  match Patterns.lookupExtension ext Patterns.LANGUAGE_EXTENSIONS with
  | Some l => l
  | None => unknown
  end.

Definition truncate (str : string) (maxLen : nat) : string :=
  if (maxLen <? String.length str)%nat then Js.take maxLen str ++ "..." else str.

(** The inner loop of [matchPatterns]: the lines from index [i] on are
    tried in order, and the loop is left at the first match. *)
Fixpoint matchLines (patternDef : PatternDefinition.t) (filePath : string)
         (lines : list string) (i : nat) : option DetectionEvidence :=
  match lines with
  | [] => None
  | line :: lines' =>
      match RegExp_exec (PatternDefinition.pattern patternDef) line with
      | Some m =>
          Some {| type := PatternDefinition.type patternDef;
                  pattern := source (PatternDefinition.pattern patternDef);
                  matchedText := truncate (Re.m0 m) 200;
                  filePath := filePath;
                  line := Some (i + 1)%nat;
                  confidenceContribution := PatternDefinition.confidence patternDef |}
      | None => matchLines patternDef filePath lines' (S i)
      end
  end.

(** Match all patterns for a framework against file content. *)
Definition matchPatterns (content filePath : string)
           (frameworkPatterns : FrameworkPatterns.t) : list DetectionEvidence :=
  let lines := Js.split Js.newline content in
  let allPatternDefs :=
    FrameworkPatterns.imports frameworkPatterns
      ++ FrameworkPatterns.instantiations frameworkPatterns in
  fold_left (fun evidence patternDef =>
               match matchLines patternDef filePath lines 0 with
               | Some e => evidence ++ [e]
               | None => evidence
               end) allPatternDefs [].

(** [Set.prototype.add] on evidence types. *)
Definition Set_add (x : EvidenceType) (s : list EvidenceType) : list EvidenceType :=
  if existsb (EvidenceType_eqb x) s then s else s ++ [x].

(** Calculate total confidence from evidence. *)
Definition calculateConfidence (evidence : list DetectionEvidence) : Q :=
  if (List.length evidence =? 0)%nat then 0
  else
    let '(total, typesSeen) :=
      fold_left (fun '(total, typesSeen) e =>
                   (total + confidenceContribution e, Set_add (type e) typesSeen))
                evidence (0, []) in
    let total := if (2 <=? List.length typesSeen)%nat then total + 0.1 else total in
    Js.Math_min 1.0 (inject_Z (Js.Math_round (total * 100)) / 100).

Definition orEmpty (l : option (list string)) : list string :=
  match l with Some l => l | None => [] end.

(** Deduplicate pattern sets by framework. *)
Definition deduplicatePatterns (patterns : list FrameworkPatterns.t) : list FrameworkPatterns.t :=
  let seen :=
    fold_left (fun seen p =>
      let key := frameworkName (FrameworkPatterns.framework p) in
      match Map_get key seen with
      | None => Map_set key p seen
      | Some existing =>
          Map_set key
            {| FrameworkPatterns.framework := FrameworkPatterns.framework existing;
               FrameworkPatterns.displayName := FrameworkPatterns.displayName existing;
               FrameworkPatterns.languages := FrameworkPatterns.languages existing;
               FrameworkPatterns.imports :=
                 FrameworkPatterns.imports existing ++ FrameworkPatterns.imports p;
               FrameworkPatterns.instantiations :=
                 FrameworkPatterns.instantiations existing
                   ++ FrameworkPatterns.instantiations p;
               FrameworkPatterns.configFiles :=
                 Some (orEmpty (FrameworkPatterns.configFiles existing)
                         ++ orEmpty (FrameworkPatterns.configFiles p));
               FrameworkPatterns.dependencies :=
                 Some (orEmpty (FrameworkPatterns.dependencies existing)
                         ++ orEmpty (FrameworkPatterns.dependencies p)) |}
            seen
      end) patterns [] in
  Map_values seen.

(** The part [analyzeFile] and [analyzeContent] have in common, from the
    pattern lookup to the loop over the frameworks. *)
Definition detectFrameworks (content filePath : string) (language : Language)
  : list FileDetection.t :=
  let patterns := Patterns.getPatternsForLanguage language in
  let additionalLanguage :=
    match language with
    | typescript => Some javascript
    | javascript => Some typescript
    | _ => None
    end in
  let allPatterns :=
    match additionalLanguage with
    | Some l => patterns ++ Patterns.getPatternsForLanguage l
    | None => patterns
    end in
  let uniquePatterns := deduplicatePatterns allPatterns in
  fold_left (fun detections frameworkPatterns =>
               let evidence := matchPatterns content filePath frameworkPatterns in
               if (0 <? List.length evidence)%nat then
                 detections ++
                   [ {| FileDetection.framework := FrameworkPatterns.framework frameworkPatterns;
                        FileDetection.displayName := FrameworkPatterns.displayName frameworkPatterns;
                        FileDetection.evidence := evidence;
                        FileDetection.totalConfidence := calculateConfidence evidence |} ]
               else detections) uniquePatterns [].

(** Analyze a single file for agent framework patterns. *)
Definition analyzeFile (w : World) (filePath : string) : FileAnalysisResult.t :=
  let language := detectLanguage filePath in
  let result := FileAnalysisResult.mk filePath language [] in
  if Language_eqb language unknown then result
  else
    match readFile w filePath with
    | None => result
    | Some content =>
        FileAnalysisResult.mk filePath language (detectFrameworks content filePath language)
    end.

(** Analyze file content that's already been read. *)
Definition analyzeContent (content filePath : string) (language : Language)
  : FileAnalysisResult.t :=
  let result := FileAnalysisResult.mk filePath language [] in
  if Language_eqb language unknown then result
  else FileAnalysisResult.mk filePath language (detectFrameworks content filePath language).

(** [s.replace(re, by)] for a pattern without the [g] flag. *)
Definition String_replace (r : RegExp) (by_ : string -> string) (s : string) : string :=
  match RegExp_exec r s with
  | Some m =>
      Js.take (Re.index m) s ++ by_ (Re.m0 m)
        ++ Js.drop (Re.index m + String.length (Re.m0 m)) s
  | None => s
  end.

Definition lastChar (pv : option ascii) (s : string) : option ascii :=
  match String.get (String.length s - 1) s with
  | Some c => Some c
  | None => pv
  end.

(** [s.replace(re, by)] for a pattern with the [g] flag: every match from
    left to right, the search resuming after each. *)
Fixpoint replaceAllFrom (fuel : nat) (r : Re.regex) (by_ : string -> string)
         (pv : option ascii) (s : string) : string :=
  match fuel with
  | O => s
  | S f =>
      let step :=
        match s with
        | String c s' => String c (replaceAllFrom f r by_ (Some c) s')
        | EmptyString => EmptyString
        end in
      match Re.matchAt r pv s with
      | Some (EmptyString, _) => by_ EmptyString ++ step
      | Some (m, _) =>
          by_ m ++ replaceAllFrom f r by_ (lastChar pv m) (Js.drop (String.length m) s)
      | None => step
      end
  end.

Definition String_replaceAll (r : RegExp) (by_ : string -> string) (s : string) : string :=
  replaceAllFrom (S (String.length s)) (ast r) by_ None s.

(** Extract a meaningful agent name from detection evidence. *)
Definition extractAgentName (filePath : string) (content : option string) : string :=
  let filename := Path.basename filePath in
  let nameWithoutExt := String_replace (re "\.[^.]+$") (fun _ => "") filename in
  let fallback :=
    let cleaned :=
      Js.trim (String_replaceAll (re "\b\w") Js.toUpperCase
                 (String_replaceAll (re "[_-]") (fun _ => " ") nameWithoutExt)) in
    if String.eqb cleaned "" then "Unknown Agent" else cleaned in
  let classOf (c : string) (r : RegExp) : option string :=
    match RegExp_exec r c with
    | Some m => Re.m1 m
    | None => None
    end in
  match content with
  | Some c =>
      if String.eqb c "" then fallback
      else
        match classOf c (re "class\s+(\w*[Aa]gent\w*)") with
        | Some n => n
        | None =>
            match classOf c (re "class\s+(\w*[Cc]rew\w*)") with
            | Some n => n
            | None => fallback
            end
        end
  | None => fallback
  end.

(* ------------------------------------------------------------------ *)
(** ** Updating an [AgentRecord] in place *)

Definition withEvidence (a : AgentRecord) (ev : list DetectionEvidence) (c : Q) : AgentRecord :=
  mkAgent (id a) (name a) (framework a) c (location_filePath a)
          (metadata_language a) (metadata_entryPoint a) (metadata_owner a)
          (metadata_lastModified a) (capabilities a) (risks a) ev.

Definition withBlame (a : AgentRecord) (owner : option string) (lastModified : option Z)
  : AgentRecord :=
  mkAgent (id a) (name a) (framework a) (confidence a) (location_filePath a)
          (metadata_language a) (metadata_entryPoint a) owner lastModified
          (capabilities a) (risks a) (evidence a).

Definition withRisks (a : AgentRecord) (r : list RiskFlag) : AgentRecord :=
  mkAgent (id a) (name a) (framework a) (confidence a) (location_filePath a)
          (metadata_language a) (metadata_entryPoint a) (metadata_owner a)
          (metadata_lastModified a) (capabilities a) (Some r) (evidence a).

(* ------------------------------------------------------------------ *)
(** ** [enrichers/git-blame.ts] *)

Record GitBlameResult : Type := mkBlame {
  owner : option string;
  lastModified : option Z;
  authors : list string
}.

(** Check if a directory is inside a git repository. *)
Definition isGitRepo (w : World) (scanPath : string) : bool := isInsideWorkTree w scanPath.

(** Get git blame info for a specific file. *)
Definition getFileBlame (w : World) (scanPath filePath : string) : GitBlameResult :=
  let empty := mkBlame None None [] in
  match gitLog w scanPath filePath with
  | None => empty
  | Some all =>
      if (List.length all =? 0)%nat then empty
      else
        let authorCounts : JsMap nat :=
          fold_left (fun authorCounts entry =>
                       let author := author_name entry in
                       if String.eqb author "" then authorCounts
                       else
                         let n := match Map_get author authorCounts with
                                  | Some n => n
                                  | None => 0%nat
                                  end in
                         Map_set author (n + 1)%nat authorCounts) all [] in
        let '(owner, _) :=
          fold_left (fun '(owner, maxCount) '(author, count) =>
                       if (maxCount <? count)%nat then (Some author, count)
                       else (owner, maxCount)) authorCounts (None, 0%nat) in
        let lastModified :=
          match all with
          | lastEntry :: _ =>
              if String.eqb (date lastEntry) "" then None
              else Some (Date_parse w (date lastEntry))
          | [] => None
          end in
        mkBlame owner lastModified (Map_keys authorCounts)
  end.

(** Enrich an array of agent records with git blame data. *)
Definition enrichWithGitBlame (w : World) (agents : list AgentRecord) (scanPath : string)
  : list AgentRecord :=
  if negb (isGitRepo w scanPath) then agents
  else
    snd (fold_left (fun '(blameCache, done) agent =>
                      let filePath := location_filePath agent in
                      let blameCache : JsMap GitBlameResult :=
                        if negb (Map_has filePath blameCache) then
                          Map_set filePath (getFileBlame w scanPath filePath) blameCache
                        else blameCache in
                      match Map_get filePath blameCache with
                      | Some blame =>
                          (blameCache,
                           done ++ [withBlame agent (owner blame) (lastModified blame)])
                      | None => (blameCache, done ++ [agent])
                      end) agents ([], [])).

(* ------------------------------------------------------------------ *)
(** ** [enrichers/risk.ts] *)

Record RiskRule : Type := mkRule {
  rule_id : string;
  evaluate : World -> AgentRecord -> option RiskFlag
}.

Definition quoted (s : string) : string := Js.dquote ++ s ++ Js.dquote.

(** [anyEvidenceMatches patterns agent]: the nested loops over the evidence
    and the patterns find a match. *)
Definition anyEvidenceMatches (patterns : list RegExp) (agent : AgentRecord) : bool :=
  existsb (fun ev => existsb (fun p => RegExp_test p (matchedText ev)) patterns)
          (evidence agent).

Definition capability (f : AgentCapabilities -> option bool) (agent : AgentRecord) : bool :=
  match capabilities agent with
  | Some c => match f c with Some b => b | None => false end
  | None => false
  end.

(** [x.toFixed(0)] for [x >= 0]. *)
Definition toFixed0 (x : Q) : string := Js.showZ (Qfloor (x + (1 # 2))).

(** The pattern lists local to the rules. *)
Definition dbPatterns : list RegExp :=
  [rei "database"; rei "\bsql\b"; rei "\bdb\b"; rei "postgres"; rei "mysql";
   rei "mongo"; rei "redis"; rei "dynamo"; rei "supabase"].

Definition emailPatterns : list RegExp :=
  [rei "send_email"; rei "sendmail"; rei "smtp"; rei "email.*tool"; rei "mail.*send"].

Definition spawnPatterns : list RegExp :=
  [rei "sub.?agent"; rei "spawn.*agent"; rei "create.*agent"; rei "child.*agent";
   rei "nested.*agent"].

Definition apiPatterns : list RegExp :=
  [rei "requests\.(get|post|put|delete|patch)"; re "fetch\s*\("; rei "axios";
   rei "httpx"; rei "urllib"; rei "aiohttp"].

Definition RISK_RULES : list RiskRule := [
  mkRule "no-owner" (fun _ agent =>
    match metadata_owner agent with
    | Some o =>
        if String.eqb o "" then
          Some (mkRiskFlag medium "no-owner"
                  ("Agent " ++ quoted (name agent) ++ " has no identified owner (no git history)"))
        else None
    | None =>
        Some (mkRiskFlag medium "no-owner"
                ("Agent " ++ quoted (name agent) ++ " has no identified owner (no git history)"))
    end);
  mkRule "stale-agent" (fun w agent =>
    match metadata_lastModified agent with
    | Some lastModified =>
        if (lastModified <? sixMonthsAgo w)%Z then
          let months := ((Date_now w - lastModified) / (1000 * 60 * 60 * 24 * 30))%Z in
          Some (mkRiskFlag low "stale-agent"
                  ("Agent " ++ quoted (name agent) ++ " hasn't been modified in "
                     ++ Js.showZ months ++ " months"))
        else None
    | None => None
    end);
  mkRule "low-confidence" (fun _ agent =>
    if negb (Qle_bool 0.6 (confidence agent)) && Qle_bool 0.4 (confidence agent) then
      Some (mkRiskFlag low "low-confidence"
              ("Agent " ++ quoted (name agent) ++ " detected with low confidence ("
                 ++ toFixed0 (confidence agent * 100) ++ "%) — may be a false positive"))
    else None);
  mkRule "database-access" (fun _ agent =>
    if anyEvidenceMatches dbPatterns agent then
      Some (mkRiskFlag medium "database-access"
              ("Agent " ++ quoted (name agent) ++ " may have database access"))
    else if capability hasDatabase agent then
      Some (mkRiskFlag medium "database-access"
              ("Agent " ++ quoted (name agent) ++ " has database access capabilities"))
    else None);
  mkRule "email-capability" (fun _ agent =>
    if anyEvidenceMatches emailPatterns agent then
      Some (mkRiskFlag high "email-capability"
              ("Agent " ++ quoted (name agent) ++ " may be able to send emails"))
    else if capability canSendEmail agent then
      Some (mkRiskFlag high "email-capability"
              ("Agent " ++ quoted (name agent) ++ " can send emails"))
    else None);
  mkRule "agent-spawning" (fun _ agent =>
    if anyEvidenceMatches spawnPatterns agent then
      Some (mkRiskFlag medium "agent-spawning"
              ("Agent " ++ quoted (name agent) ++ " may spawn sub-agents"))
    else if capability canSpawnAgents agent then
      Some (mkRiskFlag medium "agent-spawning"
              ("Agent " ++ quoted (name agent) ++ " can spawn sub-agents"))
    else None);
  mkRule "external-api" (fun _ agent =>
    if anyEvidenceMatches apiPatterns agent then
      Some (mkRiskFlag low "external-api"
              ("Agent " ++ quoted (name agent) ++ " may make external API calls"))
    else None);
  mkRule "multiple-frameworks" (fun _ _ => None) ].

(** Evaluate all risk rules against a single agent. *)
Definition evaluateAgentRisks (w : World) (agent : AgentRecord) : list RiskFlag :=
  fold_left (fun risks rule =>
               match evaluate rule w agent with
               | Some result => risks ++ [result]
               | None => risks
               end) RISK_RULES [].

Record RiskSummary : Type := mkRiskSummary {
  count_critical : nat;
  count_high : nat;
  count_medium : nat;
  count_low : nat;
  details : list RiskFlag
}.

(** [counts[risk.severity]++] and [allRisks.push(risk)] *)
Definition countRisk (s : RiskSummary) (risk : RiskFlag) : RiskSummary :=
  let d := details s ++ [risk] in
  match severity risk with
  | critical => mkRiskSummary (S (count_critical s)) (count_high s) (count_medium s) (count_low s) d
  | high => mkRiskSummary (count_critical s) (S (count_high s)) (count_medium s) (count_low s) d
  | medium => mkRiskSummary (count_critical s) (count_high s) (S (count_medium s)) (count_low s) d
  | low => mkRiskSummary (count_critical s) (count_high s) (count_medium s) (S (count_low s)) d
  end.

(** The size of [new Set(agents.map((a) => a.framework))]. *)
Definition uniqueFrameworks (agents : list AgentRecord) : nat :=
  List.length (Patterns.uniqueStrings [] (map (fun a => frameworkName (framework a)) agents)).

(** Enrich all agents with risk flags and compute scan-level risk summary. *)
Definition enrichWithRisks (w : World) (agents : list AgentRecord)
  : RiskSummary * list AgentRecord :=
  let '(summary, agents') :=
    fold_left (fun '(summary, done) agent =>
                 let agentRisks := evaluateAgentRisks w agent in
                 (fold_left countRisk agentRisks summary,
                  done ++ [withRisks agent agentRisks]))
              agents (mkRiskSummary 0 0 0 0 [], []) in
  let n := uniqueFrameworks agents' in
  let summary :=
    if (4 <=? n)%nat then
      countRisk summary
        (mkRiskFlag medium "framework-sprawl"
           (Js.showZ (Z.of_nat n)
              ++ " different agent frameworks detected — consider standardizing"))
    else summary in
  let summary :=
    if (20 <? List.length agents')%nat then
      countRisk summary
        (mkRiskFlag high "high-agent-count"
           (Js.showZ (Z.of_nat (List.length agents'))
              ++ " agents detected — governance becomes critical at this scale"))
    else summary in
  (summary, agents').

(* ------------------------------------------------------------------ *)
(** ** [analyzers/confidence.ts] *)

Module CONFIDENCE_THRESHOLDS.
Definition REPORT : Q := 0.4.
Definition AUTO_CONFIRM : Q := 0.8.
Definition LOW : Q := 0.3.
Definition MEDIUM : Q := 0.6.
Definition HIGH : Q := 0.8.
End CONFIDENCE_THRESHOLDS.

(* ------------------------------------------------------------------ *)
(** ** [scanners/local.ts] *)

Record GithubOptions : Type := mkGithub {
  org : string;
  token : string;
  repos : option (list string)
}.

(** [ScanOptions]; [format], [outputPath] and [verbose] belong to the
    command line and are not read by the scanner. *)
Record ScanOptions : Type := mkOptions {
  path : option string;
  github : option GithubOptions;
  excludePatterns : option (list string);
  confidenceThreshold : option Q;
  maxFiles : option Z
}.

Inductive Phase : Type := discovering | scanning | analyzing | enriching | complete.

Record ScanProgress : Type := mkProgress {
  phase : Phase;
  filesDiscovered : nat;
  filesScanned : nat;
  agentsFound : nat;
  currentFile : option string
}.

Record ScanSummary : Type := mkSummary {
  totalAgents : nat;
  totalFiles : nat;
  totalRepositories : nat;
  scanPath : string
}.

Record ScanMetadata : Type := mkMetadata {
  paths : list string;
  excludedPaths : list string;
  usedConfidenceThreshold : Q;
  version : string
}.

(** [ScanResult]; the wall-clock fields [scanDuration] and [timestamp] are
    left out, and [scanType] is always ["local"]. *)
Record ScanResult : Type := mkResult {
  summary : ScanSummary;
  agents : list AgentRecord;
  frameworkBreakdown : JsMap nat;
  riskSummary : RiskSummary;
  metadata : ScanMetadata
}.

Definition VERSION : string := "0.1.0".

(** Analyze a dependency file for agent framework dependencies. *)
Definition analyzeDependencyFile (w : World) (content filePath fileName : string)
  : list DetectionEvidence :=
  let isPython (d : DependencyMapping.t) :=
    match DependencyMapping.lang d with
    | DependencyMapping.DepPython | DependencyMapping.DepAny => true
    | _ => false
    end in
  let isJs (d : DependencyMapping.t) :=
    match DependencyMapping.lang d with
    | DependencyMapping.DepTypescript | DependencyMapping.DepJavascript
    | DependencyMapping.DepAny => true
    | _ => false
    end in
  if String.eqb fileName "requirements.txt" || String.eqb fileName "Pipfile" then
    fold_left (fun evidence line =>
      let lowered := Js.toLowerCase (Js.trim line) in
      let firstPiece :=
        match RegExp_exec (re "[>=<![#;]") lowered with
        | Some m => Js.take (Re.index m) lowered
        | None => lowered
        end in
      let cleanLine := Js.trim firstPiece in
      match find (fun d => String.eqb (DependencyMapping.name d) cleanLine && isPython d)
                 Patterns.DEPENDENCY_MAPPINGS with
      | Some match_ =>
          evidence ++
            [ {| type := dependency;
                 pattern := DependencyMapping.name match_;
                 matchedText := Js.take 200 (Js.trim line);
                 filePath := filePath;
                 line := None;
                 confidenceContribution := DependencyMapping.confidence match_ |} ]
      | None => evidence
      end) (Js.split Js.newline content) []
  else if String.eqb fileName "pyproject.toml" then
    fold_left (fun evidence dep =>
      if negb (isPython dep) then evidence
      else if Js.includes content (quoted (DependencyMapping.name dep))
              || Js.includes content ("'" ++ DependencyMapping.name dep ++ "'")
              || Js.includes content (DependencyMapping.name dep) then
        evidence ++
          [ {| type := dependency;
               pattern := DependencyMapping.name dep;
               matchedText := DependencyMapping.name dep;
               filePath := filePath;
               line := None;
               confidenceContribution := DependencyMapping.confidence dep |} ]
      else evidence) Patterns.DEPENDENCY_MAPPINGS []
  else if String.eqb fileName "package.json" then
    match parsePackageJson w content with
    | Some (deps, devDeps) =>
        let allDeps : JsMap string :=
          fold_left (fun o '(k, v) => Map_set k v o) (deps ++ devDeps) [] in
        fold_left (fun evidence '(depName, depVersion) =>
          match find (fun d => String.eqb (DependencyMapping.name d) depName && isJs d)
                     Patterns.DEPENDENCY_MAPPINGS with
          | Some match_ =>
              evidence ++
                [ {| type := dependency;
                     pattern := DependencyMapping.name match_;
                     matchedText := depName ++ ": " ++ depVersion;
                     filePath := filePath;
                     line := None;
                     confidenceContribution := DependencyMapping.confidence match_ |} ]
          | None => evidence
          end) allDeps []
    | None => []
    end
  else [].

(** The text put in place of a matched key. *)
Definition redacted (provider : string) : string :=
  provider ++ " API key detected (value redacted)".

(** Analyze .env files for AI-related API keys. *)
Definition analyzeEnvFile (content filePath : string) : list DetectionEvidence :=
  fold_left (fun evidence envPattern =>
    if RegExp_test (EnvVarPattern.pattern envPattern) content then
      evidence ++
        [ {| type := env_var;
             pattern := source (EnvVarPattern.pattern envPattern);
             matchedText := redacted (EnvVarPattern.provider envPattern);
             filePath := filePath;
             line := None;
             confidenceContribution := EnvVarPattern.confidence envPattern |} ]
    else evidence) Patterns.ENV_VAR_PATTERNS [].

(** [agent.evidence.some((e) => e.type === t && e.pattern === p)] *)
Definition alreadyHas (t : EvidenceType) (p : string) (agent : AgentRecord) : bool :=
  existsb (fun e => EvidenceType_eqb (type e) t && String.eqb (pattern e) p) (evidence agent).

(** The body of the loop over the agents in [enrichWithDependencies]. *)
Definition addDependency (dep : DetectionEvidence) (mapping : DependencyMapping.t)
           (agent : AgentRecord) : AgentRecord :=
  if AgentFramework_eqb (framework agent) (DependencyMapping.framework mapping) then
    if negb (alreadyHas dependency (pattern dep) agent) then
      withEvidence agent (evidence agent ++ [dep])
        (Js.Math_min 1.0 (confidence agent + confidenceContribution dep * 0.5))
    else agent
  else agent.

(** [for (const agent of agentMap.values()) body]: every record is updated
    in place, keys and order stay. *)
Definition forEachAgent (body : AgentRecord -> AgentRecord) (agentMap : JsMap AgentRecord)
  : JsMap AgentRecord :=
  map (fun '(k, agent) => (k, body agent)) agentMap.

(** Enrich agent records with dependency evidence. *)
Definition enrichWithDependencies (agentMap : JsMap AgentRecord)
           (depEvidence : list DetectionEvidence) : JsMap AgentRecord :=
  fold_left (fun agentMap dep =>
    match find (fun d => String.eqb (DependencyMapping.name d) (pattern dep))
               Patterns.DEPENDENCY_MAPPINGS with
    | None => agentMap
    | Some mapping => forEachAgent (addDependency dep mapping) agentMap
    end) depEvidence agentMap.

(** The body of the loop over the agents in [enrichWithEnvVars]. *)
Definition addEnvVar (env : DetectionEvidence) (agent : AgentRecord) : AgentRecord :=
  if negb (alreadyHas env_var (pattern env) agent) then
    withEvidence agent (evidence agent ++ [env]) (Js.Math_min 1.0 (confidence agent + 0.05))
  else agent.

(** Enrich agent records with environment variable evidence. *)
Definition enrichWithEnvVars (agentMap : JsMap AgentRecord)
           (envEvidence : list DetectionEvidence) : JsMap AgentRecord :=
  fold_left (fun agentMap env => forEachAgent (addEnvVar env) agentMap) envEvidence agentMap.

(** [a.slice(0, n)] for an integer [n]; a negative [n] counts from the end. *)
Definition Array_slice0 {A} (n : Z) (l : list A) : list A :=
  if (0 <=? n)%Z then firstn (Z.to_nat n) l
  else firstn (List.length l - Z.to_nat (- n)) l.

(** [a.sort(compare)]: the stable sort, by insertion from the right. *)
Fixpoint Array_sort_insert {A} (compare : A -> A -> Q) (x : A) (l : list A) : list A :=
  match l with
  | [] => [x]
  | y :: l' =>
      if Qle_bool (compare x y) 0 then x :: l else y :: Array_sort_insert compare x l'
  end.

Definition Array_sort {A} (compare : A -> A -> Q) (l : list A) : list A :=
  fold_right (Array_sort_insert compare) [] l.

(** The variables of [scanLocal] that change in the loop over the files,
    with the progress records handed to [onProgress] so far and the number
    of identifiers drawn. *)
Record ScanState : Type := mkState {
  agentMap : JsMap AgentRecord;
  dependencyEvidence : list DetectionEvidence;
  envEvidence : list DetectionEvidence;
  progress : ScanProgress;
  reported : list ScanProgress;
  drawn : nat
}.

(** [onProgress?.(progress)] after an update of [progress]. *)
Definition report (f : ScanProgress -> ScanProgress) (st : ScanState) : ScanState :=
  let p := f (progress st) in
  mkState (agentMap st) (dependencyEvidence st) (envEvidence st) p (reported st ++ [p])
          (drawn st).

Definition setPhase (ph : Phase) (p : ScanProgress) : ScanProgress :=
  mkProgress ph (filesDiscovered p) (filesScanned p) (agentsFound p) (currentFile p).

Definition setCurrentFile (f : string) (p : ScanProgress) : ScanProgress :=
  mkProgress (phase p) (filesDiscovered p) (filesScanned p) (agentsFound p) (Some f).

Definition setAgentsFound (n : nat) (p : ScanProgress) : ScanProgress :=
  mkProgress (phase p) (filesDiscovered p) (filesScanned p) n (currentFile p).

Definition incrFilesScanned (p : ScanProgress) : ScanProgress :=
  mkProgress (phase p) (filesDiscovered p) (S (filesScanned p)) (agentsFound p) (currentFile p).

(** [agentMap.set(agentKey, record)] with a fresh identifier, then the
    progress update. *)
Definition addAgent (w : World) (agentKey : string) (mk : string -> AgentRecord)
           (st : ScanState) : ScanState :=
  let record := mk ("ag_" ++ randomUUID w (drawn st))%string in
  let m := Map_set agentKey record (agentMap st) in
  report (setAgentsFound (Map_size m))
         (mkState m (dependencyEvidence st) (envEvidence st) (progress st) (reported st)
                  (S (drawn st))).

Definition agentKeyOf (f : AgentFramework) (file : string) : string :=
  frameworkName f ++ ":" ++ file.

(** The body of the loop over [result.detections]. *)
Definition addDetection (w : World) (confidenceThreshold : Q) (file fullPath : string)
           (language : Language) (st : ScanState) (detection : FileDetection.t) : ScanState :=
  if Qle_bool confidenceThreshold (FileDetection.totalConfidence detection) then
    let agentKey := agentKeyOf (FileDetection.framework detection) file in
    if negb (Map_has agentKey (agentMap st)) then
      let content := readFile w fullPath in
      addAgent w agentKey
        (fun id =>
           {| id := id;
              name := extractAgentName file content;
              framework := FileDetection.framework detection;
              confidence := FileDetection.totalConfidence detection;
              location_filePath := file;
              metadata_language := language;
              metadata_entryPoint := Some file;
              metadata_owner := None;
              metadata_lastModified := None;
              capabilities := None;
              risks := None;
              evidence := FileDetection.evidence detection |}) st
    else st
  else st.

Definition pushDependencyEvidence (ev : list DetectionEvidence) (st : ScanState) : ScanState :=
  mkState (agentMap st) (dependencyEvidence st ++ ev) (envEvidence st) (progress st)
          (reported st) (drawn st).

Definition pushEnvEvidence (ev : list DetectionEvidence) (st : ScanState) : ScanState :=
  mkState (agentMap st) (dependencyEvidence st) (envEvidence st ++ ev) (progress st)
          (reported st) (drawn st).

(** The source-file step of the loop body. *)
Definition scanSource (w : World) (confidenceThreshold : Q) (file fullPath ext : string)
           (st : ScanState) : ScanState :=
  match Patterns.lookupExtension ext Patterns.LANGUAGE_EXTENSIONS with
  | Some _ =>
      let result := analyzeFile w fullPath in
      fold_left (addDetection w confidenceThreshold file fullPath
                              (FileAnalysisResult.language result))
                (FileAnalysisResult.detections result) st
  | None => st
  end.

(** The dependency-file step. *)
Definition scanDependencies (w : World) (depFileNames : list string)
           (file fullPath name : string) (st : ScanState) : ScanState :=
  if Patterns.Array_includes depFileNames name then
    match readFile w fullPath with
    | Some content => pushDependencyEvidence (analyzeDependencyFile w content file name) st
    | None => st
    end
  else st.

(** The [.env] step. *)
Definition scanEnv (w : World) (file fullPath name : string) (st : ScanState) : ScanState :=
  if String.eqb name ".env" || Js.startsWith ".env." name then
    match readFile w fullPath with
    | Some content => pushEnvEvidence (analyzeEnvFile content file) st
    | None => st
    end
  else st.

(** The agent-config step. *)
Definition scanConfig (w : World) (configFileNames : list string) (file name : string)
           (st : ScanState) : ScanState :=
  if Patterns.Array_includes configFileNames name then
    let configEvidence :=
      {| type := config_file;
         pattern := name;
         matchedText := name;
         filePath := file;
         line := None;
         confidenceContribution := 0.1 |} in
    if String.eqb name "crewai.yaml" || String.eqb name "crewai.yml" then
      let agentKey := ("crewai:" ++ file)%string in
      if negb (Map_has agentKey (agentMap st)) then
        addAgent w agentKey
          (fun id =>
             {| id := id;
                name := "CrewAI Agent";
                framework := crewai;
                confidence := 0.7;
                location_filePath := file;
                metadata_language := python;
                metadata_entryPoint := None;
                metadata_owner := None;
                metadata_lastModified := None;
                capabilities := None;
                risks := None;
                evidence :=
                  [ mkEvidence (type configEvidence) (pattern configEvidence)
                               (matchedText configEvidence) (filePath configEvidence)
                               (line configEvidence) 0.7 ] |}) st
      else st
    else st
  else st.

(** The body of [for (const file of files)]. *)
Definition scanFile (w : World) (scanPath : string) (confidenceThreshold : Q)
           (configFileNames depFileNames : list string)
           (st : ScanState) (file : string) : ScanState :=
  let fullPath := Path.join scanPath file in
  let st := report (setCurrentFile file) st in
  match stat w fullPath with
  | None => st
  | Some size =>
      if (Patterns.MAX_FILE_SIZE <? size)%N then st
      else
        let ext := Js.toLowerCase (Path.extname file) in
        let name := Path.basename file in
        let st := scanSource w confidenceThreshold file fullPath ext st in
        let st := scanDependencies w depFileNames file fullPath name st in
        let st := scanEnv w file fullPath name st in
        let st := scanConfig w configFileNames file name st in
        report incrFilesScanned st
  end.

(** The files to examine: the glob result, filtered through the ignore
    rules, cut at [maxFiles]. *)
Definition discover (w : World) (options : ScanOptions) (scanPath : string) : list string :=
  let maxFiles := match maxFiles options with Some n => n | None => 10000%Z end in
  let gitignore :=
    match readFile w (Path.join scanPath ".gitignore") with
    | Some gitignoreContent => [IgnoreText gitignoreContent]
    | None => []
    end in
  let ig :=
    gitignore ++ [IgnoreList Patterns.SKIP_DIRECTORIES]
      ++ match excludePatterns options with
         | Some ex => [IgnoreList ex]
         | None => []
         end in
  let sourceExtensions := map fst Patterns.LANGUAGE_EXTENSIONS in
  let globPatterns :=
    map (fun ext => "**/*" ++ ext)%string sourceExtensions
      ++ map (fun name => "**/" ++ name)%string Patterns.getAgentConfigFileNames
      ++ map (fun name => "**/" ++ name)%string Patterns.DEPENDENCY_FILES
      ++ ["**/.env"; "**/.env.*"; "**/Dockerfile"; "**/Dockerfile.*"] in
  let allFiles :=
    fg w globPatterns scanPath
       (map (fun d => "**/" ++ d ++ "/**")%string Patterns.SKIP_DIRECTORIES) in
  Array_slice0 maxFiles (filter (fun f => negb (ignores w ig f)) allFiles).

Definition scanPathOf (w : World) (options : ScanOptions) : string :=
  resolve w (match path options with Some p => p | None => process_cwd w end).

Definition thresholdOf (options : ScanOptions) : Q :=
  match confidenceThreshold options with
  | Some t => t
  | None => CONFIDENCE_THRESHOLDS.REPORT
  end.

(** The state of [scanLocal] when the loop over the files is done. *)
Definition scanFiles (w : World) (options : ScanOptions) : ScanState :=
  let scanPath := scanPathOf w options in
  let confidenceThreshold := thresholdOf options in
  let st :=
    report (fun p => p)
           (mkState [] [] [] (mkProgress discovering 0 0 0 None) [] 0) in
  let files := discover w options scanPath in
  let st :=
    report (fun p => mkProgress scanning (List.length files) (filesScanned p)
                                (agentsFound p) (currentFile p)) st in
  fold_left (scanFile w scanPath confidenceThreshold Patterns.getAgentConfigFileNames
                      Patterns.DEPENDENCY_FILES) files st.

(** The registry once the dependency and environment evidence is folded
    in. *)
Definition enrichedAgents (w : World) (options : ScanOptions) : JsMap AgentRecord :=
  let st := scanFiles w options in
  enrichWithEnvVars (enrichWithDependencies (agentMap st) (dependencyEvidence st))
                    (envEvidence st).

(** Scan a local directory for AI agent frameworks: the progress records
    handed to [onProgress] and the result. *)
Definition scanLocal (w : World) (options : ScanOptions) : list ScanProgress * ScanResult :=
  let scanPath := scanPathOf w options in
  let st := scanFiles w options in
  let files := discover w options scanPath in
  let st :=
    mkState (enrichedAgents w options) (dependencyEvidence st) (envEvidence st)
            (progress st) (reported st) (drawn st) in
  let st := report (setPhase enriching) st in
  let agents :=
    Array_sort (fun a b => confidence b - confidence a) (Map_values (agentMap st)) in
  let agents := enrichWithGitBlame w agents scanPath in
  let '(risks, agents) := enrichWithRisks w agents in
  let st := report (setPhase complete) st in
  let frameworkBreakdown : JsMap nat :=
    fold_left (fun fb agent =>
                 let k := frameworkName (framework agent) in
                 Map_set k (match Map_get k fb with Some n => n | None => 0%nat end + 1)%nat fb)
              agents [] in
  (reported st,
   {| summary := mkSummary (List.length agents) (List.length files) 1 scanPath;
      agents := agents;
      frameworkBreakdown := frameworkBreakdown;
      riskSummary := risks;
      metadata := mkMetadata [scanPath] Patterns.SKIP_DIRECTORIES (thresholdOf options)
                             VERSION |}).

(* ------------------------------------------------------------------ *)
(** ** [orchestrator.ts] *)

Inductive Outcome (A : Type) : Type :=
| Returned (value : A)
| Threw (message : string).
Arguments Returned {A} value.
Arguments Threw {A} message.

(** Main scan orchestrator: the progress records handed to [onProgress]
    and the outcome. *)
Definition scan (w : World) (options : ScanOptions) : list ScanProgress * Outcome ScanResult :=
  match github options with
  | Some _ =>
      ([], Threw "GitHub scanning is not yet implemented. Use local scanning: agentgov audit --path /your/code")
  | None =>
      let '(reported, result) := scanLocal w options in
      (reported, Returned result)
  end.

(* ------------------------------------------------------------------ *)
(** ** A small world for examples: a directory given as a list of files *)

Definition treeWorld (root : string) (files : list (string * string)) : World :=
  let lookup (p : string) : option string :=
    match find (fun '(f, _) => String.eqb (Path.join root f) p) files with
    | Some (_, content) => Some content
    | None => None
    end in
  {| process_cwd := root;
     resolve := fun p => p;
     fg := fun _ _ _ => map fst files;
     ignores := fun _ _ => false;
     readFile := lookup;
     stat := fun p => match lookup p with
                      | Some c => Some (N.of_nat (String.length c))
                      | None => None
                      end;
     randomUUID := fun n => Js.showZ (Z.of_nat n);
     parsePackageJson := fun _ => None;
     isInsideWorkTree := fun _ => false;
     gitLog := fun _ _ => None;
     Date_parse := fun _ => 0%Z;
     Date_now := 0%Z;
     sixMonthsAgo := 0%Z |}.

Definition defaultOptions : ScanOptions := mkOptions None None None None None.

(* ------------------------------------------------------------------ *)
(** ** The specification side of confidence aggregation

    The aggregate as section 4.3 words it: the sum of the contributions,
    plus 0.10 when at least two distinct categories occur, rounded to two
    decimal places, clamped to 1. *)

Definition EvidenceType_eq_dec (a b : EvidenceType) : {a = b} + {a <> b}.
Proof. decide equality. Defined.

Definition sumContributions (evidence : list DetectionEvidence) : Q :=
  fold_right (fun e acc => confidenceContribution e + acc) 0 evidence.

Definition distinctCategories (evidence : list DetectionEvidence) : nat :=
  List.length (nodup EvidenceType_eq_dec (map type evidence)).

Definition corroborationBonus (evidence : list DetectionEvidence) : Q :=
  if (2 <=? distinctCategories evidence)%nat then 0.1 else 0.

Definition roundTwoDecimals (x : Q) : Q := inject_Z (Qfloor (x * 100 + (1 # 2))) / 100.

Definition aggregateConfidence (evidence : list DetectionEvidence) : Q :=
  Qmin 1 (roundTwoDecimals (sumContributions evidence + corroborationBonus evidence)).

(* ------------------------------------------------------------------ *)
(** ** Predicates and examples used in the statements *)

Definition exampleEvidence : list DetectionEvidence :=
  [ mkEvidence import "from\s+crewai\s+import" "from crewai import" "crew.py" (Some 1%nat) 0.3;
    mkEvidence instantiation "Crew\s*\(" "Crew(" "crew.py" (Some 9%nat) 0.3 ].

(** What one pattern definition contributes for the lines of a file: the
    evidence of its first matching line, with the 1-based number of that
    line, or nothing when no line matches. *)
Definition FirstMatch (patternDef : PatternDefinition.t) (filePath : string)
           (lines : list string) (r : option DetectionEvidence) : Prop :=
  match r with
  | Some e =>
      exists (n : nat) (l : string) (m : Re.matchResult),
        nth_error lines n = Some l
        /\ RegExp_exec (PatternDefinition.pattern patternDef) l = Some m
        /\ (forall k l', (k < n)%nat -> nth_error lines k = Some l' ->
                         RegExp_exec (PatternDefinition.pattern patternDef) l' = None)
        /\ e = {| type := PatternDefinition.type patternDef;
                  pattern := source (PatternDefinition.pattern patternDef);
                  matchedText := truncate (Re.m0 m) 200;
                  filePath := filePath;
                  line := Some (n + 1)%nat;
                  confidenceContribution := PatternDefinition.confidence patternDef |}
  | None =>
      forall l, In l lines -> RegExp_exec (PatternDefinition.pattern patternDef) l = None
  end.

Definition optionToList {A} (o : option A) : list A :=
  match o with Some a => [a] | None => [] end.

(** The records the file loop can put in the registry, with their keys. *)
Inductive Inserted (w : World) (scanPath : string) (threshold : Q)
  : string -> AgentRecord -> Prop :=
| Inserted_source (file : string) (detection : FileDetection.t) (id_ name_ : string)
                  (language : Language) :
    Patterns.lookupExtension (Js.toLowerCase (Path.extname file))
                             Patterns.LANGUAGE_EXTENSIONS <> None ->
    In detection (FileAnalysisResult.detections (analyzeFile w (Path.join scanPath file))) ->
    Qle_bool threshold (FileDetection.totalConfidence detection) = true ->
    Inserted w scanPath threshold
      (agentKeyOf (FileDetection.framework detection) file)
      {| id := id_;
         name := name_;
         framework := FileDetection.framework detection;
         confidence := FileDetection.totalConfidence detection;
         location_filePath := file;
         metadata_language := language;
         metadata_entryPoint := Some file;
         metadata_owner := None;
         metadata_lastModified := None;
         capabilities := None;
         risks := None;
         evidence := FileDetection.evidence detection |}
| Inserted_config (file : string) (id_ : string) :
    Path.basename file = "crewai.yaml" \/ Path.basename file = "crewai.yml" ->
    Inserted w scanPath threshold
      (agentKeyOf crewai file)
      {| id := id_;
         name := "CrewAI Agent";
         framework := crewai;
         confidence := 0.7;
         location_filePath := file;
         metadata_language := python;
         metadata_entryPoint := None;
         metadata_owner := None;
         metadata_lastModified := None;
         capabilities := None;
         risks := None;
         evidence :=
           [ mkEvidence config_file (Path.basename file) (Path.basename file) file None 0.7 ] |}.

Definition StateOk (PA : JsMap AgentRecord -> Prop) (PD PE : DetectionEvidence -> Prop)
           (st : ScanState) : Prop :=
  PA (agentMap st) /\ Forall PD (dependencyEvidence st) /\ Forall PE (envEvidence st).

Definition sourceCategory (t : EvidenceType) : bool :=
  match t with
  | import | instantiation | code_pattern => true
  | _ => false
  end.

Definition patternOk (pd : PatternDefinition.t) : bool :=
  Qle_bool 0 (PatternDefinition.confidence pd)
  && Qle_bool (PatternDefinition.confidence pd) 1
  && sourceCategory (PatternDefinition.type pd).

Definition frameworkOk (fp : FrameworkPatterns.t) : bool :=
  forallb patternOk (FrameworkPatterns.imports fp ++ FrameworkPatterns.instantiations fp).

(** The pattern sets [detectFrameworks] runs for a language. *)
Definition uniquePatternsFor (language : Language) : list FrameworkPatterns.t :=
  let patterns := Patterns.getPatternsForLanguage language in
  deduplicatePatterns
    match language with
    | typescript => patterns ++ Patterns.getPatternsForLanguage javascript
    | javascript => patterns ++ Patterns.getPatternsForLanguage typescript
    | _ => patterns
    end.

(** Evidence found in a source file. *)
Definition SourceEvidence (e : DetectionEvidence) : Prop :=
  0 <= confidenceContribution e /\ sourceCategory (type e) = true.

(** A detection of a source file: non-empty source evidence, and the
    aggregate of that evidence as its total. *)
Definition DetectionOk (d : FileDetection.t) : Prop :=
  FileDetection.evidence d <> []
  /\ Forall SourceEvidence (FileDetection.evidence d)
  /\ FileDetection.totalConfidence d = calculateConfidence (FileDetection.evidence d).

(** Evidence read from a dependency manifest. *)
Definition DepEvidence (e : DetectionEvidence) : Prop :=
  type e = dependency /\ 0 <= confidenceContribution e.

(** Evidence read from an environment file: the text is the redaction of
    the provider of one of the registered patterns. *)
Definition Redacted (e : DetectionEvidence) : Prop :=
  exists p, In p Patterns.ENV_VAR_PATTERNS
            /\ pattern e = source (EnvVarPattern.pattern p)
            /\ matchedText e = redacted (EnvVarPattern.provider p).

Definition EnvEvidence (e : DetectionEvidence) : Prop := type e = env_var /\ Redacted e.

Definition isCrewaiConfig (file : string) : Prop :=
  Path.basename file = "crewai.yaml" \/ Path.basename file = "crewai.yml".

Definition AgentOk (k : string) (a : AgentRecord) : Prop :=
  k = agentKeyOf (framework a) (location_filePath a)
  /\ 0 <= confidence a <= 1
  /\ (isCrewaiConfig (location_filePath a) -> 0.7 <= confidence a)
  /\ Forall (fun e => type e = env_var -> Redacted e) (evidence a).

Definition RegistryOk (m : JsMap AgentRecord) : Prop :=
  NoDup (Map_keys m) /\ Forall (fun p => AgentOk (fst p) (snd p)) m.

(** The framework a dependency item is mapped to, as [enrichWithDependencies]
    looks it up. *)
Definition mappedFramework (dep : DetectionEvidence) : option AgentFramework :=
  match find (fun d => String.eqb (DependencyMapping.name d) (pattern dep))
             Patterns.DEPENDENCY_MAPPINGS with
  | Some mapping => Some (DependencyMapping.framework mapping)
  | None => None
  end.

(** No dependency item of the list boosts a crewai record. *)
Definition noCrewaiDependency (deps : list DetectionEvidence) : Prop :=
  forall dep, In dep deps -> mappedFramework dep <> Some crewai.

(** A record at a CrewAI configuration file that is as it was created. *)
Definition ConfigFresh (a : AgentRecord) : Prop :=
  isCrewaiConfig (location_filePath a) -> framework a = crewai /\ confidence a = 0.7.

(** What one dependency item does to one record. *)
Definition DependencyStep (dep : DetectionEvidence) (mapping : DependencyMapping.t)
           (a a' : AgentRecord) : Prop :=
  (framework a = DependencyMapping.framework mapping
   /\ (forall e, In e (evidence a) -> ~ (type e = dependency /\ pattern e = pattern dep))
   /\ exists c, c == Qmin 1 (confidence a + confidenceContribution dep / 2)
                /\ a' = withEvidence a (evidence a ++ [dep]) c)
  \/ ((framework a <> DependencyMapping.framework mapping
       \/ exists e, In e (evidence a) /\ type e = dependency /\ pattern e = pattern dep)
      /\ a' = a).

Definition byConfidence (a b : AgentRecord) : Q := confidence b - confidence a.

(** Descending confidence. *)
Definition confidenceGe (a b : AgentRecord) : Prop := confidence b <= confidence a.

(** What a record says about the detection itself. *)
Definition core (a : AgentRecord)
  : AgentFramework * string * Q * list DetectionEvidence :=
  (framework a, location_filePath a, confidence a, evidence a).

(** [if (!agentMap.has(k)) agentMap.set(k, ...)] on the keys. *)
Definition addKey (keys : list string) (k : string) : list string :=
  if Patterns.Array_includes keys k then keys else keys ++ [k].

(** The keys of the detections of a file that reach the threshold. *)
Definition detectionKeys (threshold : Q) (file : string) (ds : list FileDetection.t)
  : list string :=
  map (fun d => agentKeyOf (FileDetection.framework d) file)
      (filter (fun d => Qle_bool threshold (FileDetection.totalConfidence d)) ds).

(** The keys one file asks the registry to hold. *)
Definition fileKeys (w : World) (scanPath : string) (threshold : Q)
           (configFileNames : list string) (file : string) : list string :=
  match stat w (Path.join scanPath file) with
  | None => []
  | Some size =>
      if (Patterns.MAX_FILE_SIZE <? size)%N then []
      else
        match Patterns.lookupExtension (Js.toLowerCase (Path.extname file))
                                       Patterns.LANGUAGE_EXTENSIONS with
        | Some _ =>
            detectionKeys threshold file
              (FileAnalysisResult.detections (analyzeFile w (Path.join scanPath file)))
        | None => []
        end
        ++ (if Patterns.Array_includes configFileNames (Path.basename file)
               && (String.eqb (Path.basename file) "crewai.yaml"
                   || String.eqb (Path.basename file) "crewai.yml")
            then [agentKeyOf crewai file] else [])
  end.

(** The second state has all the progress records of the first, then
    maybe more. *)
Definition Extends (st st' : ScanState) : Prop :=
  exists l, reported st' = reported st ++ l.

(** The same request with another confidence threshold. *)
Definition withConfidenceThreshold (options : ScanOptions) (t : Q) : ScanOptions :=
  mkOptions (path options) (github options) (excludePatterns options) (Some t)
            (maxFiles options).

(** A project with a CrewAI configuration file and nothing else. *)
Definition configOnlyTree : World := treeWorld "/repo" [("crewai.yaml", "crew: demo")].

(** The same project with a dependency manifest that names crewai. *)
Definition configAndManifestTree : World :=
  treeWorld "/repo" [("crewai.yaml", "crew: demo"); ("requirements.txt", "crewai>=0.1")].

(** A project whose only file is a generic agent configuration file. *)
Definition genericConfigTree : World := treeWorld "/repo" [("agents.yaml", "agents: []")].

(** A project with one source file and an environment file. *)
Definition sourceAndEnvTree : World :=
  treeWorld "/repo" [("crew.py", "from crewai import Crew
crew = Crew(agents=[])"); (".env.local", "OPENAI_API_KEY=sk-abc123")].

Definition noAgent : AgentRecord :=
  mkAgent "" "" unknown_framework 0 "" unknown None None None None None [].

Definition sourceAndEnvAgent : AgentRecord :=
  Eval vm_compute in hd noAgent (agents (snd (scanLocal sourceAndEnvTree defaultOptions))).

Definition openaiKeyEvidence : DetectionEvidence :=
  mkEvidence env_var "OPENAI_API_KEY\s*=" "openai API key detected (value redacted)"
             ".env.local" None 0.1.

Definition crewRecord : AgentRecord :=
  mkAgent "ag_0" "Crew" crewai 0.7 "crew.py" python (Some "crew.py") None None None None
          exampleEvidence.

Definition crewaiDependency : DetectionEvidence :=
  mkEvidence dependency "crewai" "crewai>=0.1" "requirements.txt" None 0.3.

Definition githubRequest : ScanOptions :=
  mkOptions None (Some (mkGithub "testorg" "fake-token" None)) None None None.

(** The inline content of the LangChain test of [file-analyzer.test.ts]. *)
Definition langchainSample : string :=
  ("
from langchain.agents import AgentExecutor, create_react_agent
from langchain_openai import ChatOpenAI

llm = ChatOpenAI(model=" ++ Js.dquote ++ "gpt-4o" ++ Js.dquote ++ ")
agent = create_react_agent(llm, tools, prompt)
executor = AgentExecutor(agent=agent, tools=tools)
")%string.

(** The content of its line-number test. *)
Definition lineNumberSample : string :=
  ("import os
from langchain.agents import AgentExecutor
print(" ++ Js.dquote ++ "hello" ++ Js.dquote ++ ")")%string.

(** Every pattern of the sources. *)
Definition allRegExps : list RegExp :=
  flat_map (fun fp => map PatternDefinition.pattern
                          (FrameworkPatterns.imports fp ++ FrameworkPatterns.instantiations fp))
           Patterns.ALL_PATTERNS
  ++ map EnvVarPattern.pattern Patterns.ENV_VAR_PATTERNS
  ++ dbPatterns ++ emailPatterns ++ spawnPatterns ++ apiPatterns
  ++ [re "\.[^.]+$"; re "\b\w"; re "[_-]"; re "class\s+(\w*[Aa]gent\w*)";
      re "class\s+(\w*[Cc]rew\w*)"; re "[>=<![#;]"].

(* ------------------------------------------------------------------ *)
(** ** [analyzers/confidence.ts]: labels *)

(** Get a human-readable confidence label. *)
Definition getConfidenceLabel (confidence : Q) : string :=
  if Qle_bool CONFIDENCE_THRESHOLDS.HIGH confidence then "High"
  else if Qle_bool CONFIDENCE_THRESHOLDS.MEDIUM confidence then "Medium"
  else if Qle_bool CONFIDENCE_THRESHOLDS.REPORT confidence then "Low"
  else "Very Low".

(** Get a color for the confidence level. *)
Definition getConfidenceColor (confidence : Q) : string :=
  if Qle_bool CONFIDENCE_THRESHOLDS.HIGH confidence then "green"
  else if Qle_bool CONFIDENCE_THRESHOLDS.MEDIUM confidence then "yellow"
  else if Qle_bool CONFIDENCE_THRESHOLDS.REPORT confidence then "red"
  else "dim".

(** [new Set(items)] on evidence types. *)
Definition Set_from (items : list EvidenceType) : list EvidenceType :=
  fold_left (fun s x => Set_add x s) items [].

(** [Set.prototype.has] *)
Definition Set_has (s : list EvidenceType) (x : EvidenceType) : bool :=
  existsb (EvidenceType_eqb x) s.

(** Summarize evidence into a brief explanation. *)
Definition summarizeEvidence (evidence : list DetectionEvidence) : string :=
  let types := Set_from (map type evidence) in
  let push (t : EvidenceType) (text : string) (parts : list string) : list string :=
    if Set_has types t then parts ++ [text] else parts in
  let parts := [] in
  let parts := push import "import detected" parts in
  let parts := push instantiation "agent instantiation found" parts in
  let parts := push config_file "config file present" parts in
  let parts := push dependency "framework in dependencies" parts in
  let parts := push env_var "API key in environment" parts in
  let parts := push code_pattern "agent code pattern matched" parts in
  String.concat ", " parts.

(* ------------------------------------------------------------------ *)
(** ** [reporter/formatters]: the helpers of the HTML and terminal reports *)

(** [escapeHtml]: four replacements, one after the other. *)
Definition escapeHtml (str : string) : string :=
  String_replaceAll (re Js.dquote) (fun _ => "&quot;")
    (String_replaceAll (re ">") (fun _ => "&gt;")
       (String_replaceAll (re "<") (fun _ => "&lt;")
          (String_replaceAll (re "&") (fun _ => "&amp;") str))).

(** [getConfidenceClass] of the HTML report. *)
Definition getConfidenceClass (confidence : Q) : string :=
  if Qle_bool 0.8 confidence then "high"
  else if Qle_bool 0.6 confidence then "medium"
  else "low".

(** [truncatePath] of the terminal report. *)
Definition truncatePath (path : string) (maxLen : nat) : string :=
  if (String.length path <=? maxLen)%nat then path
  else "..." ++ Js.drop (String.length path - maxLen + 3) path.

(** [formatConfidence] of the terminal report; [pc.green(value)] and the
    like are given as the name of the colour and the text it paints. *)
Definition formatConfidence (confidence : Q) : string * string :=
  let value := (getConfidenceLabel confidence ++ " " ++ toFixed0 (confidence * 100) ++ "%")%string in
  if Qle_bool 0.8 confidence then ("green", value)
  else if Qle_bool 0.6 confidence then ("yellow", value)
  else if Qle_bool 0.4 confidence then ("red", value)
  else ("dim", value).

(* ------------------------------------------------------------------ *)
(** ** Notions used to state further properties *)

(** The replacement of one character by [escapeHtml]. *)
Definition escapeChar (c : ascii) : string :=
  if Ascii.eqb c "&" then "&amp;"
  else if Ascii.eqb c "<" then "&lt;"
  else if Ascii.eqb c ">" then "&gt;"
  else if Ascii.eqb c (ascii_of_nat 34) then "&quot;"
  else String c EmptyString.

(** Every character replaced on its own, in one pass. *)
Fixpoint escapeEach (s : string) : string :=
  match s with
  | EmptyString => EmptyString
  | String c s' => escapeChar c ++ escapeEach s'
  end.

(** Every character that a class accepts replaced by [by_] of it. *)
Fixpoint substituteClass (p : ascii -> bool) (by_ : string -> string) (s : string) : string :=
  match s with
  | EmptyString => EmptyString
  | String c s' =>
      if p c then by_ (String c EmptyString) ++ substituteClass p by_ s'
      else String c (substituteClass p by_ s')
  end.

(** Reading an escaped text back, one entity or character at a time. *)
Fixpoint unescapeHtml (fuel : nat) (s : string) : string :=
  match fuel with
  | O => EmptyString
  | S f =>
      if Js.startsWith "&amp;" s then String "&" (unescapeHtml f (Js.drop 5 s))
      else if Js.startsWith "&lt;" s then String "<" (unescapeHtml f (Js.drop 4 s))
      else if Js.startsWith "&gt;" s then String ">" (unescapeHtml f (Js.drop 4 s))
      else if Js.startsWith "&quot;" s then
        String (ascii_of_nat 34) (unescapeHtml f (Js.drop 6 s))
      else match s with
           | EmptyString => EmptyString
           | String c s' => String c (unescapeHtml f s')
           end
  end.


(** The pattern sets that name the framework [k]. *)
Definition sameFramework (k : string) (p : FrameworkPatterns.t) : bool :=
  String.eqb (frameworkName (FrameworkPatterns.framework p)) k.

(** What the patterns [defs] find in the [lines] of a file. *)
Definition patternMatches (file : string) (lines : list string)
           (defs : list PatternDefinition.t) : list DetectionEvidence :=
  List.concat (map (fun pd => optionToList (matchLines pd file lines 0)) defs).

(** The detection [detectFrameworks] makes of the evidence of a pattern
    set, if there is evidence. *)
Definition detectionOf (fp : FrameworkPatterns.t) (ev : list DetectionEvidence)
  : list FileDetection.t :=
  if (0 <? List.length ev)%nat then
    [ {| FileDetection.framework := FrameworkPatterns.framework fp;
         FileDetection.displayName := FrameworkPatterns.displayName fp;
         FileDetection.evidence := ev;
         FileDetection.totalConfidence := calculateConfidence ev |} ]
  else [].

(** What [deduplicatePatterns] makes of the pattern sets of [ps] that name
    the framework [k]. *)
Definition MergedAs (ps : list FrameworkPatterns.t) (k : string) (q : FrameworkPatterns.t)
  : Prop :=
  frameworkName (FrameworkPatterns.framework q) = k
  /\ FrameworkPatterns.imports q
     = flat_map FrameworkPatterns.imports (filter (sameFramework k) ps)
  /\ FrameworkPatterns.instantiations q
     = flat_map FrameworkPatterns.instantiations (filter (sameFramework k) ps)
  /\ exists p rest, filter (sameFramework k) ps = p :: rest
                    /\ FrameworkPatterns.displayName q = FrameworkPatterns.displayName p
                    /\ FrameworkPatterns.languages q = FrameworkPatterns.languages p.

(** The map [seen] once the pattern sets [ps] have been gone through. *)
Definition SeenOk (ps : list FrameworkPatterns.t) (seen : JsMap FrameworkPatterns.t) : Prop :=
  NoDup (Map_keys seen)
  /\ forall k, match Map_get k seen with
               | Some q => MergedAs ps k q
               | None => filter (sameFramework k) ps = []
               end.

(** The body of the loop of [deduplicatePatterns]. *)
Definition mergeStep (seen : JsMap FrameworkPatterns.t) (p : FrameworkPatterns.t)
  : JsMap FrameworkPatterns.t :=
  let key := frameworkName (FrameworkPatterns.framework p) in
  match Map_get key seen with
  | None => Map_set key p seen
  | Some existing =>
      Map_set key
        {| FrameworkPatterns.framework := FrameworkPatterns.framework existing;
           FrameworkPatterns.displayName := FrameworkPatterns.displayName existing;
           FrameworkPatterns.languages := FrameworkPatterns.languages existing;
           FrameworkPatterns.imports :=
             FrameworkPatterns.imports existing ++ FrameworkPatterns.imports p;
           FrameworkPatterns.instantiations :=
             FrameworkPatterns.instantiations existing
               ++ FrameworkPatterns.instantiations p;
           FrameworkPatterns.configFiles :=
             Some (orEmpty (FrameworkPatterns.configFiles existing)
                     ++ orEmpty (FrameworkPatterns.configFiles p));
           FrameworkPatterns.dependencies :=
             Some (orEmpty (FrameworkPatterns.dependencies existing)
                     ++ orEmpty (FrameworkPatterns.dependencies p)) |}
        seen
  end.


(** The pattern sets registered for TypeScript and JavaScript. *)
Definition jsPatternSets : list FrameworkPatterns.t :=
  [Patterns.langchainJsPatterns; Patterns.vercelAiPatterns; Patterns.openaiSdkJsPatterns].

(** A pattern set merged with itself by [deduplicatePatterns]. *)
Definition mergedWithItself (fp : FrameworkPatterns.t) : FrameworkPatterns.t :=
  {| FrameworkPatterns.framework := FrameworkPatterns.framework fp;
     FrameworkPatterns.displayName := FrameworkPatterns.displayName fp;
     FrameworkPatterns.languages := FrameworkPatterns.languages fp;
     FrameworkPatterns.imports := FrameworkPatterns.imports fp ++ FrameworkPatterns.imports fp;
     FrameworkPatterns.instantiations :=
       FrameworkPatterns.instantiations fp ++ FrameworkPatterns.instantiations fp;
     FrameworkPatterns.configFiles :=
       Some (orEmpty (FrameworkPatterns.configFiles fp)
               ++ orEmpty (FrameworkPatterns.configFiles fp));
     FrameworkPatterns.dependencies :=
       Some (orEmpty (FrameworkPatterns.dependencies fp)
               ++ orEmpty (FrameworkPatterns.dependencies fp)) |}.

(** The languages whose mappings a manifest of the given name is read
    with. *)
Definition manifestLanguage (fileName : string) (d : DependencyMapping.t) : Prop :=
  match DependencyMapping.lang d with
  | DependencyMapping.DepAny => True
  | DependencyMapping.DepPython => fileName <> "package.json"
  | _ => fileName = "package.json"
  end.

(** The manifests [analyzeDependencyFile] reads. *)
Definition readManifests : list string :=
  ["requirements.txt"; "Pipfile"; "pyproject.toml"; "package.json"].

(** What one dependency item does to one record in [enrichWithDependencies]. *)
Definition applyDependency (dep : DetectionEvidence) (agent : AgentRecord) : AgentRecord :=
  match find (fun d => String.eqb (DependencyMapping.name d) (pattern dep))
             Patterns.DEPENDENCY_MAPPINGS with
  | None => agent
  | Some mapping => addDependency dep mapping agent
  end.

(** The record [a'] is the record [a] with the items [added] at the end of
    its evidence and the confidence raised by [boost], up to 1. *)
Definition Enriched (a a' : AgentRecord) (added : list DetectionEvidence) (boost : Q) : Prop :=
  a' = withEvidence a (evidence a ++ added) (confidence a')
  /\ confidence a' == Qmin 1 (confidence a + boost).

(** Items of [deps] were added to the record [a], each mapped to its
    framework and none held before or added twice. *)
Definition SomeDependenciesAdded (deps : list DetectionEvidence) (a a' : AgentRecord)
           (added : list DetectionEvidence) : Prop :=
  Enriched a a' added (sumContributions added / 2)
  /\ NoDup (map pattern added)
  /\ Forall (fun dep => In dep deps
                        /\ mappedFramework dep = Some (framework a)
                        /\ alreadyHas dependency (pattern dep) a = false) added.

(** A dependency item that the record [a] can receive: its pattern is
    mapped to the framework of the record, which holds no dependency
    evidence for that pattern. *)
Definition eligibleDependency (a : AgentRecord) (dep : DetectionEvidence) : bool :=
  match mappedFramework dep with
  | Some f => AgentFramework_eqb f (framework a)
  | None => false
  end
  && negb (alreadyHas dependency (pattern dep) a).

(** The first item of each pattern, in order, patterns of [seen] apart. *)
Fixpoint firstOfEachPattern (seen : list string) (l : list DetectionEvidence)
  : list DetectionEvidence :=
  match l with
  | [] => []
  | d :: l' =>
      if Patterns.Array_includes seen (pattern d) then firstOfEachPattern seen l'
      else d :: firstOfEachPattern (seen ++ [pattern d]) l'
  end.

(** The items of [deps] that the record [a] receives: of the items it can
    receive, the first for each dependency, in the order of the list. *)
Definition newDependencies (deps : list DetectionEvidence) (a : AgentRecord)
  : list DetectionEvidence :=
  firstOfEachPattern [] (filter (eligibleDependency a) deps).

(** What [enrichWithDependencies] does to a record, given the items [deps]:
    the record receives exactly its new dependencies, and afterwards holds
    dependency evidence for every item of the list that is mapped to its
    framework. *)
Definition DependenciesAdded (deps : list DetectionEvidence) (a a' : AgentRecord) : Prop :=
  SomeDependenciesAdded deps a a' (newDependencies deps a)
  /\ Forall (fun dep => mappedFramework dep = Some (framework a) ->
                        alreadyHas dependency (pattern dep) a' = true) deps.

(** What [enrichWithEnvVars] does to a record, given the items [envs]. *)
Definition EnvVarsAdded (envs : list DetectionEvidence) (a a' : AgentRecord) : Prop :=
  exists added,
    Enriched a a' added (0.05 * inject_Z (Z.of_nat (List.length added)))
    /\ NoDup (map pattern added)
    /\ Forall (fun env => In env envs /\ alreadyHas env_var (pattern env) a = false) added
    /\ Forall (fun env => alreadyHas env_var (pattern env) a' = true) envs.

(** A record whose confidence is at least the threshold of the scan, or
    that stands for a CrewAI configuration file and has at least the fixed
    confidence of such a record. *)
Definition AboveFloor (threshold : Q) (a : AgentRecord) : Prop :=
  confidence a <= 1
  /\ (threshold <= confidence a
      \/ (framework a = crewai /\ isCrewaiConfig (location_filePath a)
          /\ 0.7 <= confidence a)).

(** [counts[k] ?? 0] *)
Definition getOr0 (k : string) (m : JsMap nat) : nat :=
  match Map_get k m with Some n => n | None => 0%nat end.

(** One more for the key of [x]. *)
Definition tally {A} (key : A -> string) (m : JsMap nat) (x : A) : JsMap nat :=
  Map_set (key x) (getOr0 (key x) m + 1)%nat m.

(** How many items of [l] have the key [k]. *)
Definition countBy {A} (key : A -> string) (k : string) (l : list A) : nat :=
  List.length (filter (fun x => String.eqb (key x) k) l).

(** The first progress record of a scan. *)
Definition firstProgress : ScanProgress := mkProgress discovering 0 0 0 None.

(** A progress record of the loop over [n] files of which at most [k] are
    done. *)
Definition Scanning (n k : nat) (p : ScanProgress) : Prop :=
  phase p = scanning /\ filesDiscovered p = n /\ (filesScanned p <= k)%nat.

(** The progress of the loop over [n] files when at most [k] are done: the
    progress record counts the registry, and it is the last of the records
    handed out, which follow the first record and are records of the
    loop. *)
Definition ProgressInv (n k : nat) (st : ScanState) : Prop :=
  Scanning n k (progress st)
  /\ agentsFound (progress st) = Map_size (agentMap st)
  /\ exists mid, reported st = firstProgress :: mid ++ [progress st]
                 /\ Forall (Scanning n k) mid.

(** The entries of a log that name an author. *)
Definition namedEntries (all : list GitLogEntry) : list GitLogEntry :=
  filter (fun e => negb (String.eqb (author_name e) "")) all.

(** The number of entries of a log by an author. *)
Definition commitsBy (all : list GitLogEntry) (author : string) : nat :=
  countBy author_name author all.

(** The choice of the owner in [getFileBlame]: the body of the loop over
    the counts. *)
Definition pickOwner : option string * nat -> string * nat -> option string * nat :=
  fun '(owner, maxCount) '(author, count) =>
    if (maxCount <? count)%nat then (Some author, count) else (owner, maxCount).

(** A project under version control, with the log of one file. *)
Definition gitTree : World :=
  let t := treeWorld "/repo" [("crew.py", "from crewai import Crew")] in
  {| process_cwd := process_cwd t;
     resolve := resolve t;
     fg := fg t;
     ignores := ignores t;
     readFile := readFile t;
     stat := stat t;
     randomUUID := randomUUID t;
     parsePackageJson := parsePackageJson t;
     isInsideWorkTree := fun _ => true;
     gitLog := fun _ _ =>
       Some [mkLogEntry "bob" "2024-03-01"; mkLogEntry "ann" "2024-02-01";
             mkLogEntry "" "2024-01-15"; mkLogEntry "ann" "2024-01-01"];
     Date_parse := Date_parse t;
     Date_now := Date_now t;
     sixMonthsAgo := sixMonthsAgo t |}.

(** The rule gives a flag for the agent. *)
Definition fires (w : World) (agent : AgentRecord) (rule : RiskRule) : bool :=
  match evaluate rule w agent with Some _ => true | None => false end.

(** The severity that the flags of a rule carry. *)
Definition ruleSeverity (ruleId : string) : RiskSeverity :=
  if String.eqb ruleId "email-capability" then high
  else if String.eqb ruleId "no-owner" || String.eqb ruleId "database-access"
          || String.eqb ruleId "agent-spawning" then medium
  else low.

(** The rules that can give a flag. *)
Definition agentRiskTypes : list string :=
  ["no-owner"; "stale-agent"; "low-confidence"; "database-access"; "email-capability";
   "agent-spawning"; "external-api"].

(** How many flags have the severity [s]. *)
Definition countSeverity (s : RiskSeverity) (flags : list RiskFlag) : nat :=
  List.length (filter (fun f => match severity f, s with
                                | critical, critical | high, high
                                | medium, medium | low, low => true
                                | _, _ => false
                                end) flags).

(** The two flags of [enrichWithRisks] that concern the scan as a whole. *)
Definition isScanLevel (f : RiskFlag) : bool :=
  String.eqb (riskType f) "framework-sprawl" || String.eqb (riskType f) "high-agent-count".

(** The counters of a summary are the tallies of its details. *)
Definition Tallied (s : RiskSummary) : Prop :=
  count_critical s = countSeverity critical (details s)
  /\ count_high s = countSeverity high (details s)
  /\ count_medium s = countSeverity medium (details s)
  /\ count_low s = countSeverity low (details s).

(** A record as the file loop and the two evidence enrichers leave it:
    without owner, date, capabilities and flags. *)
Definition Bare (a : AgentRecord) : Prop :=
  metadata_owner a = None /\ metadata_lastModified a = None
  /\ capabilities a = None /\ risks a = None.

(** A pattern that matches no empty text. *)
Fixpoint consuming (r : Re.regex) : bool :=
  match r with
  | Re.Chr _ | Re.Plus _ => true
  | Re.Grp r1 => consuming r1
  | Re.Seq r1 r2 => consuming r1 || consuming r2
  | Re.Alt r1 r2 => consuming r1 && consuming r2
  | _ => false
  end.

(** A pattern that ends with a capture group that matches no empty text. *)
Fixpoint capturing (r : Re.regex) : bool :=
  match r with
  | Re.Seq (Re.Grp r1) Re.Eps => consuming r1
  | Re.Seq _ r2 => capturing r2
  | _ => false
  end.

(** The pattern sets registered for Python. *)
Definition pythonPatternSets : list FrameworkPatterns.t :=
  [Patterns.langchainPatterns; Patterns.langgraphPatterns; Patterns.crewaiPatterns;
   Patterns.autogenPatterns; Patterns.semanticKernelPatterns; Patterns.haystackPatterns;
   Patterns.llamaindexPatterns; Patterns.openaiAssistantsPatterns;
   Patterns.anthropicPatterns; Patterns.awsBedrockPatterns; Patterns.googleVertexPatterns].

(** The identifier made of the [i]-th value of [randomUUID()]. *)
Definition idOf (w : World) (i : nat) : string := ("ag_" ++ randomUUID w i)%string.

(** The records of the registry carry the identifiers drawn so far, in the
    order in which they were drawn. *)
Definition IdsInv (w : World) (st : ScanState) : Prop :=
  map id (Map_values (agentMap st)) = map (idOf w) (seq 0 (drawn st)).

(* ------------------------------------------------------------------ *)
(** * Properties *)

(** ** The embedding on the inputs of the repository's tests *)

Example patterns_in_fragment :
  forallb (fun r => Re.wellFormed (ast r)) allRegExps = true.
Proof. vm_compute. reflexivity. Qed.

Example detectLanguage_tests :
  map detectLanguage
      ["agent.py"; "main.pyw"; "agent.ts"; "App.tsx"; "agent.js"; "agent.mjs"; "agent.cjs";
       "README.md"; "data.json"; "image.png"; "Dockerfile"]
  = [python; python; typescript; typescript; javascript; javascript; javascript;
     unknown; unknown; unknown; unknown].
Proof. vm_compute. reflexivity. Qed.

Example extractAgentName_tests :
  extractAgentName "billing.py" (Some "class BillingAgent:
    pass") = "BillingAgent"
  /\ extractAgentName "crew.py" (Some "class ResearchCrew:
    pass") = "ResearchCrew"
  /\ extractAgentName "langchain_agent.py" None = "Langchain Agent"
  /\ extractAgentName "my-cool-bot.ts" None = "My Cool Bot"
  /\ extractAgentName ".py" None = "Unknown Agent".
Proof. vm_compute. repeat split. Qed.

Example analyzeContent_langchain :
  exists d,
    FileAnalysisResult.detections (analyzeContent langchainSample "test.py" python) = [d]
    /\ FileDetection.framework d = langchain
    /\ 0.8 <= FileDetection.totalConfidence d
    /\ (3 <= List.length (FileDetection.evidence d))%nat.
Proof.
  eexists. split; [vm_compute; reflexivity|].
  split; [reflexivity|]. split; [discriminate | cbn; lia].
Qed.

Example analyzeContent_line_numbers :
  exists d e rest,
    FileAnalysisResult.detections (analyzeContent lineNumberSample "test.py" python) = [d]
    /\ FileDetection.evidence d = e :: rest
    /\ type e = import /\ line e = Some 2%nat /\ filePath e = "test.py".
Proof.
  eexists. eexists. eexists. split; [vm_compute; reflexivity|].
  split; [reflexivity|]. repeat split.
Qed.

Example env_key_is_not_echoed :
  let e := hd openaiKeyEvidence (analyzeEnvFile "OPENAI_API_KEY=sk-abc123" ".env.local") in
  matchedText e = "openai API key detected (value redacted)"
  /\ Js.includes (matchedText e) "redacted" = true
  /\ Js.includes (matchedText e) "sk-abc123" = false.
Proof. vm_compute. repeat split. Qed.

Example config_next_to_other_manifest :
  map (fun a => (framework a, location_filePath a, Qred (confidence a)))
      (agents (snd (scanLocal
                      (treeWorld "/repo" [("crewai.yaml", "crew: demo");
                                          ("requirements.txt", "langchain")])
                      defaultOptions)))
  = [(crewai, "crewai.yaml", 0.7)].
Proof. vm_compute. reflexivity. Qed.

Example no_agents_tree :
  agents (snd (scanLocal (treeWorld "/repo" [("app.py", "print(1)")]) defaultOptions)) = [].
Proof. vm_compute. reflexivity. Qed.

(** ** Numbers *)

Lemma Math_min_Qmin (x y : Q) : Js.Math_min x y == Qmin x y.
Proof.
  unfold Js.Math_min. destruct (Qle_bool x y) eqn:E.
  - apply Qle_bool_iff in E. symmetry. apply Q.min_l. exact E.
  - assert (H : ~ x <= y) by (intro H; apply Qle_bool_iff in H; congruence).
    symmetry. apply Q.min_r. apply Qlt_le_weak. apply Qnot_le_lt. exact H.
Qed.

Lemma Math_min_le_l (x y : Q) : Js.Math_min x y <= x.
Proof. rewrite Math_min_Qmin. apply Q.le_min_l. Qed.

Lemma Math_min_ge (x y z : Q) : z <= x -> z <= y -> z <= Js.Math_min x y.
Proof. intros. rewrite Math_min_Qmin. apply Q.min_glb; assumption. Qed.

(** ** Confidence aggregation *)

Lemma Set_add_In (x y : EvidenceType) (s : list EvidenceType) :
  In y (Set_add x s) <-> y = x \/ In y s.
Proof.
  unfold Set_add. destruct (existsb (EvidenceType_eqb x) s) eqn:E.
  - split; [auto|]. intros [-> | H]; [|exact H].
    apply existsb_exists in E. destruct E as [z [Hz Hxz]].
    destruct x, z; simpl in Hxz; try discriminate; exact Hz.
  - rewrite in_app_iff. simpl. intuition.
Qed.

Lemma Set_add_NoDup (x : EvidenceType) (s : list EvidenceType) :
  NoDup s -> NoDup (Set_add x s).
Proof.
  intros H. unfold Set_add. destruct (existsb (EvidenceType_eqb x) s) eqn:E; [exact H|].
  apply NoDup_app; [exact H | repeat constructor; simpl; tauto |].
  intros a Ha [Hx | []]. subst a.
  assert (existsb (EvidenceType_eqb x) s = true); [|congruence].
  apply existsb_exists. exists x. split; [exact Ha | destruct x; reflexivity].
Qed.

(** The loop of [calculateConfidence], from any intermediate state. *)
Lemma calculateConfidence_loop (evidence : list DetectionEvidence) :
  forall (total : Q) (typesSeen : list EvidenceType),
    NoDup typesSeen ->
    let r := fold_left (fun '(total, typesSeen) e =>
                          (total + confidenceContribution e, Set_add (type e) typesSeen))
                       evidence (total, typesSeen) in
    fst r == total + sumContributions evidence
    /\ NoDup (snd r)
    /\ (forall t, In t (snd r) <-> In t typesSeen \/ In t (map type evidence)).
Proof.
  induction evidence as [|e ev IH]; intros total typesSeen Hnd; simpl.
  - split; [ring | split; [exact Hnd | intuition]].
  - specialize (IH (total + confidenceContribution e) (Set_add (type e) typesSeen)
                   (Set_add_NoDup _ _ Hnd)).
    simpl in IH. destruct IH as [H1 [H2 H3]].
    split; [rewrite H1; ring | split; [exact H2|]].
    intros t. rewrite H3, Set_add_In. intuition.
Qed.

Lemma typesSeen_size (s : list EvidenceType) (evidence : list DetectionEvidence) :
  NoDup s -> (forall t, In t s <-> In t (map type evidence)) ->
  List.length s = distinctCategories evidence.
Proof.
  intros Hnd Hin. unfold distinctCategories.
  apply Permutation_length. apply NoDup_Permutation.
  - exact Hnd.
  - apply NoDup_nodup.
  - intros t. rewrite Hin, nodup_In. reflexivity.
Qed.

Lemma calculateConfidence_eq (evidence : list DetectionEvidence) :
  evidence <> [] -> calculateConfidence evidence == aggregateConfidence evidence.
Proof.
  intros Hne. unfold calculateConfidence, aggregateConfidence.
  destruct evidence as [|e0 ev0]; [congruence|].
  change (List.length (e0 :: ev0) =? 0)%nat with false. cbv iota.
  pose proof (calculateConfidence_loop (e0 :: ev0) 0 [] (NoDup_nil _)) as H.
  cbv zeta in H.
  destruct (fold_left _ (e0 :: ev0) (0, [])) as [total typesSeen].
  simpl fst in H. simpl snd in H. destruct H as [Ht [Hnd Hin]].
  assert (Hlen : List.length typesSeen = distinctCategories (e0 :: ev0)).
  { apply typesSeen_size; [exact Hnd|]. intros t. rewrite Hin. simpl. tauto. }
  rewrite Math_min_Qmin. unfold corroborationBonus. rewrite <- Hlen.
  assert (Hr : forall x y, x == y ->
               inject_Z (Js.Math_round (x * 100)) / 100 == roundTwoDecimals y).
  { intros x y Hxy. unfold roundTwoDecimals, Js.Math_round.
    rewrite (Qfloor_comp (x * 100 + (1 # 2)) (y * 100 + (1 # 2))); [reflexivity|].
    rewrite Hxy. reflexivity. }
  apply Q.min_compat; [reflexivity|].
  destruct (2 <=? List.length typesSeen)%nat; apply Hr; rewrite Ht; ring.
Qed.

Lemma calculateConfidence_le_1 (evidence : list DetectionEvidence) :
  calculateConfidence evidence <= 1.
Proof.
  unfold calculateConfidence.
  destruct (List.length evidence =? 0)%nat; [discriminate|].
  destruct (fold_left _ evidence (0, [])) as [total typesSeen].
  apply Qle_trans with 1.0; [apply Math_min_le_l | discriminate].
Qed.

(** C1.  For a non-empty evidence list the aggregate confidence computed
    by [calculateConfidence] is the sum of the contributions, plus 0.10
    exactly when at least two distinct categories occur, rounded to two
    decimal places and clamped to 1; so it never exceeds 1. *)
Theorem C1_calculateConfidence_aggregate (evidence : list DetectionEvidence) :
  evidence <> [] ->
  calculateConfidence evidence
    == Qmin 1 (roundTwoDecimals
                 (sumContributions evidence
                    + (if (2 <=? distinctCategories evidence)%nat then 0.1 else 0)))
  /\ calculateConfidence evidence <= 1.
Proof.
  intros Hne. split.
  - apply calculateConfidence_eq. exact Hne.
  - apply calculateConfidence_le_1.
Qed.

Lemma C1_witness :
  exampleEvidence <> []
  /\ (calculateConfidence exampleEvidence
        == Qmin 1 (roundTwoDecimals
                     (sumContributions exampleEvidence
                        + (if (2 <=? distinctCategories exampleEvidence)%nat then 0.1 else 0)))
      /\ calculateConfidence exampleEvidence <= 1).
Proof.
  split; [discriminate|].
  apply (C1_calculateConfidence_aggregate exampleEvidence). discriminate.
Defined.

Example calculateConfidence_two_kinds : calculateConfidence exampleEvidence == 0.7.
Proof. reflexivity. Qed.

(** ** Content matching *)

Lemma matchLines_spec (patternDef : PatternDefinition.t) (filePath : string)
      (lines : list string) :
  forall i,
    match matchLines patternDef filePath lines i with
    | Some e =>
        exists (n : nat) (l : string) (m : Re.matchResult),
          nth_error lines n = Some l
          /\ RegExp_exec (PatternDefinition.pattern patternDef) l = Some m
          /\ (forall k l', (k < n)%nat -> nth_error lines k = Some l' ->
                           RegExp_exec (PatternDefinition.pattern patternDef) l' = None)
          /\ e = {| type := PatternDefinition.type patternDef;
                    pattern := source (PatternDefinition.pattern patternDef);
                    matchedText := truncate (Re.m0 m) 200;
                    filePath := filePath;
                    line := Some (i + n + 1)%nat;
                    confidenceContribution := PatternDefinition.confidence patternDef |}
    | None =>
        forall l, In l lines -> RegExp_exec (PatternDefinition.pattern patternDef) l = None
    end.
Proof.
  induction lines as [|l0 ls IH]; intros i; simpl.
  - intros l [].
  - destruct (RegExp_exec (PatternDefinition.pattern patternDef) l0) as [m|] eqn:E.
    + exists 0%nat, l0, m. repeat split; try assumption.
      * intros k l' Hk. lia.
      * rewrite Nat.add_0_r. reflexivity.
    + specialize (IH (S i)).
      destruct (matchLines patternDef filePath ls (S i)) as [e|].
      * destruct IH as [n [l [m [Hn [Hm [Hfirst He]]]]]].
        exists (S n), l, m. repeat split; try assumption.
        -- intros [|k] l' Hk Hl'; simpl in Hl'.
           ++ congruence.
           ++ apply (Hfirst k l'); [lia | exact Hl'].
        -- rewrite He. do 2 f_equal. lia.
      * intros l [<- | Hl]; [exact E | apply IH; exact Hl].
Qed.

Lemma matchLines_FirstMatch (patternDef : PatternDefinition.t) (filePath : string)
      (lines : list string) :
  FirstMatch patternDef filePath lines (matchLines patternDef filePath lines 0).
Proof.
  pose proof (matchLines_spec patternDef filePath lines 0) as H.
  unfold FirstMatch. destruct (matchLines patternDef filePath lines 0); exact H.
Qed.

(** The loop over the pattern definitions appends, for each definition in
    turn, what that definition contributes on its own. *)
Lemma matchPatterns_loop (filePath : string) (lines : list string)
      (defs : list PatternDefinition.t) :
  forall acc,
    fold_left (fun evidence patternDef =>
                 match matchLines patternDef filePath lines 0 with
                 | Some e => evidence ++ [e]
                 | None => evidence
                 end) defs acc
    = acc ++ List.concat (map (fun pd => optionToList (matchLines pd filePath lines 0)) defs).
Proof.
  induction defs as [|pd defs IH]; intros acc; simpl.
  - rewrite app_nil_r. reflexivity.
  - rewrite IH. destruct (matchLines pd filePath lines 0); simpl.
    + rewrite <- app_assoc. reflexivity.
    + reflexivity.
Qed.

(** For every file content and every framework pattern set, the evidence
    returned by [matchPatterns] is the concatenation, over the entries of
    the list of imports then instantiations, of at most one item per entry;
    the item of an entry is the one of the first line (top to bottom) that
    it matches and carries that line's 1-based number, and an entry that
    matches no line contributes nothing.  A definition that the list holds
    twice has two entries. *)
Lemma matchPatterns_first_line_each_entry
        (content filePath : string) (frameworkPatterns : FrameworkPatterns.t) :
  let lines := Js.split Js.newline content in
  let defs := FrameworkPatterns.imports frameworkPatterns
                ++ FrameworkPatterns.instantiations frameworkPatterns in
  exists per : list (option DetectionEvidence),
    matchPatterns content filePath frameworkPatterns = List.concat (map optionToList per)
    /\ Forall2 (fun patternDef r => FirstMatch patternDef filePath lines r) defs per.
Proof.
  intros lines defs.
  exists (map (fun pd => matchLines pd filePath lines 0) defs). split.
  - unfold matchPatterns. fold lines. fold defs.
    rewrite matchPatterns_loop. simpl. rewrite map_map. reflexivity.
  - clear. induction defs as [|pd defs IH]; simpl; constructor.
    + apply matchLines_FirstMatch.
    + exact IH.
Qed.

(** C4.  The claim fails on the TypeScript file [a.ts] whose only line is
    [import { generateText } from 'ai'].  The Vercel AI pattern set holds
    the import definition that matches this line once, and [matchPatterns]
    on that set gives one item; but [analyzeContent] hands [matchPatterns]
    the set merged with itself, so the one definition contributes two
    items, both of line 1, and the confidence of the detection is 0.5,
    twice the weight 0.25 of the definition. *)
Theorem C4_js_definition_counted_twice :
  let content := "import { generateText } from 'ai'" in
  let e := {| type := import;
              pattern := "from\s+[" ++ Js.dquote ++ "']ai[" ++ Js.dquote ++ "']";
              matchedText := "from 'ai'";
              filePath := "a.ts";
              line := Some 1%nat;
              confidenceContribution := 0.25 |} in
  List.length
    (filter (fun pd => String.eqb (source (PatternDefinition.pattern pd)) (pattern e))
            (FrameworkPatterns.imports Patterns.vercelAiPatterns
               ++ FrameworkPatterns.instantiations Patterns.vercelAiPatterns)) = 1%nat
  /\ matchPatterns content "a.ts" Patterns.vercelAiPatterns = [e]
  /\ map (fun d => (FileDetection.framework d, FileDetection.evidence d,
                    Qred (FileDetection.totalConfidence d)))
         (FileAnalysisResult.detections (analyzeContent content "a.ts" typescript))
     = [(vercel_ai, [e; e], 1 # 2)].
Proof. vm_compute. repeat split. Qed.

(** ** The orchestrator *)

(** C9.  A request that selects GitHub scanning makes [scan] throw the
    unsupported-operation error at once: no progress record is handed out
    (so neither discovery nor matching has started), no result is
    returned, and nothing of the world is consulted. *)
Theorem C9_scan_github_unsupported (w : World) (options : ScanOptions) (g : GithubOptions) :
  github options = Some g ->
  scan w options
  = ([], Threw "GitHub scanning is not yet implemented. Use local scanning: agentgov audit --path /your/code").
Proof. intros H. unfold scan. rewrite H. reflexivity. Qed.

(** *** Progress records are only ever added *)

Lemma Extends_refl st : Extends st st.
Proof. exists []. rewrite app_nil_r. reflexivity. Qed.

Lemma Extends_trans st1 st2 st3 : Extends st1 st2 -> Extends st2 st3 -> Extends st1 st3.
Proof.
  intros [l1 H1] [l2 H2]. exists (l1 ++ l2). rewrite H2, H1, app_assoc. reflexivity.
Qed.

Lemma Extends_report f st : Extends st (report f st).
Proof. eexists. reflexivity. Qed.

Lemma Extends_addAgent w k mk st : Extends st (addAgent w k mk st).
Proof. eexists. reflexivity. Qed.

Lemma Extends_fold {A} (step : ScanState -> A -> ScanState) (l : list A) :
  (forall st x, Extends st (step st x)) ->
  forall st, Extends st (fold_left step l st).
Proof.
  intros Hstep. induction l as [|x l IH]; intros st; simpl; [apply Extends_refl|].
  eapply Extends_trans; [apply Hstep | apply IH].
Qed.

Lemma Extends_scanSource w threshold file fullPath ext st :
  Extends st (scanSource w threshold file fullPath ext st).
Proof.
  unfold scanSource. destruct (Patterns.lookupExtension _ _); [|apply Extends_refl].
  apply Extends_fold. intros st' d. unfold addDetection.
  destruct (Qle_bool threshold (FileDetection.totalConfidence d)); [|apply Extends_refl].
  destruct (Map_has _ _); cbn [negb]; [apply Extends_refl | apply Extends_addAgent].
Qed.

Lemma Extends_scanDependencies w deps file fullPath name_ st :
  Extends st (scanDependencies w deps file fullPath name_ st).
Proof.
  unfold scanDependencies. destruct (Patterns.Array_includes deps name_); [|apply Extends_refl].
  destruct (readFile w fullPath); [|apply Extends_refl].
  exists []. rewrite app_nil_r. reflexivity.
Qed.

Lemma Extends_scanEnv w file fullPath name_ st :
  Extends st (scanEnv w file fullPath name_ st).
Proof.
  unfold scanEnv. destruct (String.eqb name_ ".env" || Js.startsWith ".env." name_);
    [|apply Extends_refl].
  destruct (readFile w fullPath); [|apply Extends_refl].
  exists []. rewrite app_nil_r. reflexivity.
Qed.

Lemma Extends_scanConfig w cfg file name_ st :
  Extends st (scanConfig w cfg file name_ st).
Proof.
  unfold scanConfig. destruct (Patterns.Array_includes cfg name_); [|apply Extends_refl].
  destruct (String.eqb name_ "crewai.yaml" || String.eqb name_ "crewai.yml");
    [|apply Extends_refl].
  destruct (Map_has _ _); cbn [negb]; [apply Extends_refl | apply Extends_addAgent].
Qed.

Lemma Extends_scanFile w scanPath threshold cfg deps st file :
  Extends st (scanFile w scanPath threshold cfg deps st file).
Proof.
  unfold scanFile.
  destruct (stat w (Path.join scanPath file)) as [size|]; [|apply Extends_report].
  destruct (Patterns.MAX_FILE_SIZE <? size)%N; [apply Extends_report|].
  cbv zeta.
  eapply Extends_trans; [|apply Extends_report].
  eapply Extends_trans; [|apply Extends_scanConfig].
  eapply Extends_trans; [|apply Extends_scanEnv].
  eapply Extends_trans; [|apply Extends_scanDependencies].
  eapply Extends_trans; [|apply Extends_scanSource].
  apply Extends_report.
Qed.

(** A local scan begins by reporting the discovering phase, before any
    file is looked at. *)
Lemma scanLocal_reports_discovering_first w options :
  exists l, fst (scanLocal w options) = mkProgress discovering 0 0 0 None :: l.
Proof.
  assert (H : Extends (report (fun p => p)
                              (mkState [] [] [] (mkProgress discovering 0 0 0 None) [] 0))
                      (scanFiles w options)).
  { unfold scanFiles. eapply Extends_trans; [apply Extends_report|].
    apply Extends_fold. intros st file. apply Extends_scanFile. }
  destruct H as [l Hl]. cbn [reported report app progress] in Hl.
  unfold scanLocal. cbv zeta. destruct (enrichWithRisks w _) as [risks agents'].
  cbn [fst reported report]. rewrite Hl. eexists. cbn [app]. reflexivity.
Qed.

(** ** Maps *)

Section MapFacts.
Context {V : Type}.
Implicit Types (m : JsMap V) (k : string) (v : V).

Lemma Map_has_keys m k : Map_has k m = Patterns.Array_includes (Map_keys m) k.
Proof.
  unfold Map_has, Patterns.Array_includes.
  induction m as [|[k' v'] m IH]; simpl; [reflexivity|].
  rewrite (String.eqb_sym k k'). destruct (String.eqb k' k); [reflexivity | exact IH].
Qed.

Lemma Array_includes_In (l : list string) (x : string) :
  Patterns.Array_includes l x = true <-> In x l.
Proof.
  unfold Patterns.Array_includes. rewrite existsb_exists. split.
  - intros [y [Hy He]]. apply String.eqb_eq in He. subst. exact Hy.
  - intros H. exists x. split; [exact H | apply String.eqb_refl].
Qed.

Lemma Array_includes_false (l : list string) (x : string) :
  Patterns.Array_includes l x = false <-> ~ In x l.
Proof.
  rewrite <- Array_includes_In. destruct (Patterns.Array_includes l x); intuition congruence.
Qed.

Lemma Map_set_new m k v : Map_has k m = false -> Map_set k v m = m ++ [(k, v)].
Proof.
  unfold Map_has. induction m as [|[k' v'] m IH]; simpl; [reflexivity|].
  destruct (String.eqb k' k); [discriminate|]. intros H. rewrite IH; [reflexivity | exact H].
Qed.

Lemma Map_has_false_not_In m k : Map_has k m = false -> ~ In k (Map_keys m).
Proof. rewrite Map_has_keys. apply Array_includes_false. Qed.

End MapFacts.

(** ** What changes the registry during the file loop *)

Lemma agentMap_report f st : agentMap (report f st) = agentMap st.
Proof. reflexivity. Qed.

Lemma agentMap_addAgent w k mk st :
  agentMap (addAgent w k mk st)
  = Map_set k (mk ("ag_" ++ randomUUID w (drawn st))%string) (agentMap st).
Proof. reflexivity. Qed.

Section FileLoop.
Variable w : World.
Variable scanPath : string.
Variable threshold : Q.
Variables configFileNames depFileNames : list string.

(** A property of the three accumulators that every step of the loop
    keeps. *)
Variable PA : JsMap AgentRecord -> Prop.
Variable PD PE : DetectionEvidence -> Prop.
Hypothesis PA_insert :
  forall m k a, PA m -> Map_has k m = false -> Inserted w scanPath threshold k a ->
                PA (Map_set k a m).
Hypothesis PD_analyze :
  forall content file name_ e, In e (analyzeDependencyFile w content file name_) -> PD e.
Hypothesis PE_analyze :
  forall content file e, In e (analyzeEnvFile content file) -> PE e.

Lemma StateOk_report f st : StateOk PA PD PE st -> StateOk PA PD PE (report f st).
Proof. exact (fun H => H). Qed.

Lemma StateOk_addDetection file language (ds : list FileDetection.t) :
  Patterns.lookupExtension (Js.toLowerCase (Path.extname file))
                           Patterns.LANGUAGE_EXTENSIONS <> None ->
  incl ds (FileAnalysisResult.detections (analyzeFile w (Path.join scanPath file))) ->
  forall st, StateOk PA PD PE st ->
             StateOk PA PD PE (fold_left (addDetection w threshold file (Path.join scanPath file)
                                              language) ds st).
Proof.
  intros Hext. induction ds as [|d ds IH]; intros Hincl st Hst; simpl; [exact Hst|].
  apply IH; [intros x Hx; apply Hincl; right; exact Hx|].
  unfold addDetection.
  destruct (Qle_bool threshold (FileDetection.totalConfidence d)) eqn:Hq; [|exact Hst].
  destruct (Map_has (agentKeyOf (FileDetection.framework d) file) (agentMap st)) eqn:Hhas;
    [exact Hst|].
  cbn [negb]. destruct Hst as [HA [HD HE]]. split; [|split; assumption].
  rewrite agentMap_addAgent.
  apply PA_insert; [exact HA | exact Hhas |].
  apply Inserted_source; [exact Hext | apply Hincl; left; reflexivity | exact Hq].
Qed.

Lemma StateOk_scanSource file st :
  StateOk PA PD PE st ->
  StateOk PA PD PE (scanSource w threshold file (Path.join scanPath file)
                      (Js.toLowerCase (Path.extname file)) st).
Proof.
  intros Hst. unfold scanSource.
  destruct (Patterns.lookupExtension (Js.toLowerCase (Path.extname file))
                                     Patterns.LANGUAGE_EXTENSIONS) eqn:Hext; [|exact Hst].
  apply StateOk_addDetection; [congruence | apply incl_refl | exact Hst].
Qed.

Lemma StateOk_scanDependencies file name_ st :
  StateOk PA PD PE st ->
  StateOk PA PD PE (scanDependencies w depFileNames file (Path.join scanPath file) name_ st).
Proof.
  intros Hst. unfold scanDependencies.
  destruct (Patterns.Array_includes depFileNames name_); [|exact Hst].
  destruct (readFile w (Path.join scanPath file)) as [content|]; [|exact Hst].
  destruct Hst as [HA [HD HE]]. split; [exact HA | split; [|exact HE]].
  cbn [pushDependencyEvidence dependencyEvidence].
  apply Forall_app. split; [exact HD|].
  apply Forall_forall. intros e He. eapply PD_analyze. exact He.
Qed.

Lemma StateOk_scanEnv file name_ st :
  StateOk PA PD PE st -> StateOk PA PD PE (scanEnv w file (Path.join scanPath file) name_ st).
Proof.
  intros Hst. unfold scanEnv.
  destruct (String.eqb name_ ".env" || Js.startsWith ".env." name_); [|exact Hst].
  destruct (readFile w (Path.join scanPath file)) as [content|]; [|exact Hst].
  destruct Hst as [HA [HD HE]]. split; [exact HA | split; [exact HD|]].
  cbn [pushEnvEvidence envEvidence].
  apply Forall_app. split; [exact HE|].
  apply Forall_forall. intros e He. eapply PE_analyze. exact He.
Qed.

Lemma StateOk_scanConfig file st :
  StateOk PA PD PE st -> StateOk PA PD PE (scanConfig w configFileNames file (Path.basename file) st).
Proof.
  intros Hst. unfold scanConfig.
  destruct (Patterns.Array_includes configFileNames (Path.basename file)); [|exact Hst].
  destruct (String.eqb (Path.basename file) "crewai.yaml"
            || String.eqb (Path.basename file) "crewai.yml") eqn:Hname; [|exact Hst].
  destruct (Map_has ("crewai:" ++ file)%string (agentMap st)) eqn:Hhas; [exact Hst|].
  cbn [negb]. destruct Hst as [HA [HD HE]]. split; [|split; assumption].
  rewrite agentMap_addAgent.
  apply PA_insert; [exact HA | exact Hhas |].
  apply (Inserted_config w scanPath threshold file).
  apply orb_true_iff in Hname. destruct Hname as [H|H]; apply String.eqb_eq in H; auto.
Qed.

Lemma StateOk_scanFile file st :
  StateOk PA PD PE st ->
  StateOk PA PD PE (scanFile w scanPath threshold configFileNames depFileNames st file).
Proof.
  intros Hst. unfold scanFile.
  destruct (stat w (Path.join scanPath file)) as [size|]; [|apply StateOk_report; exact Hst].
  destruct (Patterns.MAX_FILE_SIZE <? size)%N; [apply StateOk_report; exact Hst|].
  apply StateOk_report, StateOk_scanConfig, StateOk_scanEnv, StateOk_scanDependencies,
    StateOk_scanSource, StateOk_report.
  exact Hst.
Qed.

Lemma StateOk_files (files : list string) :
  forall st, StateOk PA PD PE st ->
             StateOk PA PD PE (fold_left (scanFile w scanPath threshold configFileNames depFileNames)
                                files st).
Proof.
  induction files as [|file files IH]; intros st Hst; simpl; [exact Hst|].
  apply IH, StateOk_scanFile, Hst.
Qed.

End FileLoop.

(** ** The registry: weights and categories *)

Lemma uniquePatternsFor_ok (language : Language) :
  forallb frameworkOk (uniquePatternsFor language) = true.
Proof. destruct language; vm_compute; reflexivity. Qed.

Lemma dependencyMappings_ok :
  forallb (fun d => Qle_bool 0 (DependencyMapping.confidence d)) Patterns.DEPENDENCY_MAPPINGS
  = true.
Proof. vm_compute. reflexivity. Qed.

Lemma matchLines_fields pd filePath lines :
  forall i e, matchLines pd filePath lines i = Some e ->
              type e = PatternDefinition.type pd
              /\ confidenceContribution e = PatternDefinition.confidence pd.
Proof.
  induction lines as [|l ls IH]; intros i e; simpl; [discriminate|].
  destruct (RegExp_exec (PatternDefinition.pattern pd) l).
  - intros H. inversion H. split; reflexivity.
  - apply IH.
Qed.

Lemma matchPatterns_source content filePath fp :
  frameworkOk fp = true ->
  Forall SourceEvidence (matchPatterns content filePath fp).
Proof.
  intros Hok. unfold matchPatterns. rewrite matchPatterns_loop. cbn [app].
  unfold frameworkOk in Hok. rewrite forallb_forall in Hok.
  apply Forall_forall. intros e He.
  apply in_concat in He. destruct He as [l [Hl He]].
  apply in_map_iff in Hl. destruct Hl as [pd [<- Hpd]].
  destruct (matchLines pd filePath (Js.split Js.newline content) 0) as [e'|] eqn:E;
    [|destruct He].
  destruct He as [<- | []].
  apply matchLines_fields in E. destruct E as [Ht Hc].
  specialize (Hok pd Hpd). unfold patternOk in Hok.
  apply andb_true_iff in Hok. destruct Hok as [Hok Hcat].
  apply andb_true_iff in Hok. destruct Hok as [H0 _].
  split.
  - rewrite Hc. apply Qle_bool_iff. exact H0.
  - rewrite Ht. exact Hcat.
Qed.

Lemma detectFrameworks_unfold content filePath language :
  detectFrameworks content filePath language
  = fold_left (fun detections frameworkPatterns =>
                 let evidence := matchPatterns content filePath frameworkPatterns in
                 if (0 <? List.length evidence)%nat then
                   detections ++
                     [ {| FileDetection.framework := FrameworkPatterns.framework frameworkPatterns;
                          FileDetection.displayName := FrameworkPatterns.displayName frameworkPatterns;
                          FileDetection.evidence := evidence;
                          FileDetection.totalConfidence := calculateConfidence evidence |} ]
                 else detections) (uniquePatternsFor language) [].
Proof. destruct language; reflexivity. Qed.

Lemma detectFrameworks_ok content filePath language :
  Forall DetectionOk (detectFrameworks content filePath language).
Proof.
  rewrite detectFrameworks_unfold.
  pose proof (uniquePatternsFor_ok language) as Hok. rewrite forallb_forall in Hok.
  assert (G : forall l acc, (forall fp, In fp l -> frameworkOk fp = true) ->
              Forall DetectionOk acc ->
              Forall DetectionOk
                (fold_left (fun detections frameworkPatterns =>
                   let evidence := matchPatterns content filePath frameworkPatterns in
                   if (0 <? List.length evidence)%nat then
                     detections ++
                       [ {| FileDetection.framework := FrameworkPatterns.framework frameworkPatterns;
                            FileDetection.displayName := FrameworkPatterns.displayName frameworkPatterns;
                            FileDetection.evidence := evidence;
                            FileDetection.totalConfidence := calculateConfidence evidence |} ]
                   else detections) l acc)).
  { induction l as [|fp l IH]; intros acc Hl Hacc; simpl; [exact Hacc|].
    apply IH; [intros fp' H; apply Hl; right; exact H|].
    destruct (0 <? List.length (matchPatterns content filePath fp))%nat eqn:E; [|exact Hacc].
    apply Forall_app. split; [exact Hacc|]. constructor; [|constructor].
    split; [|split]; cbn.
    - intros Hnil. rewrite Hnil in E. discriminate.
    - apply matchPatterns_source. apply Hl. left. reflexivity.
    - reflexivity. }
  apply G; [exact Hok | constructor].
Qed.

Lemma analyzeFile_ok w filePath :
  Forall DetectionOk (FileAnalysisResult.detections (analyzeFile w filePath)).
Proof.
  unfold analyzeFile.
  destruct (Language_eqb (detectLanguage filePath) unknown); [constructor|].
  destruct (readFile w filePath); [|constructor].
  apply detectFrameworks_ok.
Qed.

Lemma sumContributions_nonneg evidence :
  Forall (fun e => 0 <= confidenceContribution e) evidence -> 0 <= sumContributions evidence.
Proof.
  induction 1 as [|e ev He _ IH]; simpl; [discriminate|].
  rewrite <- (Qplus_0_r 0). apply Qplus_le_compat; assumption.
Qed.

Lemma roundTwoDecimals_nonneg x : 0 <= x -> 0 <= roundTwoDecimals x.
Proof.
  intros H. unfold roundTwoDecimals.
  assert (Hz : (0 <= Qfloor (x * 100 + (1 # 2)))%Z).
  { change 0%Z with (Qfloor 0). apply Qfloor_resp_le.
    rewrite <- (Qplus_0_r 0). apply Qplus_le_compat; [|discriminate].
    apply Qmult_le_0_compat; [exact H | discriminate]. }
  apply Qle_shift_div_l; [reflexivity|].
  rewrite Qmult_0_l. change 0 with (inject_Z 0). rewrite <- Zle_Qle. exact Hz.
Qed.

Lemma calculateConfidence_nonneg evidence :
  Forall (fun e => 0 <= confidenceContribution e) evidence -> 0 <= calculateConfidence evidence.
Proof.
  intros H. destruct evidence as [|e ev]; [discriminate|].
  rewrite calculateConfidence_eq by discriminate.
  unfold aggregateConfidence. apply Q.min_glb; [discriminate|].
  apply roundTwoDecimals_nonneg.
  rewrite <- (Qplus_0_r 0). apply Qplus_le_compat.
  - apply sumContributions_nonneg. exact H.
  - unfold corroborationBonus. destruct (2 <=? _)%nat; discriminate.
Qed.

Lemma DetectionOk_range d :
  DetectionOk d -> 0 <= FileDetection.totalConfidence d <= 1.
Proof.
  intros [_ [Hev Ht]]. rewrite Ht. split.
  - apply calculateConfidence_nonneg. eapply Forall_impl; [|exact Hev].
    intros e [He _]. exact He.
  - apply calculateConfidence_le_1.
Qed.

(** ** Auxiliary evidence *)

Lemma fold_left_Forall {A B} (P : B -> Prop) (step : list B -> A -> list B) (l : list A) :
  (forall acc x, In x l -> Forall P acc -> Forall P (step acc x)) ->
  forall acc, Forall P acc -> Forall P (fold_left step l acc).
Proof.
  induction l as [|x l IH]; intros Hstep acc Hacc; simpl; [exact Hacc|].
  apply IH.
  - intros acc' x' Hx'. apply Hstep. right. exact Hx'.
  - apply Hstep; [left; reflexivity | exact Hacc].
Qed.

Lemma Forall_push {B} (P : B -> Prop) (acc : list B) (y : B) :
  Forall P acc -> P y -> Forall P (acc ++ [y]).
Proof. intros Hacc Hy. apply Forall_app. split; [exact Hacc | constructor; [exact Hy | constructor]]. Qed.

Lemma mapping_weight_nonneg d :
  In d Patterns.DEPENDENCY_MAPPINGS -> 0 <= DependencyMapping.confidence d.
Proof.
  intros Hd. pose proof dependencyMappings_ok as H. rewrite forallb_forall in H.
  apply Qle_bool_iff. apply H. exact Hd.
Qed.

Lemma analyzeDependencyFile_ok w content filePath fileName :
  Forall DepEvidence (analyzeDependencyFile w content filePath fileName).
Proof.
  unfold analyzeDependencyFile.
  destruct (String.eqb fileName "requirements.txt" || String.eqb fileName "Pipfile").
  { apply fold_left_Forall; [|constructor]. intros acc line _ Hacc.
    match goal with |- context [find ?f ?l] => destruct (find f l) as [m|] eqn:E end;
      [|exact Hacc].
    apply Forall_push; [exact Hacc|]. apply find_some in E. destruct E as [Hin _].
    split; [reflexivity | apply mapping_weight_nonneg; exact Hin]. }
  destruct (String.eqb fileName "pyproject.toml").
  { apply fold_left_Forall; [|constructor]. intros acc dep Hdep Hacc.
    match goal with |- context [negb ?b] => destruct (negb b) end; [exact Hacc|].
    match goal with |- context [if ?b then _ else _] => destruct b end; [|exact Hacc].
    apply Forall_push; [exact Hacc|].
    split; [reflexivity | apply mapping_weight_nonneg; exact Hdep]. }
  destruct (String.eqb fileName "package.json"); [|constructor].
  destruct (parsePackageJson w content) as [[deps devDeps]|]; [|constructor].
  apply fold_left_Forall; [|constructor]. intros acc [depName depVersion] _ Hacc.
  match goal with |- context [find ?f ?l] => destruct (find f l) as [m|] eqn:E end;
    [|exact Hacc].
  apply Forall_push; [exact Hacc|]. apply find_some in E. destruct E as [Hin _].
  split; [reflexivity | apply mapping_weight_nonneg; exact Hin].
Qed.

(** The loop of [analyzeEnvFile]: one item for each registered pattern that
    the content matches, in the order of the registry. *)
Lemma analyzeEnvFile_loop content filePath (l : list EnvVarPattern.t) :
  forall acc,
    fold_left (fun evidence envPattern =>
      if RegExp_test (EnvVarPattern.pattern envPattern) content then
        evidence ++
          [ {| type := env_var;
               pattern := source (EnvVarPattern.pattern envPattern);
               matchedText := redacted (EnvVarPattern.provider envPattern);
               filePath := filePath;
               line := None;
               confidenceContribution := EnvVarPattern.confidence envPattern |} ]
      else evidence) l acc
    = acc ++ map (fun p => {| type := env_var;
                              pattern := source (EnvVarPattern.pattern p);
                              matchedText := redacted (EnvVarPattern.provider p);
                              filePath := filePath;
                              line := None;
                              confidenceContribution := EnvVarPattern.confidence p |})
                 (filter (fun p => RegExp_test (EnvVarPattern.pattern p) content) l).
Proof.
  induction l as [|p l IH]; intros acc; simpl.
  - rewrite app_nil_r. reflexivity.
  - rewrite IH. destruct (RegExp_test (EnvVarPattern.pattern p) content); simpl.
    + rewrite <- app_assoc. reflexivity.
    + reflexivity.
Qed.

Lemma analyzeEnvFile_ok content filePath :
  Forall EnvEvidence (analyzeEnvFile content filePath).
Proof.
  unfold analyzeEnvFile. rewrite analyzeEnvFile_loop. cbn [app].
  apply Forall_forall. intros e He. apply in_map_iff in He.
  destruct He as [p [<- Hp]]. apply filter_In in Hp. destruct Hp as [Hp _].
  split; [reflexivity|]. exists p. repeat split. exact Hp.
Qed.

(** The text of environment evidence is a function of which patterns
    match, and of nothing else in the content. *)
Lemma analyzeEnvFile_noninterference content content' filePath :
  (forall p, In p Patterns.ENV_VAR_PATTERNS ->
             RegExp_test (EnvVarPattern.pattern p) content
             = RegExp_test (EnvVarPattern.pattern p) content') ->
  analyzeEnvFile content filePath = analyzeEnvFile content' filePath.
Proof.
  intros H. unfold analyzeEnvFile. rewrite !analyzeEnvFile_loop. cbn [app].
  f_equal. apply filter_ext_in. exact H.
Qed.

(** ** The registry invariant *)

Lemma crewaiConfig_not_source file :
  isCrewaiConfig file ->
  Patterns.lookupExtension (Js.toLowerCase (Path.extname file)) Patterns.LANGUAGE_EXTENSIONS
  = None.
Proof. intros [H|H]; unfold Path.extname; rewrite H; reflexivity. Qed.

Lemma Inserted_AgentOk w scanPath threshold k a :
  Inserted w scanPath threshold k a -> AgentOk k a.
Proof.
  intros [file d id_ name_ language Hext Hin Hq | file id_ Hname]; unfold AgentOk; cbn.
  - pose proof (analyzeFile_ok w (Path.join scanPath file)) as Hok.
    rewrite Forall_forall in Hok. specialize (Hok d Hin).
    split; [reflexivity|]. split; [apply DetectionOk_range; exact Hok|]. split.
    + intros Hc. apply crewaiConfig_not_source in Hc. congruence.
    + destruct Hok as [_ [Hev _]]. eapply Forall_impl; [|exact Hev].
      intros e [_ Hcat] Ht. rewrite Ht in Hcat. discriminate.
  - split; [reflexivity|]. split; [split; discriminate|]. split.
    + intros _. apply Qle_refl.
    + constructor; [discriminate | constructor].
Qed.

Lemma RegistryOk_insert w scanPath threshold m k a :
  RegistryOk m -> Map_has k m = false -> Inserted w scanPath threshold k a ->
  RegistryOk (Map_set k a m).
Proof.
  intros [Hnd Hall] Hhas Hins. rewrite (Map_set_new m k a Hhas). split.
  - unfold Map_keys. rewrite map_app. apply NoDup_app; [exact Hnd | repeat constructor; simpl; tauto|].
    intros x Hx [<- | []]. apply (Map_has_false_not_In m k Hhas). exact Hx.
  - apply Forall_push; [exact Hall|]. eapply Inserted_AgentOk. exact Hins.
Qed.

(** The state of the loop over the files when it is done. *)
Lemma scanFiles_ok w options :
  let st := scanFiles w options in
  RegistryOk (agentMap st)
  /\ Forall DepEvidence (dependencyEvidence st)
  /\ Forall EnvEvidence (envEvidence st).
Proof.
  unfold scanFiles.
  apply (StateOk_files w (scanPathOf w options) (thresholdOf options) _ _
                       RegistryOk DepEvidence EnvEvidence).
  - intros m k a. apply RegistryOk_insert.
  - intros content file name_ e He.
    pose proof (analyzeDependencyFile_ok w content file name_) as H.
    rewrite Forall_forall in H. apply H. exact He.
  - intros content file e He.
    pose proof (analyzeEnvFile_ok content file) as H.
    rewrite Forall_forall in H. apply H. exact He.
  - split; [|split]; cbn; repeat constructor.
Qed.

(** ** Folding the auxiliary evidence in *)

Lemma AgentFramework_eqb_eq (a b : AgentFramework) : AgentFramework_eqb a b = true <-> a = b.
Proof.
  split.
  - destruct a, b; intros H; try reflexivity; vm_compute in H; discriminate.
  - intros <-. apply String.eqb_refl.
Qed.

Lemma EvidenceType_eqb_eq (a b : EvidenceType) : EvidenceType_eqb a b = true <-> a = b.
Proof. split; [destruct a, b; simpl; congruence | intros <-; destruct a; reflexivity]. Qed.

Lemma alreadyHas_true t p agent :
  alreadyHas t p agent = true <-> exists e, In e (evidence agent) /\ type e = t /\ pattern e = p.
Proof.
  unfold alreadyHas. rewrite existsb_exists. split.
  - intros [e [He Hb]]. apply andb_true_iff in Hb. destruct Hb as [Ht Hp].
    exists e. split; [exact He|]. split; [apply EvidenceType_eqb_eq, Ht | apply String.eqb_eq, Hp].
  - intros [e [He [Ht Hp]]]. exists e. split; [exact He|].
    apply andb_true_iff. split; [apply EvidenceType_eqb_eq, Ht | apply String.eqb_eq, Hp].
Qed.

Lemma Map_keys_forEachAgent body (m : JsMap AgentRecord) :
  Map_keys (forEachAgent body m) = Map_keys m.
Proof.
  unfold Map_keys, forEachAgent. rewrite map_map. apply map_ext. intros [k a]. reflexivity.
Qed.

Lemma RegistryOk_forEachAgent body (m : JsMap AgentRecord) :
  (forall k a, AgentOk k a -> AgentOk k (body a)) ->
  RegistryOk m -> RegistryOk (forEachAgent body m).
Proof.
  intros Hbody [Hnd Hall]. split.
  - rewrite Map_keys_forEachAgent. exact Hnd.
  - unfold forEachAgent. apply Forall_map. eapply Forall_impl; [|exact Hall].
    intros [k a] H. apply Hbody. exact H.
Qed.

Lemma boost_range (c x : Q) : 0 <= c <= 1 -> 0 <= x -> 0 <= Js.Math_min 1.0 (c + x) <= 1.
Proof.
  intros [H0 H1] Hx. split.
  - apply Math_min_ge; [discriminate | lra].
  - apply Qle_trans with 1.0; [apply Math_min_le_l | discriminate].
Qed.

Lemma boost_keeps_floor (c x : Q) : 0.7 <= c -> 0 <= x -> 0.7 <= Js.Math_min 1.0 (c + x).
Proof. intros Hc Hx. apply Math_min_ge; [discriminate | lra]. Qed.

Lemma AgentOk_addDependency dep mapping k a :
  DepEvidence dep -> AgentOk k a -> AgentOk k (addDependency dep mapping a).
Proof.
  intros [Ht Hc] Hok. unfold addDependency.
  destruct (AgentFramework_eqb (framework a) (DependencyMapping.framework mapping));
    [|exact Hok].
  destruct (alreadyHas dependency (pattern dep) a); [exact Hok|]. cbn [negb].
  destruct Hok as [Hk [Hr [Hf He]]]. unfold AgentOk. cbn.
  assert (Hx : 0 <= confidenceContribution dep * 0.5) by lra.
  split; [exact Hk|]. split; [apply boost_range; assumption|]. split.
  - intros Hcfg. apply boost_keeps_floor; [apply Hf; exact Hcfg | exact Hx].
  - apply Forall_push; [exact He|]. intros Hty. congruence.
Qed.

Lemma AgentOk_addEnvVar env k a :
  EnvEvidence env -> AgentOk k a -> AgentOk k (addEnvVar env a).
Proof.
  intros [Ht Hred] Hok. unfold addEnvVar.
  destruct (alreadyHas env_var (pattern env) a); [exact Hok|]. cbn [negb].
  destruct Hok as [Hk [Hr [Hf He]]]. unfold AgentOk. cbn.
  split; [exact Hk|]. split; [apply boost_range; [assumption | discriminate]|]. split.
  - intros Hcfg. apply boost_keeps_floor; [apply Hf; exact Hcfg | discriminate].
  - apply Forall_push; [exact He|]. intros _. exact Hred.
Qed.

Lemma RegistryOk_enrichWithDependencies (deps : list DetectionEvidence) :
  Forall DepEvidence deps ->
  forall m, RegistryOk m -> RegistryOk (enrichWithDependencies m deps).
Proof.
  unfold enrichWithDependencies.
  induction 1 as [|dep deps Hdep _ IH]; intros m Hm; cbn [fold_left]; [exact Hm|].
  apply IH.
  match goal with |- context [find ?f ?l] => destruct (find f l) as [mapping|] end;
    [|exact Hm].
  apply RegistryOk_forEachAgent; [|exact Hm].
  intros k a. apply AgentOk_addDependency. exact Hdep.
Qed.

Lemma RegistryOk_enrichWithEnvVars (envs : list DetectionEvidence) :
  Forall EnvEvidence envs ->
  forall m, RegistryOk m -> RegistryOk (enrichWithEnvVars m envs).
Proof.
  unfold enrichWithEnvVars.
  induction 1 as [|env envs Henv _ IH]; intros m Hm; simpl; [exact Hm|].
  apply IH. apply RegistryOk_forEachAgent; [|exact Hm].
  intros k a. apply AgentOk_addEnvVar. exact Henv.
Qed.

Lemma enrichedAgents_ok w options : RegistryOk (enrichedAgents w options).
Proof.
  unfold enrichedAgents.
  destruct (scanFiles_ok w options) as [Hm [Hd He]].
  apply RegistryOk_enrichWithEnvVars; [exact He|].
  apply RegistryOk_enrichWithDependencies; [exact Hd | exact Hm].
Qed.

Lemma addDependency_step dep mapping a :
  DependencyStep dep mapping a (addDependency dep mapping a).
Proof.
  unfold DependencyStep, addDependency.
  destruct (AgentFramework_eqb (framework a) (DependencyMapping.framework mapping)) eqn:Ef.
  - apply AgentFramework_eqb_eq in Ef.
    destruct (alreadyHas dependency (pattern dep) a) eqn:Eh; cbn [negb].
    + right. split; [|reflexivity]. right. apply alreadyHas_true in Eh.
      destruct Eh as [e [He [Ht Hp]]]. exists e. auto.
    + left. split; [exact Ef|]. split.
      * intros e He [Ht Hp].
        assert (alreadyHas dependency (pattern dep) a = true); [|congruence].
        apply alreadyHas_true. exists e. auto.
      * eexists. split; [|reflexivity].
        rewrite Math_min_Qmin. apply Q.min_compat; [reflexivity|].
        unfold Qdiv. apply Qplus_comp; [reflexivity|]. apply Qmult_comp; reflexivity.
  - right. split; [|reflexivity]. left. intros H. apply AgentFramework_eqb_eq in H. congruence.
Qed.

(** C7.  [enrichWithDependencies] folds the dependency items into the
    registry one after the other, and does nothing else: with no item the
    registry is returned as it is; an item whose pattern has no mapping is
    passed over; an item whose pattern has a mapping leaves the keys and
    the order of the registry alone and changes each record on its own: a
    record of the mapped framework that holds no dependency evidence for
    the same pattern gets the item appended to its evidence and its
    confidence becomes the minimum of 1 and the old confidence plus half
    of the item's contribution; every other record is left as it is.  The
    remaining items are then folded into that registry. *)
Theorem C7_enrichWithDependencies_step
        (agentMap : JsMap AgentRecord) (dep : DetectionEvidence)
        (rest : list DetectionEvidence) :
  enrichWithDependencies agentMap [] = agentMap
  /\ (find (fun d => String.eqb (DependencyMapping.name d) (pattern dep))
            Patterns.DEPENDENCY_MAPPINGS = None ->
      enrichWithDependencies agentMap (dep :: rest) = enrichWithDependencies agentMap rest)
  /\ (forall mapping : DependencyMapping.t,
        find (fun d => String.eqb (DependencyMapping.name d) (pattern dep))
             Patterns.DEPENDENCY_MAPPINGS = Some mapping ->
        exists agentMap' : JsMap AgentRecord,
          enrichWithDependencies agentMap (dep :: rest)
          = enrichWithDependencies agentMap' rest
          /\ Forall2 (fun p p' =>
                        fst p = fst p' /\ DependencyStep dep mapping (snd p) (snd p'))
                     agentMap agentMap').
Proof.
  split; [reflexivity|]. split.
  - intros Hfind. unfold enrichWithDependencies. cbn [fold_left]. rewrite Hfind. reflexivity.
  - intros mapping Hfind. exists (forEachAgent (addDependency dep mapping) agentMap). split.
    + unfold enrichWithDependencies. cbn [fold_left]. rewrite Hfind. reflexivity.
    + unfold forEachAgent. induction agentMap as [|[k a] m IH]; simpl; constructor.
      * split; [reflexivity | apply addDependency_step].
      * exact IH.
Qed.

(** ** Sorting *)

Lemma Array_sort_insert_perm {A} (compare : A -> A -> Q) (x : A) (l : list A) :
  Permutation (Array_sort_insert compare x l) (x :: l).
Proof.
  induction l as [|y l IH]; simpl; [reflexivity|].
  destruct (Qle_bool (compare x y) 0); [reflexivity|].
  rewrite IH. apply perm_swap.
Qed.

Lemma Array_sort_perm {A} (compare : A -> A -> Q) (l : list A) :
  Permutation (Array_sort compare l) l.
Proof.
  induction l as [|x l IH]; simpl; [reflexivity|].
  rewrite Array_sort_insert_perm. constructor. exact IH.
Qed.

Lemma insert_sorted (x : AgentRecord) (l : list AgentRecord) :
  StronglySorted confidenceGe l ->
  StronglySorted confidenceGe (Array_sort_insert byConfidence x l).
Proof.
  induction 1 as [|y l Hl IH Hy]; simpl.
  - repeat constructor.
  - destruct (Qle_bool (byConfidence x y) 0) eqn:E.
    + apply Qle_bool_iff in E. unfold byConfidence in E.
      assert (Hxy : confidenceGe x y) by (unfold confidenceGe; lra).
      constructor; [constructor; assumption|].
      constructor; [exact Hxy|].
      eapply Forall_impl; [|exact Hy]. unfold confidenceGe in *. intros z Hz. lra.
    + assert (Hyx : confidenceGe y x).
      { unfold confidenceGe. destruct (Qlt_le_dec (confidence y) (confidence x)) as [H|H];
          [|exact H].
        assert (Qle_bool (byConfidence x y) 0 = true); [|congruence].
        apply Qle_bool_iff. unfold byConfidence. lra. }
      constructor; [exact IH|].
      apply Permutation_Forall with (x :: l).
      * symmetry. apply Array_sort_insert_perm.
      * constructor; assumption.
Qed.

Lemma Array_sort_sorted (l : list AgentRecord) :
  StronglySorted confidenceGe (Array_sort byConfidence l).
Proof.
  induction l as [|x l IH]; simpl; [constructor|]. apply insert_sorted. exact IH.
Qed.

(** ** Ownership and risk enrichment leave the detection alone *)

Lemma enrichWithGitBlame_core w agents scanPath :
  map core (enrichWithGitBlame w agents scanPath) = map core agents.
Proof.
  unfold enrichWithGitBlame. destruct (negb (isGitRepo w scanPath)); [reflexivity|].
  assert (G : forall l (cache : JsMap GitBlameResult) done,
            map core
              (snd (fold_left (fun '(blameCache, done) agent =>
                      let filePath := location_filePath agent in
                      let blameCache : JsMap GitBlameResult :=
                        if negb (Map_has filePath blameCache) then
                          Map_set filePath (getFileBlame w scanPath filePath) blameCache
                        else blameCache in
                      match Map_get filePath blameCache with
                      | Some blame =>
                          (blameCache,
                           done ++ [withBlame agent (owner blame) (lastModified blame)])
                      | None => (blameCache, done ++ [agent])
                      end) l (cache, done)))
            = map core done ++ map core l).
  { induction l as [|a l IH]; intros cache done; cbn [fold_left].
    - cbn. rewrite app_nil_r. reflexivity.
    - cbv zeta. destruct (Map_get (location_filePath a) _) as [blame|];
        rewrite IH, map_app; cbn [map]; rewrite <- app_assoc; reflexivity. }
  rewrite G. reflexivity.
Qed.

Lemma enrichWithRisks_core w agents :
  map core (snd (enrichWithRisks w agents)) = map core agents.
Proof.
  unfold enrichWithRisks.
  assert (G : forall l summary done,
            map core
              (snd (fold_left (fun '(summary, done) agent =>
                      let agentRisks := evaluateAgentRisks w agent in
                      (fold_left countRisk agentRisks summary,
                       done ++ [withRisks agent agentRisks]))
                    l (summary, done)))
            = map core done ++ map core l).
  { induction l as [|a l IH]; intros summary done; cbn [fold_left].
    - cbn. rewrite app_nil_r. reflexivity.
    - cbv zeta. rewrite IH, map_app. cbn [map]. rewrite <- app_assoc. reflexivity. }
  specialize (G agents (mkRiskSummary 0 0 0 0 []) []).
  destruct (fold_left _ agents (mkRiskSummary 0 0 0 0 [], [])) as [summary agents'].
  cbn [snd] in *. exact G.
Qed.

(** The agents of a result: the enriched registry, sorted, then given to
    the two enrichers. *)
Lemma agents_scanLocal w options :
  agents (snd (scanLocal w options))
  = snd (enrichWithRisks w
           (enrichWithGitBlame w
              (Array_sort byConfidence (Map_values (enrichedAgents w options)))
              (scanPathOf w options))).
Proof.
  unfold scanLocal. cbv zeta. cbn [agentMap report].
  destruct (enrichWithRisks w _) as [risks agents']. reflexivity.
Qed.

Lemma core_scanLocal w options :
  map core (agents (snd (scanLocal w options)))
  = map core (Array_sort byConfidence (Map_values (enrichedAgents w options))).
Proof.
  rewrite agents_scanLocal, enrichWithRisks_core, enrichWithGitBlame_core. reflexivity.
Qed.

Lemma core_scanLocal_perm w options :
  Permutation (map core (agents (snd (scanLocal w options))))
              (map core (Map_values (enrichedAgents w options))).
Proof. rewrite core_scanLocal. apply Permutation_map, Array_sort_perm. Qed.

(** ** Results of a scan *)

Lemma enrichedAgents_values_ok w options :
  Forall (fun a => AgentOk (agentKeyOf (framework a) (location_filePath a)) a)
         (Map_values (enrichedAgents w options)).
Proof.
  destruct (enrichedAgents_ok w options) as [_ Hall].
  unfold Map_values. apply Forall_map. eapply Forall_impl; [|exact Hall].
  intros [k a] H. cbn in *. destruct H as [Hk H]. split; [reflexivity|]. exact H.
Qed.

(** Every agent of a result has the framework, file, confidence and
    evidence of a record of the enriched registry. *)
Lemma agent_of_registry w options a :
  In a (agents (snd (scanLocal w options))) ->
  exists a', In a' (Map_values (enrichedAgents w options)) /\ core a' = core a.
Proof.
  intros Ha. apply (in_map core) in Ha.
  apply (Permutation_in _ (core_scanLocal_perm w options)) in Ha.
  apply in_map_iff in Ha. destruct Ha as [a' [Hc Ha']]. exists a'. auto.
Qed.

Lemma registry_agent_ok w options a :
  In a (agents (snd (scanLocal w options))) ->
  AgentOk (agentKeyOf (framework a) (location_filePath a)) a.
Proof.
  intros Ha. destruct (agent_of_registry w options a Ha) as [a' [Ha' Hc]].
  pose proof (enrichedAgents_values_ok w options) as H. rewrite Forall_forall in H.
  specialize (H a' Ha'). unfold core in Hc. inversion Hc as [[Hf Hl Hq He]].
  unfold AgentOk in *. rewrite <- Hf, <- Hl, <- Hq, <- He. exact H.
Qed.

Lemma registry_pairs_NoDup w options :
  NoDup (map (fun a => (framework a, location_filePath a))
             (Map_values (enrichedAgents w options))).
Proof.
  destruct (enrichedAgents_ok w options) as [Hnd Hall].
  apply (NoDup_map_inv (fun p => agentKeyOf (fst p) (snd p))).
  rewrite map_map. unfold Map_keys, Map_values in *. rewrite map_map.
  erewrite map_ext_in; [exact Hnd|].
  intros [k a] Hin. rewrite Forall_forall in Hall. specialize (Hall _ Hin).
  destruct Hall as [Hk _]. cbn in *. symmetry. exact Hk.
Qed.

(** C3.  In every scan result each agent record has a confidence between
    0 and 1, the dependency and environment boosts included, and no two
    records have the same framework and file path. *)
Theorem C3_confidence_range_and_unique_keys (w : World) (options : ScanOptions) :
  let result := snd (scanLocal w options) in
  Forall (fun a => 0 <= confidence a <= 1) (agents result)
  /\ NoDup (map (fun a => (framework a, location_filePath a)) (agents result)).
Proof.
  cbv zeta. split.
  - apply Forall_forall. intros a Ha.
    destruct (registry_agent_ok w options a Ha) as [_ [Hr _]]. exact Hr.
  - assert (E : forall l : list AgentRecord,
               map (fun a => (framework a, location_filePath a)) l
               = map (fun c => fst (fst c)) (map core l)).
    { intros l. rewrite map_map. reflexivity. }
    rewrite E. apply (Permutation_NoDup (l := map (fun c => fst (fst c))
                                            (map core (Map_values (enrichedAgents w options))))).
    + apply Permutation_map. symmetry. apply core_scanLocal_perm.
    + rewrite <- E. apply registry_pairs_NoDup.
Qed.

Lemma sorted_by_core (l l' : list AgentRecord) :
  map core l = map core l' ->
  StronglySorted confidenceGe l' -> StronglySorted confidenceGe l.
Proof.
  revert l'. induction l as [|a l IH]; intros [|a' l'] Hc Hs; try discriminate; [constructor|].
  simpl in Hc. inversion Hc as [[Hf Hl Hq He Hrest]].
  apply StronglySorted_inv in Hs. destruct Hs as [Hs Ha'].
  constructor; [apply (IH l'); assumption|].
  apply Forall_forall. intros b Hb.
  apply (in_map core) in Hb. rewrite Hrest in Hb. apply in_map_iff in Hb.
  destruct Hb as [b' [Hbc Hb']]. rewrite Forall_forall in Ha'. specialize (Ha' b' Hb').
  unfold core in Hbc. inversion Hbc as [[Hbf Hbl Hbq Hbe]].
  unfold confidenceGe in *. rewrite Hq, <- Hbq. exact Ha'.
Qed.

(** C8.  In every scan result the agents are in descending order of
    confidence, and these are the confidences of the registry after the
    dependency and environment boosts: what the result says about
    framework, file, confidence and evidence is a rearrangement of that
    registry, so ownership enrichment and risk evaluation change none of
    it. *)
Theorem C8_agents_sorted_by_final_confidence (w : World) (options : ScanOptions) :
  let result := snd (scanLocal w options) in
  let st := scanFiles w options in
  let registry :=
    enrichWithEnvVars (enrichWithDependencies (agentMap st) (dependencyEvidence st))
                      (envEvidence st) in
  StronglySorted (fun a b => confidence b <= confidence a) (agents result)
  /\ Permutation (map core (agents result)) (map core (Map_values registry)).
Proof.
  cbv zeta. split.
  - apply (sorted_by_core _ _ (core_scanLocal w options)). apply Array_sort_sorted.
  - apply core_scanLocal_perm.
Qed.

(** C6.  Every environment-variable evidence item of a scan result has as
    its matched text the fixed description [<provider> API key detected
    (value redacted)] of the provider of one of the registered patterns;
    and the evidence read from an environment file is the same for any two
    contents that the same patterns match, so no part of a value assigned
    in the file reaches it. *)
Theorem C6_env_evidence_is_redacted (w : World) (options : ScanOptions) :
  (forall a e,
      In a (agents (snd (scanLocal w options))) -> In e (evidence a) -> type e = env_var ->
      exists p, In p Patterns.ENV_VAR_PATTERNS
                /\ pattern e = source (EnvVarPattern.pattern p)
                /\ matchedText e
                   = (EnvVarPattern.provider p ++ " API key detected (value redacted)")%string)
  /\ (forall content content' filePath,
         (forall p, In p Patterns.ENV_VAR_PATTERNS ->
                    RegExp_test (EnvVarPattern.pattern p) content
                    = RegExp_test (EnvVarPattern.pattern p) content') ->
         analyzeEnvFile content filePath = analyzeEnvFile content' filePath).
Proof.
  split.
  - intros a e Ha He Ht.
    destruct (registry_agent_ok w options a Ha) as [_ [_ [_ Hev]]].
    rewrite Forall_forall in Hev. exact (Hev e He Ht).
  - intros content content' filePath. apply analyzeEnvFile_noninterference.
Qed.

(** ** The keys of the registry *)

Lemma In_addKey keys k x : In x (addKey keys k) <-> In x keys \/ x = k.
Proof.
  unfold addKey. destruct (Patterns.Array_includes keys k) eqn:E.
  - apply Array_includes_In in E. split; [auto|]. intros [H | ->]; assumption.
  - rewrite in_app_iff. simpl. intuition.
Qed.

Lemma In_fold_addKey l : forall keys x,
  In x (fold_left addKey l keys) <-> In x keys \/ In x l.
Proof.
  induction l as [|k l IH]; intros keys x; simpl; [tauto|].
  rewrite IH, In_addKey. intuition.
Qed.

Lemma fold_addKey_single l x :
  (forall k, In k l -> k = x) -> l <> [] -> fold_left addKey l [] = [x].
Proof.
  intros Hall Hne.
  assert (G : forall l', (forall k, In k l' -> k = x) -> fold_left addKey l' [x] = [x]).
  { induction l' as [|k l' IH]; intros H; simpl; [reflexivity|].
    rewrite (H k (or_introl eq_refl)). unfold addKey. cbn.
    rewrite String.eqb_refl. cbn. apply IH. intros k' Hk'. apply H. right. exact Hk'. }
  destruct l as [|k l]; [congruence|]. simpl.
  rewrite (Hall k (or_introl eq_refl)). apply G. intros k' Hk'. apply Hall. right. exact Hk'.
Qed.

Lemma addKey_has (m : JsMap AgentRecord) k :
  Map_has k m = true -> addKey (Map_keys m) k = Map_keys m.
Proof. intros E. unfold addKey. rewrite <- Map_has_keys, E. reflexivity. Qed.

Lemma addKey_new (m : JsMap AgentRecord) k (v : AgentRecord) :
  Map_has k m = false -> Map_keys (Map_set k v m) = addKey (Map_keys m) k.
Proof.
  intros E. unfold addKey. rewrite <- Map_has_keys, E.
  rewrite (Map_set_new m k v E). unfold Map_keys. rewrite map_app. reflexivity.
Qed.

Section KeysOfLoop.
Variable w : World.
Variable scanPath : string.
Variable threshold : Q.
Variables configFileNames depFileNames : list string.

Lemma keys_addDetection file fullPath language st d :
  Map_keys (agentMap (addDetection w threshold file fullPath language st d))
  = if Qle_bool threshold (FileDetection.totalConfidence d)
    then addKey (Map_keys (agentMap st)) (agentKeyOf (FileDetection.framework d) file)
    else Map_keys (agentMap st).
Proof.
  unfold addDetection. destruct (Qle_bool threshold (FileDetection.totalConfidence d));
    [|reflexivity].
  destruct (Map_has (agentKeyOf (FileDetection.framework d) file) (agentMap st)) eqn:E;
    cbn [negb].
  - rewrite (addKey_has _ _ E). reflexivity.
  - rewrite agentMap_addAgent. apply addKey_new. exact E.
Qed.

Lemma keys_detections file fullPath language ds : forall st,
  Map_keys (agentMap (fold_left (addDetection w threshold file fullPath language) ds st))
  = fold_left addKey (detectionKeys threshold file ds) (Map_keys (agentMap st)).
Proof.
  induction ds as [|d ds IH]; intros st; simpl; [reflexivity|].
  rewrite IH, keys_addDetection. unfold detectionKeys. cbn [filter].
  destruct (Qle_bool threshold (FileDetection.totalConfidence d)); reflexivity.
Qed.

Lemma agentMap_scanDependencies file fullPath name_ st :
  agentMap (scanDependencies w depFileNames file fullPath name_ st) = agentMap st.
Proof.
  unfold scanDependencies. destruct (Patterns.Array_includes depFileNames name_); [|reflexivity].
  destruct (readFile w fullPath); reflexivity.
Qed.

Lemma agentMap_scanEnv file fullPath name_ st :
  agentMap (scanEnv w file fullPath name_ st) = agentMap st.
Proof.
  unfold scanEnv. destruct (String.eqb name_ ".env" || Js.startsWith ".env." name_);
    [|reflexivity].
  destruct (readFile w fullPath); reflexivity.
Qed.

Lemma keys_scanFile st file :
  Map_keys (agentMap (scanFile w scanPath threshold configFileNames depFileNames st file))
  = fold_left addKey (fileKeys w scanPath threshold configFileNames file)
              (Map_keys (agentMap st)).
Proof.
  unfold scanFile, fileKeys.
  destruct (stat w (Path.join scanPath file)) as [size|]; [|reflexivity].
  destruct (Patterns.MAX_FILE_SIZE <? size)%N; [reflexivity|].
  rewrite agentMap_report, fold_left_app.
  set (st1 := scanSource w threshold file (Path.join scanPath file)
                         (Js.toLowerCase (Path.extname file)) (report (setCurrentFile file) st)).
  assert (H1 : Map_keys (agentMap st1)
               = fold_left addKey
                   match Patterns.lookupExtension (Js.toLowerCase (Path.extname file))
                                                  Patterns.LANGUAGE_EXTENSIONS with
                   | Some _ =>
                       detectionKeys threshold file
                         (FileAnalysisResult.detections
                            (analyzeFile w (Path.join scanPath file)))
                   | None => []
                   end (Map_keys (agentMap st))).
  { unfold st1, scanSource.
    destruct (Patterns.lookupExtension (Js.toLowerCase (Path.extname file))
                                       Patterns.LANGUAGE_EXTENSIONS); [|reflexivity].
    rewrite keys_detections. reflexivity. }
  rewrite <- H1.
  set (st3 := scanEnv w file (Path.join scanPath file) (Path.basename file)
                      (scanDependencies w depFileNames file (Path.join scanPath file)
                                        (Path.basename file) st1)).
  assert (H3 : agentMap st3 = agentMap st1).
  { unfold st3. rewrite agentMap_scanEnv, agentMap_scanDependencies. reflexivity. }
  rewrite <- H3. unfold scanConfig.
  destruct (Patterns.Array_includes configFileNames (Path.basename file)); [|reflexivity].
  destruct (String.eqb (Path.basename file) "crewai.yaml"
            || String.eqb (Path.basename file) "crewai.yml"); [|reflexivity].
  cbn [andb fold_left].
  change ("crewai:" ++ file)%string with (agentKeyOf crewai file).
  destruct (Map_has (agentKeyOf crewai file) (agentMap st3)) eqn:E; cbn [negb].
  - rewrite (addKey_has _ _ E). reflexivity.
  - rewrite agentMap_addAgent. apply addKey_new. exact E.
Qed.

Lemma keys_files files : forall st,
  Map_keys (agentMap (fold_left (scanFile w scanPath threshold configFileNames depFileNames)
                                files st))
  = fold_left addKey (flat_map (fileKeys w scanPath threshold configFileNames) files)
              (Map_keys (agentMap st)).
Proof.
  induction files as [|file files IH]; intros st; simpl; [reflexivity|].
  rewrite IH, keys_scanFile, fold_left_app. reflexivity.
Qed.

End KeysOfLoop.

Lemma keys_scanFiles w options :
  Map_keys (agentMap (scanFiles w options))
  = fold_left addKey
      (flat_map (fileKeys w (scanPathOf w options) (thresholdOf options)
                          Patterns.getAgentConfigFileNames)
                (discover w options (scanPathOf w options))) [].
Proof. unfold scanFiles. rewrite keys_files. reflexivity. Qed.

Lemma keys_enrichWithDependencies deps : forall m,
  Map_keys (enrichWithDependencies m deps) = Map_keys m.
Proof.
  unfold enrichWithDependencies.
  induction deps as [|dep deps IH]; intros m; cbn [fold_left]; [reflexivity|].
  rewrite IH.
  match goal with |- context [find ?f ?l] => destruct (find f l) end; [|reflexivity].
  apply Map_keys_forEachAgent.
Qed.

Lemma keys_enrichWithEnvVars envs : forall m,
  Map_keys (enrichWithEnvVars m envs) = Map_keys m.
Proof.
  unfold enrichWithEnvVars.
  induction envs as [|env envs IH]; intros m; cbn [fold_left]; [reflexivity|].
  rewrite IH. apply Map_keys_forEachAgent.
Qed.

Lemma keys_enrichedAgents w options :
  Map_keys (enrichedAgents w options) = Map_keys (agentMap (scanFiles w options)).
Proof.
  unfold enrichedAgents. rewrite keys_enrichWithEnvVars, keys_enrichWithDependencies.
  reflexivity.
Qed.

(** The number of agents of a result is the number of keys of the
    registry. *)
Lemma agents_count w options :
  List.length (agents (snd (scanLocal w options)))
  = List.length (Map_keys (agentMap (scanFiles w options))).
Proof.
  rewrite <- keys_enrichedAgents.
  rewrite <- (length_map core), core_scanLocal, length_map.
  rewrite (Permutation_length (Array_sort_perm byConfidence _)).
  unfold Map_values, Map_keys. rewrite !length_map. reflexivity.
Qed.

(** ** The threshold *)

Lemma totalAgents_scanLocal w options :
  totalAgents (summary (snd (scanLocal w options)))
  = List.length (agents (snd (scanLocal w options))).
Proof.
  unfold scanLocal. cbv zeta. destruct (enrichWithRisks w _) as [risks agents']. reflexivity.
Qed.

Lemma detectionKeys_mono t1 t2 file ds k :
  t1 <= t2 -> In k (detectionKeys t2 file ds) -> In k (detectionKeys t1 file ds).
Proof.
  intros Ht. unfold detectionKeys. rewrite !in_map_iff.
  intros [d [Hk Hd]]. exists d. split; [exact Hk|].
  apply filter_In in Hd. destruct Hd as [Hd Hq]. apply filter_In. split; [exact Hd|].
  apply Qle_bool_iff in Hq. apply Qle_bool_iff. lra.
Qed.

Lemma fileKeys_mono w scanPath t1 t2 cfg file k :
  t1 <= t2 -> In k (fileKeys w scanPath t2 cfg file) -> In k (fileKeys w scanPath t1 cfg file).
Proof.
  intros Ht. unfold fileKeys.
  destruct (stat w (Path.join scanPath file)) as [size|]; [|auto].
  destruct (Patterns.MAX_FILE_SIZE <? size)%N; [auto|].
  rewrite !in_app_iff. intros [H|H]; [left | right; exact H].
  destruct (Patterns.lookupExtension _ _); [|exact H].
  eapply detectionKeys_mono; eassumption.
Qed.

(** C5.  For a fixed world and request and two thresholds [t1 < t2], the
    scan at [t1] reports at least as many agents as the scan at [t2], in
    the agents list and in the summary count. *)
Theorem C5_agent_count_monotone_in_threshold
        (w : World) (options : ScanOptions) (t1 t2 : Q) :
  t1 < t2 ->
  let r1 := snd (scanLocal w (withConfidenceThreshold options t1)) in
  let r2 := snd (scanLocal w (withConfidenceThreshold options t2)) in
  (List.length (agents r2) <= List.length (agents r1))%nat
  /\ (totalAgents (summary r2) <= totalAgents (summary r1))%nat.
Proof.
  intros Ht. cbv zeta. rewrite !totalAgents_scanLocal.
  assert (H : (List.length (agents (snd (scanLocal w (withConfidenceThreshold options t2))))
               <= List.length (agents (snd (scanLocal w (withConfidenceThreshold options t1)))))%nat).
  { rewrite !agents_count. apply NoDup_incl_length.
    - destruct (scanFiles_ok w (withConfidenceThreshold options t2)) as [[Hnd _] _]. exact Hnd.
    - intros k. rewrite !keys_scanFiles, !In_fold_addKey.
      intros [[]|Hk]. right. apply in_flat_map in Hk. destruct Hk as [file [Hfile Hk]].
      apply in_flat_map. exists file. split; [exact Hfile|].
      eapply fileKeys_mono; [|exact Hk]. cbn. lra. }
  split; exact H.
Qed.

(** ** Configuration files *)

Lemma agentKeyOf_inj f1 f2 p1 p2 :
  agentKeyOf f1 p1 = agentKeyOf f2 p2 -> f1 = f2 /\ p1 = p2.
Proof.
  unfold agentKeyOf.
  destruct f1, f2; cbn; intros H; try discriminate H; split; congruence.
Qed.

Lemma crewaiConfig_listed file :
  isCrewaiConfig file ->
  Patterns.Array_includes Patterns.getAgentConfigFileNames (Path.basename file)
  && (String.eqb (Path.basename file) "crewai.yaml"
      || String.eqb (Path.basename file) "crewai.yml") = true.
Proof. intros [H|H]; rewrite H; reflexivity. Qed.

Lemma crewaiConfig_key w scanPath threshold file size :
  isCrewaiConfig file ->
  stat w (Path.join scanPath file) = Some size ->
  (size <= Patterns.MAX_FILE_SIZE)%N ->
  fileKeys w scanPath threshold Patterns.getAgentConfigFileNames file
  = [agentKeyOf crewai file].
Proof.
  intros Hcfg Hstat Hsize. unfold fileKeys. rewrite Hstat.
  replace (Patterns.MAX_FILE_SIZE <? size)%N with false
    by (symmetry; apply N.ltb_ge; exact Hsize).
  rewrite (crewaiConfig_not_source file Hcfg), (crewaiConfig_listed file Hcfg). reflexivity.
Qed.

(** Before the auxiliary evidence is folded in, a record of a CrewAI
    configuration file is a crewai record with confidence 0.7. *)
Lemma scanFiles_config_fresh w options :
  Forall (fun p => ConfigFresh (snd p)) (agentMap (scanFiles w options)).
Proof.
  unfold scanFiles.
  apply (StateOk_files w (scanPathOf w options) (thresholdOf options) _ _
           (Forall (fun p => ConfigFresh (snd p))) (fun _ => True) (fun _ => True)).
  - intros m k a Hm Hhas Hins. rewrite (Map_set_new m k a Hhas).
    apply Forall_push; [exact Hm|]. unfold ConfigFresh. cbn [snd].
    destruct Hins as [file d id_ name_ language Hext _ _ | file id_ _]; cbn.
    + intros Hc. apply crewaiConfig_not_source in Hc. congruence.
    + intros _. split; reflexivity.
  - trivial.
  - trivial.
  - split; [|split]; cbn; constructor.
Qed.

Lemma ConfigFresh_addDependency dep mapping a :
  DependencyMapping.framework mapping <> crewai ->
  ConfigFresh a -> ConfigFresh (addDependency dep mapping a).
Proof.
  intros Hm Ha. unfold addDependency.
  destruct (AgentFramework_eqb (framework a) (DependencyMapping.framework mapping)) eqn:E;
    [|exact Ha].
  destruct (alreadyHas dependency (pattern dep) a); [exact Ha|]. cbn [negb].
  apply AgentFramework_eqb_eq in E. unfold ConfigFresh. cbn.
  intros Hc. destruct (Ha Hc) as [Hf _]. congruence.
Qed.

Lemma enrichWithDependencies_fresh (deps : list DetectionEvidence) :
  noCrewaiDependency deps ->
  forall m, Forall (fun p => ConfigFresh (snd p)) m ->
            Forall (fun p => ConfigFresh (snd p)) (enrichWithDependencies m deps).
Proof.
  unfold enrichWithDependencies, noCrewaiDependency.
  induction deps as [|dep deps IH]; intros Hdeps m Hm; cbn [fold_left]; [exact Hm|].
  apply IH; [intros d Hd; apply Hdeps; right; exact Hd|].
  pose proof (Hdeps dep (or_introl eq_refl)) as Hdep. unfold mappedFramework in Hdep.
  match goal with |- context [find ?f ?l] => destruct (find f l) as [mapping|] end;
    [|exact Hm].
  unfold forEachAgent. apply Forall_map. eapply Forall_impl; [|exact Hm].
  intros [k a] Ha. cbn [snd] in *. apply ConfigFresh_addDependency; [|exact Ha].
  intros Hc. apply Hdep. rewrite Hc. reflexivity.
Qed.

Lemma enrichedAgents_fresh w options :
  noCrewaiDependency (dependencyEvidence (scanFiles w options)) ->
  envEvidence (scanFiles w options) = [] ->
  Forall (fun p => ConfigFresh (snd p)) (enrichedAgents w options).
Proof.
  intros Hd He. unfold enrichedAgents. rewrite He. cbn [enrichWithEnvVars fold_left].
  apply enrichWithDependencies_fresh; [exact Hd | apply scanFiles_config_fresh].
Qed.

(** A CrewAI configuration file among the discovered files, within the
    size ceiling, has its record in the result whatever the threshold. *)
Lemma config_record_in_result w options file size :
  In file (discover w options (scanPathOf w options)) ->
  isCrewaiConfig file ->
  stat w (Path.join (scanPathOf w options) file) = Some size ->
  (size <= Patterns.MAX_FILE_SIZE)%N ->
  exists a,
    In a (agents (snd (scanLocal w options)))
    /\ framework a = crewai
    /\ location_filePath a = file
    /\ 0.7 <= confidence a <= 1
    /\ (noCrewaiDependency (dependencyEvidence (scanFiles w options)) ->
        envEvidence (scanFiles w options) = [] -> confidence a == 0.7).
Proof.
  intros Hfile Hcfg Hstat Hsize.
  assert (Hk : In (agentKeyOf crewai file) (Map_keys (enrichedAgents w options))).
  { rewrite keys_enrichedAgents, keys_scanFiles, In_fold_addKey. right.
    apply in_flat_map. exists file. split; [exact Hfile|].
    rewrite (crewaiConfig_key w _ _ file size Hcfg Hstat Hsize). left. reflexivity. }
  unfold Map_keys in Hk. apply in_map_iff in Hk. destruct Hk as [[k a'] [Hkey Hin]].
  cbn [fst] in Hkey. subst k.
  destruct (enrichedAgents_ok w options) as [_ Hall].
  pose proof Hall as Hall'. rewrite Forall_forall in Hall'.
  destruct (Hall' _ Hin) as [Hkey [Hr [Hfloor _]]]. cbn [fst snd] in Hkey, Hr, Hfloor.
  apply agentKeyOf_inj in Hkey. destruct Hkey as [Hf Hl].
  assert (Hcore : In (core a') (map core (agents (snd (scanLocal w options))))).
  { apply (Permutation_in _ (Permutation_sym (core_scanLocal_perm w options))).
    apply in_map. unfold Map_values. apply (in_map snd) in Hin. exact Hin. }
  apply in_map_iff in Hcore. destruct Hcore as [a [Hc Ha]].
  unfold core in Hc. inversion Hc as [[Haf Hal Haq Hae]].
  exists a. split; [exact Ha|]. rewrite Haf, Hal, Haq.
  split; [congruence|]. split; [congruence|]. split.
  - split; [apply Hfloor; rewrite <- Hl; exact Hcfg | apply Hr].
  - intros Hd He. pose proof (enrichedAgents_fresh w options Hd He) as Hfresh.
    rewrite Forall_forall in Hfresh. specialize (Hfresh _ Hin). cbn [snd] in Hfresh.
    destruct Hfresh as [_ Hq]; [rewrite <- Hl; exact Hcfg|]. rewrite Hq. reflexivity.
Qed.

(** C10, amended.  Whatever the confidence threshold of the request, values
    above 0.7 included, a [crewai.yaml] or [crewai.yml] file that is among
    the discovered files and within the size ceiling has an agent record in
    the result, attributed to crewai at that file: the record is inserted
    without any comparison with the threshold.  Its confidence is at least
    0.7 and at most 1, and it is 0.7 when the scan collected no dependency
    evidence mapped to crewai and no environment evidence. *)
Theorem C10_config_record_ignores_threshold
        (w : World) (options : ScanOptions) (t : Q) (file : string) (size : N) :
  let request := withConfidenceThreshold options t in
  In file (discover w request (scanPathOf w request)) ->
  Path.basename file = "crewai.yaml" \/ Path.basename file = "crewai.yml" ->
  stat w (Path.join (scanPathOf w request) file) = Some size ->
  (size <= Patterns.MAX_FILE_SIZE)%N ->
  exists a,
    In a (agents (snd (scanLocal w request)))
    /\ framework a = crewai
    /\ location_filePath a = file
    /\ 0.7 <= confidence a <= 1
    /\ (noCrewaiDependency (dependencyEvidence (scanFiles w request)) ->
        envEvidence (scanFiles w request) = [] -> confidence a == 0.7).
Proof.
  intros request Hfile Hcfg Hstat Hsize.
  exact (config_record_in_result w request file size Hfile Hcfg Hstat Hsize).
Qed.

Lemma filter_nil_all {A} (P : A -> bool) (l : list A) :
  (forall x, In x l -> P x = false) -> filter P l = [].
Proof.
  induction l as [|x l IH]; intros H; simpl; [reflexivity|].
  rewrite (H x (or_introl eq_refl)). apply IH. intros y Hy. apply H. right. exact Hy.
Qed.

(** In a list without two elements of the same [f]-value, the elements
    that pass a test which forces one [f]-value are at most one. *)
Lemma filter_singleton {A B} (f : A -> B) (P : A -> bool) (l : list A) (a : A) (c : B) :
  NoDup (map f l) -> In a l -> P a = true ->
  (forall x, In x l -> P x = true -> f x = c) ->
  filter P l = [a].
Proof.
  induction l as [|x l IH]; intros Hnd Ha HPa Hall; [destruct Ha|].
  simpl in Hnd. apply NoDup_cons_iff in Hnd. destruct Hnd as [Hx Hnd].
  assert (Hc : f a = c) by (apply Hall; assumption).
  simpl. destruct (P x) eqn:HPx.
  - assert (Hfx : f x = c) by (apply Hall; [left; reflexivity | exact HPx]).
    destruct Ha as [-> | Ha].
    + f_equal. apply filter_nil_all. intros y Hy.
      destruct (P y) eqn:HPy; [|reflexivity]. exfalso. apply Hx.
      rewrite Hfx, <- (Hall y (or_intror Hy) HPy). apply in_map. exact Hy.
    + exfalso. apply Hx. rewrite Hfx, <- Hc. apply in_map. exact Ha.
  - destruct Ha as [-> | Ha]; [congruence|].
    apply IH; try assumption. intros y Hy. apply Hall. right. exact Hy.
Qed.

Lemma agents_pairs_NoDup w options :
  NoDup (map (fun a => (framework a, location_filePath a))
             (agents (snd (scanLocal w options)))).
Proof.
  assert (E : forall l : list AgentRecord,
             map (fun a => (framework a, location_filePath a)) l
             = map (fun c => fst (fst c)) (map core l)).
  { intros l. rewrite map_map. reflexivity. }
  rewrite E. apply (Permutation_NoDup (l := map (fun c => fst (fst c))
                                          (map core (Map_values (enrichedAgents w options))))).
  - apply Permutation_map. symmetry. apply core_scanLocal_perm.
  - rewrite <- E. apply registry_pairs_NoDup.
Qed.

(** Where the crewai records of a result come from when no source file has
    a crewai detection that reaches the threshold. *)
Lemma crewai_records_from_config w options a :
  (forall g d,
      In g (discover w options (scanPathOf w options)) ->
      In d (FileAnalysisResult.detections (analyzeFile w (Path.join (scanPathOf w options) g))) ->
      FileDetection.framework d = crewai ->
      Qle_bool (thresholdOf options) (FileDetection.totalConfidence d) = false) ->
  In a (agents (snd (scanLocal w options))) ->
  framework a = crewai ->
  In (location_filePath a) (discover w options (scanPathOf w options))
  /\ isCrewaiConfig (location_filePath a).
Proof.
  intros Hsrc Ha Hfw.
  destruct (agent_of_registry w options a Ha) as [a' [Ha' Hc]].
  unfold core in Hc. inversion Hc as [[Hf Hl Hq He]].
  unfold Map_values in Ha'. apply in_map_iff in Ha'. destruct Ha' as [[k a''] [Heq Hin]].
  cbn [snd] in Heq. subst a''.
  destruct (enrichedAgents_ok w options) as [_ Hall]. rewrite Forall_forall in Hall.
  destruct (Hall _ Hin) as [Hkey _]. cbn [fst snd] in Hkey.
  rewrite Hf, Hl, Hfw in Hkey.
  assert (Hk : In k (Map_keys (enrichedAgents w options)))
    by (unfold Map_keys; apply (in_map fst) in Hin; exact Hin).
  rewrite keys_enrichedAgents, keys_scanFiles, In_fold_addKey in Hk.
  destruct Hk as [[]|Hk]. apply in_flat_map in Hk. destruct Hk as [g [Hg Hk]].
  unfold fileKeys in Hk.
  destruct (stat w (Path.join (scanPathOf w options) g)) as [sz|]; [|destruct Hk].
  destruct (Patterns.MAX_FILE_SIZE <? sz)%N; [destruct Hk|].
  apply in_app_iff in Hk. destruct Hk as [Hk|Hk].
  - destruct (Patterns.lookupExtension _ _); [|destruct Hk].
    unfold detectionKeys in Hk. apply in_map_iff in Hk. destruct Hk as [d [Hkd Hd]].
    apply filter_In in Hd. destruct Hd as [Hd Hq'].
    rewrite Hkey in Hkd. apply agentKeyOf_inj in Hkd. destruct Hkd as [Hfd _].
    rewrite (Hsrc g d Hg Hd Hfd) in Hq'. discriminate.
  - destruct (Patterns.Array_includes Patterns.getAgentConfigFileNames (Path.basename g)
              && (String.eqb (Path.basename g) "crewai.yaml"
                  || String.eqb (Path.basename g) "crewai.yml")) eqn:E; [|destruct Hk].
    destruct Hk as [Hk | []]. rewrite Hkey in Hk. apply agentKeyOf_inj in Hk.
    destruct Hk as [_ Hk]. subst g.
    apply andb_true_iff in E. destruct E as [_ E]. apply orb_true_iff in E.
    rewrite ?Hl. split; [exact Hg|].
    destruct E as [E|E]; apply String.eqb_eq in E; [left | right]; exact E.
Qed.

(** C2, amended.  When the discovered files hold one CrewAI configuration
    file ([crewai.yaml] or [crewai.yml]) within the size ceiling and no
    source file has a crewai detection that reaches the threshold, the
    result holds exactly one agent record attributed to crewai; it is the
    record of that file, its confidence is at least 0.7 and at most 1, and
    it is 0.7 when the scan collected no dependency evidence mapped to
    crewai and no environment evidence. *)
Theorem C2_standalone_crewai_config
        (w : World) (options : ScanOptions) (file : string) (size : N) :
  let scanPath := scanPathOf w options in
  let files := discover w options scanPath in
  In file files ->
  Path.basename file = "crewai.yaml" \/ Path.basename file = "crewai.yml" ->
  stat w (Path.join scanPath file) = Some size ->
  (size <= Patterns.MAX_FILE_SIZE)%N ->
  (forall g, In g files ->
             Path.basename g = "crewai.yaml" \/ Path.basename g = "crewai.yml" -> g = file) ->
  (forall g d,
      In g files ->
      In d (FileAnalysisResult.detections (analyzeFile w (Path.join scanPath g))) ->
      FileDetection.framework d = crewai ->
      Qle_bool (thresholdOf options) (FileDetection.totalConfidence d) = false) ->
  exists a,
    filter (fun a => AgentFramework_eqb (framework a) crewai)
           (agents (snd (scanLocal w options))) = [a]
    /\ location_filePath a = file
    /\ 0.7 <= confidence a <= 1
    /\ (noCrewaiDependency (dependencyEvidence (scanFiles w options)) ->
        envEvidence (scanFiles w options) = [] -> confidence a == 0.7).
Proof.
  intros scanPath files Hfile Hcfg Hstat Hsize Hone Hsrc.
  destruct (config_record_in_result w options file size Hfile Hcfg Hstat Hsize)
    as [a [Ha [Hfw [Hloc Hrest]]]].
  exists a. split; [|split; [exact Hloc | exact Hrest]].
  apply (filter_singleton (fun a => (framework a, location_filePath a)) _ _ a (crewai, file)).
  - apply agents_pairs_NoDup.
  - exact Ha.
  - apply AgentFramework_eqb_eq. exact Hfw.
  - intros x Hx HPx. apply AgentFramework_eqb_eq in HPx.
    destruct (crewai_records_from_config w options x Hsrc Hx HPx) as [Hg Hc].
    rewrite HPx, (Hone _ Hg Hc). reflexivity.
Qed.

(** ** Concrete scans *)

Lemma C2_witness :
  exists a,
    filter (fun a => AgentFramework_eqb (framework a) crewai)
           (agents (snd (scanLocal configOnlyTree defaultOptions))) = [a]
    /\ location_filePath a = "crewai.yaml"
    /\ 0.7 <= confidence a <= 1
    /\ (noCrewaiDependency (dependencyEvidence (scanFiles configOnlyTree defaultOptions)) ->
        envEvidence (scanFiles configOnlyTree defaultOptions) = [] -> confidence a == 0.7).
Proof.
  apply (C2_standalone_crewai_config configOnlyTree defaultOptions "crewai.yaml" 10%N).
  - vm_compute. left. reflexivity.
  - left. reflexivity.
  - reflexivity.
  - vm_compute. discriminate.
  - intros g Hg _. vm_compute in Hg. destruct Hg as [<- | []]. reflexivity.
  - intros g d Hg Hd. vm_compute in Hg. destruct Hg as [<- | []].
    vm_compute in Hd. destruct Hd.
Defined.

Lemma C5_witness :
  (0.2 < 0.5)
  /\ (List.length (agents (snd (scanLocal sourceAndEnvTree
                                          (withConfidenceThreshold defaultOptions 0.5))))
      <= List.length (agents (snd (scanLocal sourceAndEnvTree
                                             (withConfidenceThreshold defaultOptions 0.2)))))%nat
  /\ (totalAgents (summary (snd (scanLocal sourceAndEnvTree
                                           (withConfidenceThreshold defaultOptions 0.5))))
      <= totalAgents (summary (snd (scanLocal sourceAndEnvTree
                                              (withConfidenceThreshold defaultOptions 0.2)))))%nat.
Proof.
  split; [reflexivity|].
  apply (C5_agent_count_monotone_in_threshold sourceAndEnvTree defaultOptions 0.2 0.5).
  reflexivity.
Defined.

Lemma C6_witness :
  exists p, In p Patterns.ENV_VAR_PATTERNS
            /\ pattern openaiKeyEvidence = source (EnvVarPattern.pattern p)
            /\ matchedText openaiKeyEvidence
               = (EnvVarPattern.provider p ++ " API key detected (value redacted)")%string.
Proof.
  apply (proj1 (C6_env_evidence_is_redacted sourceAndEnvTree defaultOptions)
               sourceAndEnvAgent openaiKeyEvidence).
  - vm_compute. left. reflexivity.
  - vm_compute. right. right. left. reflexivity.
  - reflexivity.
Defined.

Lemma C7_witness :
  exists agentMap' : JsMap AgentRecord,
    enrichWithDependencies [("crewai:crew.py", crewRecord)] [crewaiDependency]
    = enrichWithDependencies agentMap' []
    /\ Forall2 (fun p p' =>
                  fst p = fst p'
                  /\ DependencyStep crewaiDependency
                       (DependencyMapping.mk "crewai" crewai 0.3 DependencyMapping.DepPython)
                       (snd p) (snd p'))
               [("crewai:crew.py", crewRecord)] agentMap'.
Proof.
  apply (proj2 (proj2 (C7_enrichWithDependencies_step [("crewai:crew.py", crewRecord)]
                         crewaiDependency []))
           (DependencyMapping.mk "crewai" crewai 0.3 DependencyMapping.DepPython)).
  reflexivity.
Defined.

Lemma C9_witness :
  github githubRequest = Some (mkGithub "testorg" "fake-token" None)
  /\ scan configOnlyTree githubRequest
     = ([], Threw "GitHub scanning is not yet implemented. Use local scanning: agentgov audit --path /your/code").
Proof.
  split; [reflexivity|].
  apply (C9_scan_github_unsupported configOnlyTree githubRequest
           (mkGithub "testorg" "fake-token" None)).
  reflexivity.
Defined.

Lemma C10_witness :
  exists a,
    In a (agents (snd (scanLocal configOnlyTree (withConfidenceThreshold defaultOptions 0.9))))
    /\ framework a = crewai
    /\ location_filePath a = "crewai.yaml"
    /\ 0.7 <= confidence a <= 1
    /\ (noCrewaiDependency
          (dependencyEvidence
             (scanFiles configOnlyTree (withConfidenceThreshold defaultOptions 0.9))) ->
        envEvidence
          (scanFiles configOnlyTree (withConfidenceThreshold defaultOptions 0.9)) = [] ->
        confidence a == 0.7).
Proof.
  apply (C10_config_record_ignores_threshold configOnlyTree defaultOptions 0.9
           "crewai.yaml" 10%N).
  - vm_compute. left. reflexivity.
  - left. reflexivity.
  - reflexivity.
  - vm_compute. discriminate.
Defined.

(** The claim C2 as the specification states it fails twice.  A generic
    name of the configuration-file list creates no record; and the record
    of a [crewai.yaml] next to a manifest that names crewai ends at 0.85,
    not at 0.7. *)
Lemma C2_counterexample :
  (In "agents.yaml" Patterns.getAgentConfigFileNames
   /\ discover genericConfigTree defaultOptions "/repo" = ["agents.yaml"]
   /\ agents (snd (scanLocal genericConfigTree defaultOptions)) = [])
  /\ (In "crewai.yaml" Patterns.getAgentConfigFileNames
      /\ discover configAndManifestTree defaultOptions "/repo"
         = ["crewai.yaml"; "requirements.txt"]
      /\ exists a, agents (snd (scanLocal configAndManifestTree defaultOptions)) = [a]
                   /\ framework a = crewai
                   /\ confidence a == 0.85
                   /\ ~ confidence a == 0.7).
Proof.
  split.
  - split; [vm_compute; tauto|]. split; vm_compute; reflexivity.
  - split; [vm_compute; tauto|]. split; [vm_compute; reflexivity|].
    eexists. split; [vm_compute; reflexivity|].
    split; [reflexivity|]. split; [reflexivity | discriminate].
Qed.

(** The claim C10 as stated fails at threshold 0.9 on the project with the
    manifest: the crewai record is there, at 0.85 and not at 0.7. *)
Lemma C10_counterexample :
  exists a,
    agents (snd (scanLocal configAndManifestTree (withConfidenceThreshold defaultOptions 0.9)))
    = [a]
    /\ framework a = crewai
    /\ location_filePath a = "crewai.yaml"
    /\ confidence a == 0.85
    /\ ~ confidence a == 0.7.
Proof.
  eexists. split; [vm_compute; reflexivity|].
  split; [reflexivity|]. split; [reflexivity|]. split; [reflexivity | discriminate].
Qed.

(* ------------------------------------------------------------------ *)
(** * Further properties *)

(** ** The helpers on examples *)

Example summarize_tests :
  summarizeEvidence [] = ""
  /\ summarizeEvidence exampleEvidence = "import detected, agent instantiation found".
Proof. vm_compute. split; reflexivity. Qed.

Example escapeHtml_test :
  escapeHtml ("<a href=" ++ Js.dquote ++ "x&y" ++ Js.dquote ++ ">")
  = "&lt;a href=&quot;x&amp;y&quot;&gt;".
Proof. vm_compute. reflexivity. Qed.

(** ** Strings *)

Lemma length_take n s : String.length (Js.take n s) = Nat.min n (String.length s).
Proof.
  revert s. induction n as [|n IH]; intros [|c s]; simpl; try reflexivity.
  rewrite IH. reflexivity.
Qed.

Lemma length_drop n s : String.length (Js.drop n s) = (String.length s - n)%nat.
Proof.
  revert s. induction n as [|n IH]; intros [|c s]; simpl; try reflexivity. apply IH.
Qed.

Lemma length_append (s t : string) :
  String.length (s ++ t) = (String.length s + String.length t)%nat.
Proof. induction s as [|c s IH]; simpl; [reflexivity | rewrite IH; reflexivity]. Qed.

Lemma take_drop n s : (Js.take n s ++ Js.drop n s)%string = s.
Proof.
  revert s. induction n as [|n IH]; intros [|c s]; simpl; try reflexivity.
  rewrite IH. reflexivity.
Qed.

(** X1.  [truncate] returns a text of at most [maxLen + 3] characters: the
    text itself when it has at most [maxLen] characters, and otherwise its
    first [maxLen] characters followed by three dots. *)
Theorem X1_truncate_bound (str : string) (maxLen : nat) :
  (String.length (truncate str maxLen) <= maxLen + 3)%nat
  /\ ((String.length str <= maxLen)%nat -> truncate str maxLen = str)
  /\ ((maxLen < String.length str)%nat ->
      truncate str maxLen = (Js.take maxLen str ++ "...")%string
      /\ String.length (truncate str maxLen) = (maxLen + 3)%nat).
Proof.
  unfold truncate. destruct (maxLen <? String.length str)%nat eqn:E.
  - apply Nat.ltb_lt in E.
    assert (L : String.length (Js.take maxLen str ++ "...")%string = (maxLen + 3)%nat).
    { rewrite length_append, length_take. simpl. lia. }
    split; [lia|]. split; [lia|]. intros _. split; [reflexivity | exact L].
  - apply Nat.ltb_ge in E. split; [lia|]. split; [reflexivity | lia].
Qed.

Lemma X1_witness :
  (String.length "abc" <= 5)%nat /\ truncate "abc" 5 = "abc".
Proof.
  split; [simpl; lia|].
  apply (proj1 (proj2 (X1_truncate_bound "abc" 5))). simpl. lia.
Defined.

(** X2.  [truncatePath] with a width of at least 3 returns a text of at
    most that width: the path itself when it fits, and otherwise three dots
    followed by the last [maxLen - 3] characters of the path, [maxLen]
    characters in all. *)
Theorem X2_truncatePath_bound (path : string) (maxLen : nat) :
  (3 <= maxLen)%nat ->
  (String.length (truncatePath path maxLen) <= maxLen)%nat
  /\ ((String.length path <= maxLen)%nat -> truncatePath path maxLen = path)
  /\ ((maxLen < String.length path)%nat ->
      String.length (truncatePath path maxLen) = maxLen
      /\ exists dropped kept,
           path = (dropped ++ kept)%string
           /\ String.length kept = (maxLen - 3)%nat
           /\ truncatePath path maxLen = ("..." ++ kept)%string).
Proof.
  intros H3. unfold truncatePath. destruct (String.length path <=? maxLen)%nat eqn:E.
  - apply Nat.leb_le in E. split; [exact E|]. split; [reflexivity | lia].
  - apply Nat.leb_gt in E.
    assert (L : String.length (Js.drop (String.length path - maxLen + 3) path)
                = (maxLen - 3)%nat) by (rewrite length_drop; lia).
    split; [simpl; rewrite L; lia|]. split; [lia|]. intros _.
    split; [simpl; rewrite L; lia|].
    exists (Js.take (String.length path - maxLen + 3) path),
           (Js.drop (String.length path - maxLen + 3) path).
    split; [symmetry; apply take_drop|]. split; [exact L | reflexivity].
Qed.

Lemma X2_witness :
  (3 <= 8)%nat /\ (String.length (truncatePath "src/agents/crew.py" 8) <= 8)%nat.
Proof.
  assert (H : (3 <= 8)%nat) by lia.
  split; [exact H|]. exact (proj1 (X2_truncatePath_bound "src/agents/crew.py" 8 H)).
Defined.

Example truncatePath_long : truncatePath "src/agents/crew.py" 8 = "...ew.py".
Proof. reflexivity. Qed.

(** ** Escaping for the HTML report *)

Lemma matchAt_class p pv s :
  Re.matchAt (Re.Seq (Re.Chr p) Re.Eps) pv s
  = match s with
    | String c _ => if p c then Some (String c EmptyString, None) else None
    | EmptyString => None
    end.
Proof.
  unfold Re.matchAt. destruct s as [|c s]; [reflexivity|].
  cbn [Re.run Re.rest Re.advance Re.cap]. destruct (p c); [|reflexivity].
  unfold Re.advance. cbn [Re.rest Re.cap String.length].
  replace (S (String.length s) - String.length s)%nat with 1%nat by lia. reflexivity.
Qed.

(** A global replacement of a one-character pattern touches every
    character on its own. *)
Lemma replaceAll_class p by_ s :
  forall fuel pv, (String.length s < fuel)%nat ->
    replaceAllFrom fuel (Re.Seq (Re.Chr p) Re.Eps) by_ pv s = substituteClass p by_ s.
Proof.
  induction s as [|c s IH]; intros fuel pv Hf; (destruct fuel as [|fuel]; [simpl in Hf; lia|]).
  - cbn [replaceAllFrom]. rewrite matchAt_class. reflexivity.
  - cbn [replaceAllFrom]. rewrite matchAt_class. cbn [substituteClass].
    destruct (p c).
    + cbn [String.length Js.drop]. rewrite IH; [reflexivity | simpl in Hf; lia].
    + rewrite IH; [reflexivity | simpl in Hf; lia].
Qed.

Lemma escapeHtml_passes str :
  escapeHtml str
  = substituteClass (Ascii.eqb (ascii_of_nat 34)) (fun _ => "&quot;")
      (substituteClass (Ascii.eqb ">") (fun _ => "&gt;")
         (substituteClass (Ascii.eqb "<") (fun _ => "&lt;")
            (substituteClass (Ascii.eqb "&") (fun _ => "&amp;") str))).
Proof.
  unfold escapeHtml, String_replaceAll.
  change (ast (re Js.dquote)) with (Re.Seq (Re.Chr (Ascii.eqb (ascii_of_nat 34))) Re.Eps).
  change (ast (re ">")) with (Re.Seq (Re.Chr (Ascii.eqb ">")) Re.Eps).
  change (ast (re "<")) with (Re.Seq (Re.Chr (Ascii.eqb "<")) Re.Eps).
  change (ast (re "&")) with (Re.Seq (Re.Chr (Ascii.eqb "&")) Re.Eps).
  rewrite !replaceAll_class by lia. reflexivity.
Qed.

Lemma substituteClass_append p by_ (s t : string) :
  substituteClass p by_ (s ++ t) = (substituteClass p by_ s ++ substituteClass p by_ t)%string.
Proof.
  induction s as [|c s IH]; simpl; [reflexivity|]. rewrite IH.
  destruct (p c); [|reflexivity].
  generalize (by_ (String c "")). intros u. induction u as [|d u IHu]; simpl;
    [reflexivity | rewrite IHu; reflexivity].
Qed.

Lemma append_assoc (s t u : string) : ((s ++ t) ++ u)%string = (s ++ (t ++ u))%string.
Proof. induction s as [|c s IH]; simpl; [reflexivity | rewrite IH; reflexivity]. Qed.

Lemma escapeHtml_escapeEach (str : string) : escapeHtml str = escapeEach str.
Proof.
  rewrite escapeHtml_passes. induction str as [|c s IH]; [reflexivity|].
  change (String c s) with (String c EmptyString ++ s)%string at 1.
  rewrite !substituteClass_append, IH. cbn [escapeEach]. f_equal.
  destruct c as [[] [] [] [] [] [] [] []]; reflexivity.
Qed.

(** X3.  The four replacements of [escapeHtml], made one after the other,
    amount to replacing every character of the text on its own: [&], [<],
    [>] and the double quote by their entities, any other character by
    itself.  In particular the ampersand of an entity is never escaped
    again. *)
Theorem X3_escapeHtml_each_character (str : string) :
  escapeHtml str = escapeEach str.
Proof. exact (escapeHtml_escapeEach str). Qed.

Lemma In_append_chars c (s t : string) :
  In c (list_ascii_of_string (s ++ t)) <->
  In c (list_ascii_of_string s) \/ In c (list_ascii_of_string t).
Proof.
  induction s as [|d s IH]; simpl; [tauto|]. rewrite IH. tauto.
Qed.

(** X4.  The text that [escapeHtml] returns contains no [<], no [>] and no
    double quote, whatever the text it is given. *)
Theorem X4_escapeHtml_no_markup (str : string) (c : ascii) :
  In c (list_ascii_of_string (escapeHtml str)) ->
  c <> "<"%char /\ c <> ">"%char /\ c <> ascii_of_nat 34.
Proof.
  rewrite escapeHtml_escapeEach.
  induction str as [|d s IH]; [intros []|].
  cbn [escapeEach]. rewrite In_append_chars. intros [H | H]; [|exact (IH H)].
  clear IH. revert H.
  destruct d as [[] [] [] [] [] [] [] []]; cbn;
    intros H; repeat (destruct H as [H | H]; [subst c; repeat split; discriminate|]);
    destruct H.
Qed.

Lemma X4_witness :
  let c := "l"%char in
  In c (list_ascii_of_string (escapeHtml "<")) /\ c <> "<"%char.
Proof.
  assert (H : In "l"%char (list_ascii_of_string (escapeHtml "<"))) by (vm_compute; tauto).
  split; [exact H|]. exact (proj1 (X4_escapeHtml_no_markup "<" "l" H)).
Defined.

Lemma unescape_escapeEach (s : string) :
  forall fuel, (String.length (escapeEach s) < fuel)%nat ->
    unescapeHtml fuel (escapeEach s) = s.
Proof.
  induction s as [|c s IH]; intros fuel Hf.
  - destruct fuel; [simpl in Hf; lia | reflexivity].
  - cbn [escapeEach] in *. rewrite length_append in Hf.
    destruct fuel as [|fuel]; [lia|].
    assert (Hs : (String.length (escapeEach s) < fuel)%nat).
    { assert (1 <= String.length (escapeChar c))%nat; [|lia].
      destruct c as [[] [] [] [] [] [] [] []]; cbn; lia. }
    specialize (IH fuel Hs).
    destruct c as [[] [] [] [] [] [] [] []]; cbn; rewrite IH; reflexivity.
Qed.

(** X5.  [escapeHtml] loses nothing: two texts with the same escaped form
    are the same text. *)
Theorem X5_escapeHtml_injective (s t : string) :
  escapeHtml s = escapeHtml t -> s = t.
Proof.
  rewrite !escapeHtml_escapeEach. intros H.
  rewrite <- (unescape_escapeEach s (S (String.length (escapeEach s)))) by lia.
  rewrite H. apply unescape_escapeEach. lia.
Qed.

Lemma X5_witness : escapeHtml "a<b" = escapeHtml "a<b" /\ "a<b" = "a<b".
Proof.
  assert (H : escapeHtml "a<b" = escapeHtml "a<b") by reflexivity.
  split; [exact H | exact (X5_escapeHtml_injective "a<b" "a<b" H)].
Defined.

(** ** Confidence labels *)

(** X6.  The label, the terminal colour and the HTML class of a confidence
    value agree: High, green and high from 0.8 on; Medium, yellow and medium
    from 0.6 to 0.8; Low and red from 0.4 to 0.6; Very Low and dim below
    0.4, the HTML class being low for both of the last two.  The colour
    [formatConfidence] paints with is the one [getConfidenceColor] names. *)
Theorem X6_confidence_label_colour_class (c : Q) :
  fst (formatConfidence c) = getConfidenceColor c
  /\ (0.8 <= c <->
      getConfidenceLabel c = "High" /\ getConfidenceColor c = "green"
      /\ getConfidenceClass c = "high")
  /\ (0.6 <= c < 0.8 <->
      getConfidenceLabel c = "Medium" /\ getConfidenceColor c = "yellow"
      /\ getConfidenceClass c = "medium")
  /\ (0.4 <= c < 0.6 <->
      getConfidenceLabel c = "Low" /\ getConfidenceColor c = "red"
      /\ getConfidenceClass c = "low")
  /\ (c < 0.4 <->
      getConfidenceLabel c = "Very Low" /\ getConfidenceColor c = "dim"
      /\ getConfidenceClass c = "low").
Proof.
  unfold formatConfidence, getConfidenceLabel, getConfidenceColor, getConfidenceClass,
    CONFIDENCE_THRESHOLDS.HIGH, CONFIDENCE_THRESHOLDS.MEDIUM, CONFIDENCE_THRESHOLDS.REPORT.
  destruct (Qle_bool 0.8 c) eqn:E8; [apply Qle_bool_iff in E8 | ];
    (destruct (Qle_bool 0.6 c) eqn:E6; [apply Qle_bool_iff in E6 | ]);
    (destruct (Qle_bool 0.4 c) eqn:E4; [apply Qle_bool_iff in E4 | ]);
    try (assert (H8 : ~ 0.8 <= c) by (intros H; apply Qle_bool_iff in H; congruence));
    try (assert (H6 : ~ 0.6 <= c) by (intros H; apply Qle_bool_iff in H; congruence));
    try (assert (H4 : ~ 0.4 <= c) by (intros H; apply Qle_bool_iff in H; congruence));
    cbn [fst];
    repeat split; intros; repeat match goal with H : _ /\ _ |- _ => destruct H end;
    try discriminate; try reflexivity; try lra.
Qed.

(** ** The summary of the evidence *)

Lemma Set_from_loop (items : list EvidenceType) :
  forall s t, In t (fold_left (fun s x => Set_add x s) items s) <-> In t s \/ In t items.
Proof.
  induction items as [|x items IH]; intros s t; cbn [fold_left].
  - simpl. tauto.
  - rewrite IH, Set_add_In. simpl. intuition congruence.
Qed.

Lemma Set_has_from (items : list EvidenceType) (t : EvidenceType) :
  Set_has (Set_from items) t = true <-> In t items.
Proof.
  unfold Set_has, Set_from. rewrite existsb_exists. split.
  - intros [x [Hx E]]. apply EvidenceType_eqb_eq in E. subst x.
    apply Set_from_loop in Hx. destruct Hx as [[] | Hx]. exact Hx.
  - intros H. exists t. split.
    + apply Set_from_loop. right. exact H.
    + apply EvidenceType_eqb_eq. reflexivity.
Qed.

Lemma Set_has_ext (l1 l2 : list EvidenceType) (t : EvidenceType) :
  (forall t, In t l1 <-> In t l2) ->
  Set_has (Set_from l1) t = Set_has (Set_from l2) t.
Proof.
  intros H. destruct (Set_has (Set_from l1) t) eqn:E1, (Set_has (Set_from l2) t) eqn:E2;
    try reflexivity.
  - apply Set_has_from, H, Set_has_from in E1. congruence.
  - apply Set_has_from, H, Set_has_from in E2. congruence.
Qed.

(** X7.  [summarizeEvidence] depends only on which categories of evidence
    occur, not on their order or number, and its text is empty only for no
    evidence at all. *)
Theorem X7_summarizeEvidence_by_category (e1 e2 : list DetectionEvidence) :
  (forall t, In t (map type e1) <-> In t (map type e2)) ->
  summarizeEvidence e1 = summarizeEvidence e2
  /\ (summarizeEvidence e1 = "" <-> e1 = []).
Proof.
  intros H. split.
  - unfold summarizeEvidence. cbv zeta.
    rewrite !(Set_has_ext (map type e1) (map type e2) _ H). reflexivity.
  - split; [|intros ->; reflexivity].
    destruct e1 as [|e l]; [reflexivity|]. intros E. exfalso. revert E.
    assert (Ht : Set_has (Set_from (map type (e :: l))) (type e) = true).
    { apply Set_has_from. left. reflexivity. }
    unfold summarizeEvidence. cbv zeta. revert Ht.
    generalize (Set_has (Set_from (map type (e :: l)))). intros has Ht.
    destruct (type e); rewrite Ht;
      destruct (has import), (has instantiation), (has config_file), (has dependency),
        (has env_var), (has code_pattern); cbn; discriminate.
Qed.

Lemma X7_witness :
  summarizeEvidence exampleEvidence = summarizeEvidence (rev exampleEvidence).
Proof.
  apply (X7_summarizeEvidence_by_category exampleEvidence (rev exampleEvidence)).
  intros t. simpl. tauto.
Defined.

(** ** The evidence of a source file *)



Lemma matchPatterns_concat content filePath fp :
  matchPatterns content filePath fp
  = List.concat
      (map (fun pd => optionToList (matchLines pd filePath (Js.split Js.newline content) 0))
           (FrameworkPatterns.imports fp ++ FrameworkPatterns.instantiations fp)).
Proof. unfold matchPatterns. rewrite matchPatterns_loop. reflexivity. Qed.


(** ** The aggregate of the evidence *)

Lemma sumContributions_perm (e1 e2 : list DetectionEvidence) :
  Permutation e1 e2 -> sumContributions e1 == sumContributions e2.
Proof.
  unfold sumContributions.
  induction 1 as [|x l l' _ IH|x y l|l l' l'' _ IH1 _ IH2]; cbn [fold_right].
  - reflexivity.
  - rewrite IH. reflexivity.
  - ring.
  - rewrite IH1. exact IH2.
Qed.

Lemma sumContributions_app (e1 e2 : list DetectionEvidence) :
  sumContributions (e1 ++ e2) == sumContributions e1 + sumContributions e2.
Proof.
  unfold sumContributions. induction e1 as [|x e1 IH]; cbn [fold_right app].
  - ring.
  - rewrite IH. ring.
Qed.

Lemma distinctCategories_incl (e1 e2 : list DetectionEvidence) :
  incl (map type e1) (map type e2) ->
  (distinctCategories e1 <= distinctCategories e2)%nat.
Proof.
  intros H. unfold distinctCategories. apply NoDup_incl_length.
  - apply NoDup_nodup.
  - intros t Ht. apply nodup_In. apply H. apply nodup_In in Ht. exact Ht.
Qed.

Lemma roundTwoDecimals_le (x y : Q) : x <= y -> roundTwoDecimals x <= roundTwoDecimals y.
Proof.
  intros H. unfold roundTwoDecimals.
  assert (Hz : (Qfloor (x * 100 + (1 # 2)) <= Qfloor (y * 100 + (1 # 2)))%Z).
  { apply Qfloor_resp_le. lra. }
  unfold Qdiv. apply Qmult_le_compat_r; [|discriminate].
  rewrite <- Zle_Qle. exact Hz.
Qed.

Lemma aggregateConfidence_le (e1 e2 : list DetectionEvidence) :
  sumContributions e1 <= sumContributions e2 ->
  (distinctCategories e1 <= distinctCategories e2)%nat ->
  aggregateConfidence e1 <= aggregateConfidence e2.
Proof.
  intros Hs Hd. unfold aggregateConfidence.
  apply Q.min_le_compat_l. apply roundTwoDecimals_le.
  apply Qplus_le_compat; [exact Hs|].
  unfold corroborationBonus.
  destruct (2 <=? distinctCategories e1)%nat eqn:E1.
  - apply Nat.leb_le in E1.
    assert (E2 : (2 <=? distinctCategories e2)%nat = true) by (apply Nat.leb_le; lia).
    rewrite E2. apply Qle_refl.
  - destruct (2 <=? distinctCategories e2)%nat; [discriminate | apply Qle_refl].
Qed.

Lemma calculateConfidence_perm (e1 e2 : list DetectionEvidence) :
  Permutation e1 e2 -> calculateConfidence e1 == calculateConfidence e2.
Proof.
  intros P. destruct e1 as [|x e1].
  - apply Permutation_nil in P. subst e2. reflexivity.
  - assert (N2 : e2 <> []).
    { intros ->. apply Permutation_sym, Permutation_nil in P. discriminate. }
    rewrite !calculateConfidence_eq by (discriminate || exact N2).
    apply Qle_antisym; apply aggregateConfidence_le.
    + rewrite (sumContributions_perm _ _ P). apply Qle_refl.
    + apply distinctCategories_incl. intros t Ht.
      apply (Permutation_in t (Permutation_map type P)). exact Ht.
    + rewrite (sumContributions_perm _ _ P). apply Qle_refl.
    + apply distinctCategories_incl. intros t Ht.
      apply (Permutation_in t (Permutation_map type (Permutation_sym P))). exact Ht.
Qed.

(** X9.  The confidence [calculateConfidence] gives does not depend on the
    order of the evidence (numbers being exact rationals here). *)
Theorem X9_calculateConfidence_order_independent (e1 e2 : list DetectionEvidence) :
  Permutation e1 e2 -> calculateConfidence e1 == calculateConfidence e2.
Proof. exact (calculateConfidence_perm e1 e2). Qed.

Lemma X9_witness :
  calculateConfidence exampleEvidence == calculateConfidence (rev exampleEvidence).
Proof.
  apply (X9_calculateConfidence_order_independent exampleEvidence (rev exampleEvidence)).
  apply Permutation_rev.
Defined.

(** X10.  Further evidence never lowers the confidence: when the added
    items have non-negative contributions, the confidence of the longer
    list is at least that of the shorter. *)
Theorem X10_calculateConfidence_monotone (evidence more : list DetectionEvidence) :
  Forall (fun e => 0 <= confidenceContribution e) evidence ->
  Forall (fun e => 0 <= confidenceContribution e) more ->
  calculateConfidence evidence <= calculateConfidence (evidence ++ more).
Proof.
  intros He Hm. destruct evidence as [|x evidence].
  - cbn [app]. change (calculateConfidence []) with 0.
    apply calculateConfidence_nonneg. exact Hm.
  - rewrite !calculateConfidence_eq by discriminate.
    apply aggregateConfidence_le.
    + rewrite sumContributions_app.
      pose proof (sumContributions_nonneg more Hm). lra.
    + apply distinctCategories_incl. rewrite map_app. apply incl_appl, incl_refl.
Qed.

Lemma X10_witness :
  calculateConfidence [openaiKeyEvidence]
  <= calculateConfidence ([openaiKeyEvidence] ++ exampleEvidence).
Proof.
  apply (X10_calculateConfidence_monotone [openaiKeyEvidence] exampleEvidence).
  - repeat constructor; discriminate.
  - repeat constructor; discriminate.
Defined.

(** ** Updating a map *)

Section MapUpdate.
Context {V : Type}.
Implicit Types (m : JsMap V) (k : string) (v : V).

Lemma Map_get_set_same m k v : Map_get k (Map_set k v m) = Some v.
Proof.
  induction m as [|[k' v'] m IH]; cbn [Map_set Map_get].
  - rewrite String.eqb_refl. reflexivity.
  - destruct (String.eqb k' k) eqn:E; cbn [Map_get].
    + rewrite String.eqb_refl. reflexivity.
    + rewrite E. exact IH.
Qed.

Lemma Map_get_set_other m k k' v : k' <> k -> Map_get k' (Map_set k v m) = Map_get k' m.
Proof.
  intros N. induction m as [|[k0 v0] m IH]; cbn [Map_set Map_get].
  - destruct (String.eqb k k') eqn:E; [|reflexivity].
    apply String.eqb_eq in E. congruence.
  - destruct (String.eqb k0 k) eqn:E; cbn [Map_get].
    + apply String.eqb_eq in E. subst k0.
      destruct (String.eqb k k') eqn:E'; [|reflexivity].
      apply String.eqb_eq in E'. congruence.
    + destruct (String.eqb k0 k'); [reflexivity | exact IH].
Qed.

Lemma Map_keys_set_old m k v v0 :
  Map_get k m = Some v0 -> Map_keys (Map_set k v m) = Map_keys m.
Proof.
  induction m as [|[k' v'] m IH]; cbn [Map_set Map_get]; [discriminate|].
  destruct (String.eqb k' k) eqn:E.
  - apply String.eqb_eq in E. subst k'. reflexivity.
  - intros H. cbn [Map_keys map fst]. f_equal. exact (IH H).
Qed.

Lemma Map_get_None m k : Map_get k m = None <-> ~ In k (Map_keys m).
Proof.
  split.
  - intros H. apply Map_has_false_not_In. unfold Map_has. rewrite H. reflexivity.
  - intros H. destruct (Map_get k m) eqn:E; [|reflexivity]. exfalso. apply H.
    apply Array_includes_In. rewrite <- Map_has_keys. unfold Map_has. rewrite E. reflexivity.
Qed.

Lemma Map_keys_set_new m k v :
  Map_get k m = None -> Map_keys (Map_set k v m) = Map_keys m ++ [k].
Proof.
  intros H. rewrite Map_set_new by (unfold Map_has; rewrite H; reflexivity).
  unfold Map_keys. rewrite map_app. reflexivity.
Qed.

Lemma Map_get_In m k v : NoDup (Map_keys m) -> In (k, v) m -> Map_get k m = Some v.
Proof.
  induction m as [|[k' v'] m IH]; intros N H; [destruct H|].
  cbn [Map_keys map fst] in N. inversion N as [|? ? Hn N']. subst.
  cbn [Map_get]. destruct H as [H | H].
  - injection H as -> ->. rewrite String.eqb_refl. reflexivity.
  - destruct (String.eqb k' k) eqn:E; [|exact (IH N' H)].
    apply String.eqb_eq in E. subst k'. exfalso. apply Hn.
    apply in_map_iff. exists (k, v). split; [reflexivity | exact H].
Qed.

Lemma Map_get_Some_In m k v : Map_get k m = Some v -> In (k, v) m.
Proof.
  induction m as [|[k' v'] m IH]; cbn [Map_get]; [discriminate|].
  destruct (String.eqb k' k) eqn:E.
  - apply String.eqb_eq in E. intros [= ->]. subst. left. reflexivity.
  - intros H. right. exact (IH H).
Qed.

Lemma Map_keys_set_NoDup m k v : NoDup (Map_keys m) -> NoDup (Map_keys (Map_set k v m)).
Proof.
  intros N. destruct (Map_get k m) as [v0|] eqn:E.
  - rewrite (Map_keys_set_old m k v v0 E). exact N.
  - rewrite (Map_keys_set_new m k v E). apply NoDup_app; [exact N | repeat constructor; intros [] |].
    intros a Ha [Hx | []]. subst a. apply Map_get_None in E. exact (E Ha).
Qed.

End MapUpdate.

(** ** Merging the pattern sets of a framework *)

Lemma filter_snoc {A} (f : A -> bool) (l : list A) (x : A) :
  filter f (l ++ [x]) = filter f l ++ (if f x then [x] else []).
Proof. rewrite filter_app. reflexivity. Qed.

Lemma SeenOk_step ps seen p : SeenOk ps seen -> SeenOk (ps ++ [p]) (mergeStep seen p).
Proof.
  unfold SeenOk, MergedAs. intros [N H]. unfold mergeStep.
  set (key := frameworkName (FrameworkPatterns.framework p)).
  assert (Hself : sameFramework key p = true) by apply String.eqb_refl.
  assert (Hother : forall k, k <> key -> sameFramework k p = false).
  { intros k Hk. unfold sameFramework. fold key. apply String.eqb_neq. congruence. }
  pose proof (H key) as Hkey.
  destruct (Map_get key seen) as [existing|] eqn:E.
  - split; [apply Map_keys_set_NoDup; exact N|]. intros k.
    destruct (string_dec k key) as [-> | Hk].
    + rewrite Map_get_set_same. rewrite filter_snoc, Hself.
      destruct Hkey as [Hf [Hi [Hn [p0 [rest [Hp [Hd Hl]]]]]]].
      split; [exact Hf|]. cbn [FrameworkPatterns.imports FrameworkPatterns.instantiations
                               FrameworkPatterns.displayName FrameworkPatterns.languages].
      rewrite !flat_map_app, Hi, Hn. cbn [flat_map]. rewrite !app_nil_r.
      split; [reflexivity|]. split; [reflexivity|].
      exists p0, (rest ++ [p]). rewrite Hp. repeat split; assumption.
    + rewrite Map_get_set_other by exact Hk. rewrite filter_snoc, (Hother k Hk), app_nil_r.
      exact (H k).
  - split; [apply Map_keys_set_NoDup; exact N|]. intros k.
    destruct (string_dec k key) as [-> | Hk].
    + rewrite Map_get_set_same. rewrite filter_snoc, Hself, Hkey. cbn [app flat_map].
      rewrite !app_nil_r. split; [reflexivity|]. split; [reflexivity|].
      split; [reflexivity|]. exists p, []. repeat split.
    + rewrite Map_get_set_other by exact Hk. rewrite filter_snoc, (Hother k Hk), app_nil_r.
      exact (H k).
Qed.

Lemma SeenOk_fold ps :
  forall pre seen, SeenOk pre seen -> SeenOk (pre ++ ps) (fold_left mergeStep ps seen).
Proof.
  induction ps as [|p ps IH]; intros pre seen H; cbn [fold_left].
  - rewrite app_nil_r. exact H.
  - replace (pre ++ p :: ps) with ((pre ++ [p]) ++ ps) by (rewrite <- app_assoc; reflexivity).
    apply IH, SeenOk_step, H.
Qed.

Lemma deduplicatePatterns_seen ps :
  exists seen, deduplicatePatterns ps = Map_values seen /\ SeenOk ps seen.
Proof.
  exists (fold_left mergeStep ps []). split; [reflexivity|].
  apply (SeenOk_fold ps [] []). split; [constructor|]. intros k. reflexivity.
Qed.

(** X11.  [deduplicatePatterns] returns one pattern set for each framework
    of its input and no other: the frameworks of the result are pairwise
    distinct, and the set of a framework lists the imports and the
    instantiations of all the input sets of that framework, in their order,
    under the display name and the languages of the first of them. *)
Theorem X11_deduplicatePatterns_merges (ps : list FrameworkPatterns.t) :
  let name p := frameworkName (FrameworkPatterns.framework p) in
  NoDup (map name (deduplicatePatterns ps))
  /\ (forall p, In p ps -> In (name p) (map name (deduplicatePatterns ps)))
  /\ Forall (fun q => MergedAs ps (name q) q) (deduplicatePatterns ps).
Proof.
  intros name. destruct (deduplicatePatterns_seen ps) as [seen [-> [N H]]].
  assert (K : forall k q, In (k, q) seen -> MergedAs ps k q).
  { intros k q Hq. apply (Map_get_In seen k q N) in Hq. specialize (H k).
    rewrite Hq in H. exact H. }
  assert (Names : map name (Map_values seen) = Map_keys seen).
  { unfold Map_values, Map_keys. rewrite map_map. apply map_ext_in.
    intros [k q] Hq. destruct (K k q Hq) as [Hk _]. exact Hk. }
  split; [rewrite Names; exact N|]. split.
  - intros p Hp. rewrite Names. specialize (H (name p)).
    destruct (Map_get (name p) seen) as [q|] eqn:E.
    + apply Map_get_Some_In in E. apply in_map_iff. exists (name p, q). split; [reflexivity | exact E].
    + exfalso. assert (Hin : In p (filter (sameFramework (name p)) ps)).
      { apply filter_In. split; [exact Hp | apply String.eqb_refl]. }
      rewrite H in Hin. destruct Hin.
  - apply Forall_forall. intros q Hq. unfold Map_values in Hq. apply in_map_iff in Hq.
    destruct Hq as [[k q'] [<- Hq]]. cbn [snd]. pose proof (K k q' Hq) as M.
    destruct M as [Hk M']. unfold name. rewrite Hk. split; [exact Hk | exact M'].
Qed.

(** ** TypeScript and JavaScript files *)

Lemma uniquePatternsFor_js :
  uniquePatternsFor typescript = map mergedWithItself jsPatternSets
  /\ uniquePatternsFor javascript = map mergedWithItself jsPatternSets.
Proof. split; reflexivity. Qed.

Lemma detections_flat_map content file (sets : list FrameworkPatterns.t) :
  forall acc,
    fold_left (fun detections frameworkPatterns =>
                 let evidence := matchPatterns content file frameworkPatterns in
                 if (0 <? List.length evidence)%nat then
                   detections ++
                     [ {| FileDetection.framework := FrameworkPatterns.framework frameworkPatterns;
                          FileDetection.displayName := FrameworkPatterns.displayName frameworkPatterns;
                          FileDetection.evidence := evidence;
                          FileDetection.totalConfidence := calculateConfidence evidence |} ]
                 else detections) sets acc
    = acc ++ flat_map (fun fp => detectionOf fp (matchPatterns content file fp)) sets.
Proof.
  induction sets as [|fp sets IH]; intros acc; cbn [fold_left flat_map].
  - rewrite app_nil_r. reflexivity.
  - rewrite IH. unfold detectionOf at 2. cbv zeta.
    destruct (0 <? List.length (matchPatterns content file fp))%nat.
    + rewrite <- app_assoc. reflexivity.
    + reflexivity.
Qed.

Lemma matchPatterns_mergedWithItself content file fp :
  let lines := Js.split Js.newline content in
  let found := patternMatches file lines in
  matchPatterns content file (mergedWithItself fp)
  = (found (FrameworkPatterns.imports fp) ++ found (FrameworkPatterns.imports fp))
      ++ (found (FrameworkPatterns.instantiations fp)
            ++ found (FrameworkPatterns.instantiations fp)).
Proof.
  cbv zeta. rewrite matchPatterns_concat. unfold patternMatches.
  cbn [mergedWithItself FrameworkPatterns.imports FrameworkPatterns.instantiations].
  rewrite !map_app, !concat_app. reflexivity.
Qed.

(** X12.  For a TypeScript or JavaScript file the pattern sets of the other
    of the two languages are the same sets again, and each is merged with
    itself: whatever the content, the evidence of a detection lists what
    the import patterns find twice, then what the instantiation patterns
    find twice, and the confidence is computed from that doubled list. *)
Theorem X12_js_evidence_is_doubled (content file : string) (language : Language) :
  language = typescript \/ language = javascript ->
  let found := patternMatches file (Js.split Js.newline content) in
  FileAnalysisResult.detections (analyzeContent content file language)
  = flat_map (fun fp =>
                detectionOf fp
                  ((found (FrameworkPatterns.imports fp)
                      ++ found (FrameworkPatterns.imports fp))
                     ++ (found (FrameworkPatterns.instantiations fp)
                           ++ found (FrameworkPatterns.instantiations fp))))
             jsPatternSets.
Proof.
  intros H found.
  assert (U : uniquePatternsFor language = map mergedWithItself jsPatternSets).
  { destruct H as [-> | ->]; apply uniquePatternsFor_js. }
  assert (A : FileAnalysisResult.detections (analyzeContent content file language)
              = detectFrameworks content file language).
  { destruct H as [-> | ->]; reflexivity. }
  rewrite A, detectFrameworks_unfold, U, detections_flat_map. cbn [app].
  unfold jsPatternSets. cbn [map flat_map].
  rewrite !matchPatterns_mergedWithItself. reflexivity.
Qed.

Lemma X12_witness :
  FileAnalysisResult.detections (analyzeContent "import { generateText } from 'ai'" "a.ts" typescript)
  = flat_map (fun fp =>
                let found :=
                  patternMatches "a.ts" (Js.split Js.newline "import { generateText } from 'ai'") in
                detectionOf fp
                  ((found (FrameworkPatterns.imports fp)
                      ++ found (FrameworkPatterns.imports fp))
                     ++ (found (FrameworkPatterns.instantiations fp)
                           ++ found (FrameworkPatterns.instantiations fp))))
             jsPatternSets.
Proof.
  apply (X12_js_evidence_is_doubled "import { generateText } from 'ai'" "a.ts" typescript).
  left. reflexivity.
Defined.

Example js_import_counted_twice :
  map (fun d => (FileDetection.framework d, List.length (FileDetection.evidence d),
                 Qred (FileDetection.totalConfidence d)))
      (FileAnalysisResult.detections
         (analyzeContent "import { generateText } from 'ai'" "a.ts" typescript))
  = [(vercel_ai, 2%nat, 1 # 2)].
Proof. vm_compute. reflexivity. Qed.

(** ** Dependency manifests *)

(** X13.  [analyzeDependencyFile] reads four kinds of manifest and returns
    nothing for a file of any other name, [setup.py] and [setup.cfg]
    included although the scanner hands them over.  Every item it returns
    has the category [dependency], the path it was given, no line number,
    and the name and weight of a registered dependency mapping whose
    language suits the manifest: a Python mapping never comes from
    [package.json], a TypeScript or JavaScript mapping from nothing else. *)
Theorem X13_analyzeDependencyFile_by_manifest (w : World) (content file fileName : string) :
  (~ In fileName readManifests -> analyzeDependencyFile w content file fileName = [])
  /\ Forall (fun e =>
               type e = dependency /\ filePath e = file /\ line e = None
               /\ exists d, In d Patterns.DEPENDENCY_MAPPINGS
                            /\ pattern e = DependencyMapping.name d
                            /\ confidenceContribution e = DependencyMapping.confidence d
                            /\ manifestLanguage fileName d)
            (analyzeDependencyFile w content file fileName).
Proof.
  unfold analyzeDependencyFile.
  destruct (String.eqb fileName "requirements.txt" || String.eqb fileName "Pipfile") eqn:E1.
  { assert (Hn : fileName <> "package.json").
    { apply orb_true_iff in E1. destruct E1 as [E | E]; apply String.eqb_eq in E; subst;
        discriminate. }
    split.
    - intros H. exfalso. apply H. apply orb_true_iff in E1.
      destruct E1 as [E | E]; apply String.eqb_eq in E; subst; simpl; tauto.
    - apply fold_left_Forall; [|constructor]. intros acc l _ Hacc.
      match goal with |- context [find ?f ?l] => destruct (find f l) as [d|] eqn:F end;
        [|exact Hacc].
      apply find_some in F. destruct F as [Hin Hp]. apply andb_true_iff in Hp.
      destruct Hp as [_ Hl]. apply Forall_push; [exact Hacc|].
      cbn [type filePath line pattern confidenceContribution].
      repeat split. exists d. repeat split; [exact Hin|].
      unfold manifestLanguage. destruct (DependencyMapping.lang d); try discriminate Hl;
        [exact Hn | exact I]. }
  destruct (String.eqb fileName "pyproject.toml") eqn:E2.
  { apply String.eqb_eq in E2. subst fileName. split.
    - intros H. exfalso. apply H. simpl. tauto.
    - apply fold_left_Forall; [|constructor]. intros acc d Hin Hacc.
      match goal with |- context [negb ?b] => destruct b eqn:Hl end; cbn [negb];
        [|exact Hacc].
      match goal with |- context [if ?b then _ else _] => destruct b end; [|exact Hacc].
      apply Forall_push; [exact Hacc|].
      cbn [type filePath line pattern confidenceContribution].
      repeat split. exists d. repeat split; [exact Hin|].
      unfold manifestLanguage. destruct (DependencyMapping.lang d); try discriminate Hl;
        [discriminate | exact I]. }
  destruct (String.eqb fileName "package.json") eqn:E3.
  { apply String.eqb_eq in E3. subst fileName. split.
    - intros H. exfalso. apply H. simpl. tauto.
    - destruct (parsePackageJson w content) as [[deps devDeps]|]; [|constructor].
      apply fold_left_Forall; [|constructor]. intros acc [depName depVersion] _ Hacc.
      match goal with |- context [find ?f ?l] => destruct (find f l) as [d|] eqn:F end;
        [|exact Hacc].
      apply find_some in F. destruct F as [Hin Hp]. apply andb_true_iff in Hp.
      destruct Hp as [_ Hl]. apply Forall_push; [exact Hacc|].
      cbn [type filePath line pattern confidenceContribution].
      repeat split. exists d. repeat split; [exact Hin|].
      unfold manifestLanguage. destruct (DependencyMapping.lang d); try discriminate Hl;
        (reflexivity || exact I). }
  split; [reflexivity | constructor].
Qed.

Lemma X13_witness :
  In "setup.py" Patterns.DEPENDENCY_FILES
  /\ analyzeDependencyFile configOnlyTree "install_requires=['crewai']" "setup.py" "setup.py" = [].
Proof.
  split; [simpl; tauto|].
  apply (proj1 (X13_analyzeDependencyFile_by_manifest configOnlyTree
                  "install_requires=['crewai']" "setup.py" "setup.py")).
  unfold readManifests. simpl. intros [H | [H | [H | [H | []]]]]; discriminate H.
Defined.

(** ** Folding the dependency and environment evidence into the registry *)

Lemma withEvidence_self a : withEvidence a (evidence a) (confidence a) = a.
Proof. destruct a. reflexivity. Qed.

Lemma withEvidence_twice a ev1 c1 ev2 c2 :
  withEvidence (withEvidence a ev1 c1) ev2 c2 = withEvidence a ev2 c2.
Proof. reflexivity. Qed.

Lemma forEachAgent_id (m : JsMap AgentRecord) : forEachAgent (fun a => a) m = m.
Proof.
  unfold forEachAgent. induction m as [|[k a] m IH]; cbn [map]; [reflexivity|].
  rewrite IH. reflexivity.
Qed.

Lemma forEachAgent_compose f g (m : JsMap AgentRecord) :
  forEachAgent g (forEachAgent f m) = forEachAgent (fun a => g (f a)) m.
Proof.
  unfold forEachAgent. rewrite map_map. apply map_ext. intros [k a]. reflexivity.
Qed.

Lemma forEachAgent_ext f g (m : JsMap AgentRecord) :
  (forall a, f a = g a) -> forEachAgent f m = forEachAgent g m.
Proof. intros H. unfold forEachAgent. apply map_ext. intros [k a]. rewrite H. reflexivity. Qed.

(** Both enrichers work on every record on its own. *)
Lemma enrichWithDependencies_each (deps : list DetectionEvidence) :
  forall m, enrichWithDependencies m deps
            = forEachAgent (fun a => fold_left (fun a dep => applyDependency dep a) deps a) m.
Proof.
  unfold enrichWithDependencies.
  induction deps as [|dep deps IH]; intros m; cbn [fold_left].
  - symmetry. apply forEachAgent_id.
  - rewrite IH.
    replace (match find (fun d => String.eqb (DependencyMapping.name d) (pattern dep))
                        Patterns.DEPENDENCY_MAPPINGS with
             | Some mapping => forEachAgent (addDependency dep mapping) m
             | None => m
             end) with (forEachAgent (applyDependency dep) m).
    + apply forEachAgent_compose.
    + unfold applyDependency.
      destruct (find (fun d => String.eqb (DependencyMapping.name d) (pattern dep))
                     Patterns.DEPENDENCY_MAPPINGS); [reflexivity | apply forEachAgent_id].
Qed.

Lemma enrichWithEnvVars_each (envs : list DetectionEvidence) :
  forall m, enrichWithEnvVars m envs
            = forEachAgent (fun a => fold_left (fun a env => addEnvVar env a) envs a) m.
Proof.
  unfold enrichWithEnvVars.
  induction envs as [|env envs IH]; intros m; cbn [fold_left].
  - symmetry. apply forEachAgent_id.
  - rewrite IH. apply forEachAgent_compose.
Qed.

Lemma Forall2_forEachAgent (R : string * AgentRecord -> string * AgentRecord -> Prop) body
      (P : AgentRecord -> Prop) (m : JsMap AgentRecord) :
  (forall k a, P a -> R (k, a) (k, body a)) ->
  Forall (fun p => P (snd p)) m ->
  Forall2 R m (forEachAgent body m).
Proof.
  intros H. unfold forEachAgent. induction m as [|[k a] m IH]; intros F; cbn [map];
    constructor.
  - apply H. inversion F. assumption.
  - apply IH. inversion F. assumption.
Qed.

Lemma Math_min_1 (x : Q) : Js.Math_min 1.0 x == Qmin 1 x.
Proof.
  rewrite Math_min_Qmin.
  destruct (Q.min_spec 1.0 x) as [[? E1] | [? E1]], (Q.min_spec 1 x) as [[? E2] | [? E2]];
    rewrite E1, E2; lra.
Qed.

Lemma Qmin_boost (x y : Q) : 0 <= y -> Qmin 1 (Qmin 1 x + y) == Qmin 1 (x + y).
Proof.
  intros Hy.
  destruct (Q.min_spec 1 x) as [[? E1] | [? E1]]; rewrite E1;
    destruct (Q.min_spec 1 (1 + y)) as [[? E2] | [? E2]];
    destruct (Q.min_spec 1 (x + y)) as [[? E3] | [? E3]];
    try rewrite E2; try rewrite E3; lra.
Qed.

Lemma alreadyHas_app t p a ev c :
  alreadyHas t p (withEvidence a (evidence a ++ ev) c)
  = alreadyHas t p a || existsb (fun e => EvidenceType_eqb (type e) t && String.eqb (pattern e) p) ev.
Proof. unfold alreadyHas. cbn [withEvidence evidence]. apply existsb_app. Qed.

Lemma applyDependency_cases dep a :
  (applyDependency dep a = a
   /\ (mappedFramework dep <> Some (framework a)
       \/ alreadyHas dependency (pattern dep) a = true))
  \/ (applyDependency dep a
      = withEvidence a (evidence a ++ [dep])
          (Js.Math_min 1.0 (confidence a + confidenceContribution dep * 0.5))
      /\ mappedFramework dep = Some (framework a)
      /\ alreadyHas dependency (pattern dep) a = false).
Proof.
  unfold applyDependency, mappedFramework.
  destruct (find (fun d => String.eqb (DependencyMapping.name d) (pattern dep))
                 Patterns.DEPENDENCY_MAPPINGS) as [mapping|].
  - unfold addDependency.
    destruct (AgentFramework_eqb (framework a) (DependencyMapping.framework mapping)) eqn:Ef.
    + apply AgentFramework_eqb_eq in Ef.
      destruct (alreadyHas dependency (pattern dep) a) eqn:Eh; cbn [negb].
      * left. split; [reflexivity | right; reflexivity].
      * right. split; [reflexivity|]. split; [congruence | reflexivity].
    + left. split; [reflexivity|]. left. intros [= H].
      assert (AgentFramework_eqb (framework a) (DependencyMapping.framework mapping) = true)
        by (apply AgentFramework_eqb_eq; congruence).
      congruence.
  - left. split; [reflexivity|]. left. discriminate.
Qed.

Lemma existsb_single_false (t : EvidenceType) (x y : DetectionEvidence) :
  type x = t -> type y = t ->
  (EvidenceType_eqb (type x) t && String.eqb (pattern x) (pattern y)) = false ->
  pattern x <> pattern y.
Proof.
  intros Hx Hy H E. rewrite E, String.eqb_refl, andb_true_r in H.
  assert (EvidenceType_eqb (type x) t = true) by (apply EvidenceType_eqb_eq; exact Hx).
  congruence.
Qed.

Lemma some_dependencies_added (deps : list DetectionEvidence) :
  Forall DepEvidence deps ->
  forall a, confidence a <= 1 ->
            exists added,
              SomeDependenciesAdded deps a
                (fold_left (fun a dep => applyDependency dep a) deps a) added.
Proof.
  induction deps as [|dep deps IH]; intros HD a Hc; cbn [fold_left].
  - exists []. split; [split|split; constructor].
    + rewrite app_nil_r. symmetry. apply withEvidence_self.
    + unfold sumContributions. cbn [fold_right].
      destruct (Q.min_spec 1 (confidence a + 0 / 2)) as [[? E] | [? E]]; rewrite E;
        unfold Qdiv in *; lra.
  - inversion HD as [|? ? [Hty Hw] HD']. subst.
    destruct (applyDependency_cases dep a) as [[-> Hwhy] | [-> [Hmap Hnew]]].
    + destruct (IH HD' a Hc) as [added [HE [HN HF]]]. exists added.
      split; [exact HE|]. split; [exact HN|].
      eapply Forall_impl; [|exact HF]. cbn beta. intros d [Hin Hrest].
      split; [right; exact Hin | exact Hrest].
    + set (a1 := withEvidence a (evidence a ++ [dep])
                   (Js.Math_min 1.0 (confidence a + confidenceContribution dep * 0.5))).
      assert (Hc1 : confidence a1 <= 1).
      { cbn. apply Qle_trans with 1.0; [apply Math_min_le_l | discriminate]. }
      destruct (IH HD' a1 Hc1) as [added [[HE Hq] [HN HF]]].
      exists (dep :: added). split; [split|split].
      * rewrite HE at 1. unfold a1. rewrite withEvidence_twice.
        cbn [withEvidence evidence]. rewrite <- app_assoc. reflexivity.
      * rewrite Hq. cbn [a1 withEvidence confidence]. rewrite Math_min_1.
        assert (Hs : 0 <= sumContributions added).
        { apply sumContributions_nonneg. rewrite Forall_forall in HF |- *.
          intros e He. destruct (HF e He) as [Hin _].
          rewrite Forall_forall in HD'. apply HD'. exact Hin. }
        assert (Hs2 : 0 <= sumContributions added / 2).
        { unfold Qdiv. apply Qmult_le_0_compat; [exact Hs | discriminate]. }
        rewrite (Qmin_boost _ _ Hs2).
        unfold sumContributions at 2. cbn [fold_right]. fold (sumContributions added).
        match goal with
        | |- Qmin 1 ?x == Qmin 1 ?y =>
            assert (Heq : x == y) by field; rewrite Heq; reflexivity
        end.
      * cbn [map]. constructor; [|exact HN]. intros Hin. apply in_map_iff in Hin.
        destruct Hin as [d [Hp Hd]]. rewrite Forall_forall in HF.
        destruct (HF d Hd) as [_ [_ Hno]]. unfold a1 in Hno. rewrite alreadyHas_app in Hno.
        apply orb_false_iff in Hno. destruct Hno as [_ Hno]. cbn [existsb] in Hno.
        rewrite orb_false_r in Hno. rewrite Hp in Hno. rewrite String.eqb_refl, andb_true_r in Hno.
        assert (EvidenceType_eqb (type dep) dependency = true)
          by (apply EvidenceType_eqb_eq; exact Hty).
        congruence.
      * constructor; [split; [left; reflexivity | split; assumption]|].
        eapply Forall_impl; [|exact HF]. cbn beta. intros d [Hin [Hm Hno]].
        split; [right; exact Hin|]. split; [exact Hm|].
        unfold a1 in Hno. rewrite alreadyHas_app in Hno.
        apply orb_false_iff in Hno. exact (proj1 Hno).
Qed.

Lemma eligibleDependency_true a dep :
  eligibleDependency a dep = true <->
  mappedFramework dep = Some (framework a) /\ alreadyHas dependency (pattern dep) a = false.
Proof.
  unfold eligibleDependency. rewrite andb_true_iff, negb_true_iff.
  destruct (mappedFramework dep) as [f|].
  - rewrite AgentFramework_eqb_eq. split; intros [H1 H2]; split; congruence.
  - split; intros [H1 H2]; split; congruence.
Qed.

Lemma held_pattern_seen (t : EvidenceType) (p : string) (l : list DetectionEvidence) :
  existsb (fun e => EvidenceType_eqb (type e) t && String.eqb (pattern e) p) l = true ->
  Patterns.Array_includes (map pattern l) p = true.
Proof.
  unfold Patterns.Array_includes. rewrite !existsb_exists. intros [e [He Hp]].
  apply andb_true_iff in Hp. destruct Hp as [_ Hp]. apply String.eqb_eq in Hp.
  exists (pattern e). split; [apply in_map; exact He | rewrite Hp; apply String.eqb_refl].
Qed.

Lemma seen_pattern_held (t : EvidenceType) (p : string) (l : list DetectionEvidence) :
  Forall (fun e => type e = t) l ->
  Patterns.Array_includes (map pattern l) p = true ->
  existsb (fun e => EvidenceType_eqb (type e) t && String.eqb (pattern e) p) l = true.
Proof.
  unfold Patterns.Array_includes. rewrite !existsb_exists. intros Ht [q [Hq Hp]].
  apply String.eqb_eq in Hp. subst q. apply in_map_iff in Hq. destruct Hq as [e [He Hin]].
  exists e. split; [exact Hin|]. rewrite Forall_forall in Ht.
  apply andb_true_iff. split.
  - apply EvidenceType_eqb_eq. apply Ht. exact Hin.
  - rewrite He. apply String.eqb_refl.
Qed.

Lemma dependencies_in_order (deps : list DetectionEvidence) :
  Forall DepEvidence deps ->
  forall a held c,
    Forall (fun e => type e = dependency) held ->
    evidence (fold_left (fun a dep => applyDependency dep a) deps
                        (withEvidence a (evidence a ++ held) c))
    = (evidence a ++ held)
        ++ firstOfEachPattern (map pattern held) (filter (eligibleDependency a) deps).
Proof.
  induction deps as [|dep deps IH]; intros HD a held c Hheld; cbn [fold_left filter].
  - cbn [firstOfEachPattern withEvidence evidence]. rewrite app_nil_r. reflexivity.
  - inversion HD as [|? ? [Hty _] HD']. subst.
    set (b := withEvidence a (evidence a ++ held) c).
    assert (Hhas : alreadyHas dependency (pattern dep) b
                   = alreadyHas dependency (pattern dep) a
                     || existsb (fun e => EvidenceType_eqb (type e) dependency
                                          && String.eqb (pattern e) (pattern dep)) held)
      by apply alreadyHas_app.
    destruct (applyDependency_cases dep b) as [[-> Hwhy] | [-> [Hmap Hnew]]].
    + unfold b. rewrite (IH HD' a held c Hheld). f_equal.
      destruct (eligibleDependency a dep) eqn:E; [|reflexivity].
      apply eligibleDependency_true in E. destruct E as [Hm Hn].
      cbn [firstOfEachPattern].
      destruct Hwhy as [Hwhy | Hwhy]; [exfalso; apply Hwhy; exact Hm|].
      rewrite Hhas, Hn in Hwhy. cbn [orb] in Hwhy.
      rewrite (held_pattern_seen _ _ _ Hwhy). reflexivity.
    + rewrite Hhas in Hnew. apply orb_false_iff in Hnew. destruct Hnew as [Hn Hs].
      assert (E : eligibleDependency a dep = true).
      { apply eligibleDependency_true. split; [exact Hmap | exact Hn]. }
      rewrite E. cbn [firstOfEachPattern].
      assert (Hseen : Patterns.Array_includes (map pattern held) (pattern dep) = false).
      { destruct (Patterns.Array_includes (map pattern held) (pattern dep)) eqn:Ei;
          [|reflexivity].
        rewrite (seen_pattern_held dependency _ _ Hheld Ei) in Hs. discriminate. }
      rewrite Hseen.
      assert (Hb : withEvidence b (evidence b ++ [dep])
                     (Js.Math_min 1.0 (confidence b + confidenceContribution dep * 0.5))
                   = withEvidence a (evidence a ++ (held ++ [dep]))
                       (Js.Math_min 1.0 (confidence b + confidenceContribution dep * 0.5))).
      { unfold b. cbn [withEvidence evidence]. rewrite <- app_assoc. reflexivity. }
      rewrite Hb, IH;
        [|exact HD' | apply Forall_app; split; [exact Hheld | repeat constructor; exact Hty]].
      rewrite map_app, <- !app_assoc. reflexivity.
Qed.

Lemma firstOfEachPattern_incl (l : list DetectionEvidence) :
  forall seen e, In e (firstOfEachPattern seen l) -> In e l.
Proof.
  induction l as [|d l IH]; intros seen e; cbn [firstOfEachPattern]; [tauto|].
  destruct (Patterns.Array_includes seen (pattern d)).
  - intros H. right. exact (IH _ _ H).
  - intros [H | H]; [left; exact H | right; exact (IH _ _ H)].
Qed.

Lemma firstOfEachPattern_covers (l : list DetectionEvidence) :
  forall seen d, In d l ->
    In (pattern d) seen
    \/ exists e, In e (firstOfEachPattern seen l) /\ pattern e = pattern d.
Proof.
  induction l as [|x l IH]; intros seen d Hd; [destruct Hd|].
  cbn [firstOfEachPattern].
  destruct (Patterns.Array_includes seen (pattern x)) eqn:E.
  - destruct Hd as [-> | Hd]; [left; apply Array_includes_In; exact E|].
    exact (IH seen d Hd).
  - destruct Hd as [-> | Hd]; [right; exists d; split; [left; reflexivity | reflexivity]|].
    destruct (IH (seen ++ [pattern x]) d Hd) as [Hin | [e [He Hp]]].
    + apply in_app_iff in Hin. destruct Hin as [Hin | [Hx | []]]; [left; exact Hin|].
      right. exists x. split; [left; reflexivity | exact Hx].
    + right. exists e. split; [right; exact He | exact Hp].
Qed.

Lemma dependencies_added (deps : list DetectionEvidence) :
  Forall DepEvidence deps ->
  forall a, confidence a <= 1 ->
            DependenciesAdded deps a (fold_left (fun a dep => applyDependency dep a) deps a).
Proof.
  intros HD a Hc.
  destruct (some_dependencies_added deps HD a Hc) as [added [[Ha Hq] [HN HF]]].
  set (a' := fold_left (fun a dep => applyDependency dep a) deps a) in *.
  assert (Hev : evidence a' = evidence a ++ newDependencies deps a).
  { pose proof (dependencies_in_order deps HD a [] (confidence a) (Forall_nil _)) as H.
    rewrite !app_nil_r, withEvidence_self in H. exact H. }
  assert (Hadded : added = newDependencies deps a).
  { rewrite Ha in Hev. cbn [withEvidence evidence] in Hev.
    apply app_inv_head in Hev. exact Hev. }
  unfold DependenciesAdded, SomeDependenciesAdded, Enriched. rewrite <- Hadded.
  split; [split; [split; assumption | split; assumption]|].
  apply Forall_forall. intros dep Hdep Hmap.
  rewrite Ha, alreadyHas_app.
  destruct (alreadyHas dependency (pattern dep) a) eqn:Hn; [reflexivity|]. cbn [orb].
  assert (Hel : In dep (filter (eligibleDependency a) deps)).
  { apply filter_In. split; [exact Hdep|]. apply eligibleDependency_true. auto. }
  destruct (firstOfEachPattern_covers _ [] dep Hel) as [[] | [e [He Hp]]].
  fold (newDependencies deps a) in He. rewrite <- Hadded in He.
  apply existsb_exists. exists e. split; [exact He|].
  rewrite Forall_forall in HF. destruct (HF e He) as [Hin _].
  rewrite Forall_forall in HD. destruct (HD e Hin) as [Hty _].
  apply andb_true_iff. split; [apply EvidenceType_eqb_eq; exact Hty|].
  rewrite Hp. apply String.eqb_refl.
Qed.

(** X14.  [enrichWithDependencies] keeps the keys and the order of the
    registry and changes each record on its own.  Of the dependency items
    of the list that are mapped to the framework of a record and whose
    dependency the record did not hold yet, the record receives the first
    for each dependency, in the order of the list, at the end of its
    evidence, and nothing else; afterwards it holds dependency evidence for
    every item of the list that is mapped to its framework, and its
    confidence has risen by half the sum of the weights of the items
    received, up to 1. *)
Theorem X14_enrichWithDependencies_adds (m : JsMap AgentRecord)
        (deps : list DetectionEvidence) :
  Forall DepEvidence deps ->
  Forall (fun p => confidence (snd p) <= 1) m ->
  Forall2 (fun p p' => fst p' = fst p /\ DependenciesAdded deps (snd p) (snd p'))
          m (enrichWithDependencies m deps).
Proof.
  intros HD Hm. rewrite enrichWithDependencies_each.
  apply Forall2_forEachAgent with (P := fun a => confidence a <= 1); [|exact Hm].
  intros k a Hc. split; [reflexivity|]. cbn [snd]. apply dependencies_added; assumption.
Qed.

Lemma X14_witness :
  Forall2 (fun p p' => fst p' = fst p /\ DependenciesAdded [crewaiDependency] (snd p) (snd p'))
          [("crewai:crew.py", crewRecord)]
          (enrichWithDependencies [("crewai:crew.py", crewRecord)] [crewaiDependency]).
Proof.
  apply (X14_enrichWithDependencies_adds [("crewai:crew.py", crewRecord)] [crewaiDependency]).
  - repeat constructor; discriminate.
  - repeat constructor; discriminate.
Defined.

Example crewai_dependency_added_once :
  newDependencies [crewaiDependency; crewaiDependency] crewRecord = [crewaiDependency]
  /\ map (fun p => (evidence (snd p), Qred (confidence (snd p))))
         (enrichWithDependencies [("crewai:crew.py", crewRecord)]
                                 [crewaiDependency; crewaiDependency])
     = [(exampleEvidence ++ [crewaiDependency], 17 # 20)].
Proof. vm_compute. split; reflexivity. Qed.

Lemma addEnvVar_cases env a :
  (addEnvVar env a = a /\ alreadyHas env_var (pattern env) a = true)
  \/ (addEnvVar env a
      = withEvidence a (evidence a ++ [env]) (Js.Math_min 1.0 (confidence a + 0.05))
      /\ alreadyHas env_var (pattern env) a = false).
Proof.
  unfold addEnvVar. destruct (alreadyHas env_var (pattern env) a); cbn [negb]; auto.
Qed.

Lemma envVars_added (envs : list DetectionEvidence) :
  Forall (fun e => type e = env_var) envs ->
  forall a, confidence a <= 1 ->
            EnvVarsAdded envs a (fold_left (fun a env => addEnvVar env a) envs a).
Proof.
  induction envs as [|env envs IH]; intros HE a Hc; cbn [fold_left].
  - exists []. split; [split|split; [constructor | split; constructor]].
    + rewrite app_nil_r. symmetry. apply withEvidence_self.
    + cbn [List.length Z.of_nat].
      destruct (Q.min_spec 1 (confidence a + 0.05 * inject_Z 0)) as [[? E] | [? E]];
        rewrite E; unfold inject_Z in *; lra.
  - inversion HE as [|? ? Hty HE']. subst.
    assert (Hself : EvidenceType_eqb (type env) env_var && String.eqb (pattern env) (pattern env)
                    = true).
    { rewrite String.eqb_refl, andb_true_r. apply EvidenceType_eqb_eq. exact Hty. }
    destruct (addEnvVar_cases env a) as [[-> Hhas] | [-> Hnew]].
    + destruct (IH HE' a Hc) as [added [[Ha Hq] [HN [HF HB]]]]. exists added.
      split; [split; assumption|]. split; [exact HN|]. split.
      * eapply Forall_impl; [|exact HF]. cbn beta. intros d [Hin Hrest].
        split; [right; exact Hin | exact Hrest].
      * constructor; [|exact HB]. rewrite Ha, alreadyHas_app, Hhas. reflexivity.
    + set (a1 := withEvidence a (evidence a ++ [env])
                   (Js.Math_min 1.0 (confidence a + 0.05))).
      assert (Hc1 : confidence a1 <= 1).
      { cbn. apply Qle_trans with 1.0; [apply Math_min_le_l | discriminate]. }
      destruct (IH HE' a1 Hc1) as [added [[Ha Hq] [HN [HF HB]]]].
      exists (env :: added). split; [split|split; [|split]].
      * rewrite Ha at 1. unfold a1. rewrite withEvidence_twice.
        cbn [withEvidence evidence]. rewrite <- app_assoc. reflexivity.
      * rewrite Hq. cbn [a1 withEvidence confidence]. rewrite Math_min_1.
        assert (Hn : 0 <= 0.05 * inject_Z (Z.of_nat (List.length added))).
        { apply Qmult_le_0_compat; [discriminate|].
          change 0 with (inject_Z 0). rewrite <- Zle_Qle. lia. }
        rewrite (Qmin_boost _ _ Hn). cbn [List.length].
        rewrite Nat2Z.inj_succ. unfold Z.succ. rewrite inject_Z_plus.
        match goal with
        | |- Qmin 1 ?x == Qmin 1 ?y =>
            assert (Heq : x == y) by (change (inject_Z 1) with 1; ring);
            rewrite Heq; reflexivity
        end.
      * cbn [map]. constructor; [|exact HN]. intros Hin. apply in_map_iff in Hin.
        destruct Hin as [d [Hp Hd]]. rewrite Forall_forall in HF.
        destruct (HF d Hd) as [_ Hno]. unfold a1 in Hno. rewrite alreadyHas_app in Hno.
        apply orb_false_iff in Hno. destruct Hno as [_ Hno]. cbn [existsb] in Hno.
        rewrite orb_false_r, Hp in Hno. congruence.
      * constructor; [split; [left; reflexivity | exact Hnew]|].
        eapply Forall_impl; [|exact HF]. cbn beta. intros d [Hin Hno].
        split; [right; exact Hin|].
        unfold a1 in Hno. rewrite alreadyHas_app in Hno.
        apply orb_false_iff in Hno. exact (proj1 Hno).
      * constructor; [|exact HB]. rewrite Ha, alreadyHas_app. unfold a1.
        rewrite alreadyHas_app. cbn [existsb]. rewrite Hself. cbn [orb].
        rewrite orb_true_r. reflexivity.
Qed.

(** X15.  [enrichWithEnvVars] keeps the keys and the order of the registry
    and gives every record, whatever its framework, each environment key of
    the list once: afterwards every record holds an item for every key of
    the list, the items added are those it did not hold yet, and its
    confidence has risen by 0.05 for each item added, up to 1. *)
Theorem X15_enrichWithEnvVars_adds (m : JsMap AgentRecord) (envs : list DetectionEvidence) :
  Forall (fun e => type e = env_var) envs ->
  Forall (fun p => confidence (snd p) <= 1) m ->
  Forall2 (fun p p' => fst p' = fst p /\ EnvVarsAdded envs (snd p) (snd p'))
          m (enrichWithEnvVars m envs).
Proof.
  intros HE Hm. rewrite enrichWithEnvVars_each.
  apply Forall2_forEachAgent with (P := fun a => confidence a <= 1); [|exact Hm].
  intros k a Hc. split; [reflexivity|]. cbn [snd]. apply envVars_added; assumption.
Qed.

Lemma X15_witness :
  Forall2 (fun p p' => fst p' = fst p /\ EnvVarsAdded [openaiKeyEvidence] (snd p) (snd p'))
          [("crewai:crew.py", crewRecord)]
          (enrichWithEnvVars [("crewai:crew.py", crewRecord)] [openaiKeyEvidence]).
Proof.
  apply (X15_enrichWithEnvVars_adds [("crewai:crew.py", crewRecord)] [openaiKeyEvidence]).
  - repeat constructor.
  - repeat constructor; discriminate.
Defined.

(** ** The confidence of the records of a scan *)

Lemma Forall_forEachAgent (P : AgentRecord -> Prop) body (m : JsMap AgentRecord) :
  (forall a, P a -> P (body a)) ->
  Forall (fun p => P (snd p)) m -> Forall (fun p => P (snd p)) (forEachAgent body m).
Proof.
  intros H F. unfold forEachAgent. apply Forall_map.
  eapply Forall_impl; [|exact F]. intros [k a] Ha. cbn [snd] in *. apply H. exact Ha.
Qed.

Lemma fold_left_keeps {A B} (P : A -> Prop) (Q : B -> Prop) (step : A -> B -> A)
      (l : list B) :
  (forall a b, Q b -> P a -> P (step a b)) ->
  Forall Q l -> forall a, P a -> P (fold_left step l a).
Proof.
  intros H. induction l as [|b l IH]; intros F a Ha; cbn [fold_left]; [exact Ha|].
  inversion F. subst. apply IH; [assumption|]. apply H; assumption.
Qed.

Lemma boost_above (c x : Q) : c <= 1 -> 0 <= x -> c <= Js.Math_min 1.0 (c + x) <= 1.
Proof.
  intros Hc Hx. rewrite Math_min_1.
  destruct (Q.min_spec 1 (c + x)) as [[? E] | [? E]]; rewrite E; lra.
Qed.

Lemma AboveFloor_boost threshold a ev x :
  0 <= x -> AboveFloor threshold a ->
  AboveFloor threshold (withEvidence a ev (Js.Math_min 1.0 (confidence a + x))).
Proof.
  intros Hx [Hc H]. pose proof (boost_above (confidence a) x Hc Hx) as [Hlo Hhi].
  split; [exact Hhi|]. cbn [withEvidence confidence framework location_filePath].
  destruct H as [H | [Hf [Hl H]]].
  - left. apply Qle_trans with (confidence a); assumption.
  - right. split; [exact Hf|]. split; [exact Hl|].
    apply Qle_trans with (confidence a); assumption.
Qed.

Lemma AboveFloor_applyDependency threshold dep a :
  DepEvidence dep -> AboveFloor threshold a -> AboveFloor threshold (applyDependency dep a).
Proof.
  intros [_ Hw] Ha.
  destruct (applyDependency_cases dep a) as [[-> _] | [-> _]]; [exact Ha|].
  apply AboveFloor_boost; [|exact Ha].
  apply Qmult_le_0_compat; [exact Hw | discriminate].
Qed.

Lemma AboveFloor_addEnvVar threshold env a :
  AboveFloor threshold a -> AboveFloor threshold (addEnvVar env a).
Proof.
  intros Ha. destruct (addEnvVar_cases env a) as [[-> _] | [-> _]]; [exact Ha|].
  apply AboveFloor_boost; [discriminate | exact Ha].
Qed.

Lemma Inserted_AboveFloor w scanPath_ threshold k a :
  Inserted w scanPath_ threshold k a -> AboveFloor threshold a.
Proof.
  intros H. destruct H as [file d id_ name_ language _ Hin Hq | file id_ Hname].
  - pose proof (analyzeFile_ok w (Path.join scanPath_ file)) as Hok.
    rewrite Forall_forall in Hok. destruct (DetectionOk_range d (Hok d Hin)) as [_ Hhi].
    split; [exact Hhi|]. left. apply Qle_bool_iff. exact Hq.
  - split; [discriminate|]. right. split; [reflexivity|]. split; [exact Hname|].
    apply Qle_refl.
Qed.

Lemma scanned_above_floor w options :
  Forall (fun p => AboveFloor (thresholdOf options) (snd p)) (agentMap (scanFiles w options)).
Proof.
  assert (H : StateOk (Forall (fun p => AboveFloor (thresholdOf options) (snd p)))
                      (fun _ => True) (fun _ => True) (scanFiles w options)).
  { unfold scanFiles.
    apply (StateOk_files w (scanPathOf w options) (thresholdOf options)).
    - intros m k a Hm Hhas Hins. rewrite Map_set_new by exact Hhas.
      apply Forall_app. split; [exact Hm|]. constructor; [|constructor].
      apply (Inserted_AboveFloor w (scanPathOf w options) _ k). exact Hins.
    - intros. exact I.
    - intros. exact I.
    - split; [|split]; cbn; repeat constructor. }
  exact (proj1 H).
Qed.

Lemma enriched_above_floor w options :
  Forall (fun p => AboveFloor (thresholdOf options) (snd p)) (enrichedAgents w options).
Proof.
  unfold enrichedAgents. destruct (scanFiles_ok w options) as [_ [Hd _]].
  rewrite enrichWithEnvVars_each, enrichWithDependencies_each.
  apply Forall_forEachAgent.
  { intros a Ha. apply (fold_left_keeps _ (fun _ => True)) with (l := envEvidence (scanFiles w options));
      [| apply Forall_forall; intros; exact I | exact Ha].
    intros a0 env _. apply AboveFloor_addEnvVar. }
  apply Forall_forEachAgent; [|apply scanned_above_floor].
  intros a Ha. apply (fold_left_keeps _ DepEvidence) with (l := dependencyEvidence (scanFiles w options));
    [| exact Hd | exact Ha].
  intros a0 dep Hdep. apply AboveFloor_applyDependency. exact Hdep.
Qed.

(** X16.  Every record of the result of a local scan has a confidence of
    at least the threshold of the scan, the records that stand for a CrewAI
    configuration file apart, which have at least 0.7: the enrichment that
    follows the file loop never takes a record below the confidence it was
    entered with. *)
Theorem X16_reported_confidence_floor (w : World) (options : ScanOptions) (a : AgentRecord) :
  In a (agents (snd (scanLocal w options))) ->
  thresholdOf options <= confidence a
  \/ (framework a = crewai /\ isCrewaiConfig (location_filePath a) /\ 0.7 <= confidence a).
Proof.
  intros Ha. destruct (agent_of_registry w options a Ha) as [a' [Hin Hcore]].
  unfold Map_values in Hin. apply in_map_iff in Hin. destruct Hin as [[k a0] [E Hin]].
  cbn [snd] in E. subst a0.
  pose proof (enriched_above_floor w options) as F. rewrite Forall_forall in F.
  destruct (F (k, a') Hin) as [_ H]. cbn [snd] in H.
  unfold core in Hcore. injection Hcore as Hf Hl Hc _. rewrite <- Hf, <- Hl, <- Hc. exact H.
Qed.

Lemma X16_witness :
  thresholdOf defaultOptions <= confidence sourceAndEnvAgent
  \/ (framework sourceAndEnvAgent = crewai
      /\ isCrewaiConfig (location_filePath sourceAndEnvAgent)
      /\ 0.7 <= confidence sourceAndEnvAgent).
Proof.
  apply (X16_reported_confidence_floor sourceAndEnvTree defaultOptions sourceAndEnvAgent).
  vm_compute. left. reflexivity.
Defined.

(** ** The files of a scan *)

Lemma length_Array_slice0 {A} (n : Z) (l : list A) :
  (List.length (Array_slice0 n l) <= List.length l)%nat
  /\ ((0 <= n)%Z -> (Z.of_nat (List.length (Array_slice0 n l)) <= n)%Z).
Proof.
  unfold Array_slice0. destruct (0 <=? n)%Z eqn:E.
  - apply Z.leb_le in E. rewrite length_firstn. split; [lia|]. intros _. lia.
  - apply Z.leb_gt in E. rewrite length_firstn. split; [lia|]. intros H. lia.
Qed.

Lemma totalFiles_scanLocal w options :
  totalFiles (summary (snd (scanLocal w options)))
  = List.length (discover w options (scanPathOf w options)).
Proof.
  unfold scanLocal. cbv zeta. destruct (enrichWithRisks w _) as [risks agents']. reflexivity.
Qed.

Lemma length_0_nil {A} (l : list A) : List.length l = 0%nat -> l = [].
Proof. destruct l; [reflexivity | discriminate]. Qed.

(** X17.  A local scan looks at no more files than [maxFiles] allows, 10000
    when the option is not given; and a scan that has no file to look at
    reports no agent. *)
Theorem X17_totalFiles_at_most_maxFiles (w : World) (options : ScanOptions) :
  let limit := match maxFiles options with Some n => n | None => 10000%Z end in
  let result := snd (scanLocal w options) in
  (0 <= limit)%Z ->
  (Z.of_nat (totalFiles (summary result)) <= limit)%Z
  /\ (totalFiles (summary result) = 0%nat ->
      agents result = [] /\ totalAgents (summary result) = 0%nat).
Proof.
  intros limit result Hn. unfold result. rewrite totalFiles_scanLocal. split.
  - unfold discover. cbv zeta. apply length_Array_slice0. exact Hn.
  - intros H0. apply length_0_nil in H0.
    assert (L : List.length (agents (snd (scanLocal w options))) = 0%nat).
    { rewrite agents_count, keys_scanFiles, H0. reflexivity. }
    rewrite totalAgents_scanLocal, L. split; [apply length_0_nil; exact L | reflexivity].
Qed.

Lemma X17_witness :
  (Z.of_nat (totalFiles (summary (snd (scanLocal sourceAndEnvTree defaultOptions)))) <= 10000)%Z.
Proof.
  assert (H : (0 <= 10000)%Z) by lia.
  exact (proj1 (X17_totalFiles_at_most_maxFiles sourceAndEnvTree defaultOptions H)).
Defined.

(** ** Counting by key *)

Section Tally.
Context {A : Type}.
Variable key : A -> string.

Lemma getOr0_set_same (m : JsMap nat) k n : getOr0 k (Map_set k n m) = n.
Proof. unfold getOr0. rewrite Map_get_set_same. reflexivity. Qed.

Lemma getOr0_set_other (m : JsMap nat) k k' n : k' <> k -> getOr0 k' (Map_set k n m) = getOr0 k' m.
Proof. intros H. unfold getOr0. rewrite Map_get_set_other by exact H. reflexivity. Qed.

Lemma sum_values_set (m : JsMap nat) k n :
  (list_sum (Map_values (Map_set k n m)) + getOr0 k m = list_sum (Map_values m) + n)%nat.
Proof.
  unfold getOr0, Map_values, list_sum.
  induction m as [|[k' n'] m IH]; cbn [Map_set Map_get map snd fold_right].
  - lia.
  - destruct (String.eqb k' k); cbn [map snd fold_right]; lia.
Qed.

Lemma In_keys_set (m : JsMap nat) k k' n :
  In k' (Map_keys (Map_set k n m)) <-> k' = k \/ In k' (Map_keys m).
Proof.
  destruct (Map_get k m) as [v|] eqn:E.
  - rewrite (Map_keys_set_old m k n v E). split; [auto|]. intros [-> | H]; [|exact H].
    apply Map_get_Some_In in E. apply in_map_iff. exists (k, v). split; [reflexivity | exact E].
  - rewrite (Map_keys_set_new m k n E), in_app_iff. simpl. intuition congruence.
Qed.

Lemma tally_fold (l : list A) :
  forall m, NoDup (Map_keys m) ->
    let r := fold_left (tally key) l m in
    NoDup (Map_keys r)
    /\ (forall k, getOr0 k r = getOr0 k m + countBy key k l)%nat
    /\ (forall k, In k (Map_keys r) <-> In k (Map_keys m) \/ In k (map key l))
    /\ (list_sum (Map_values r) = list_sum (Map_values m) + List.length l)%nat.
Proof.
  induction l as [|x l IH]; intros m N; cbn [fold_left].
  - cbv zeta. split; [exact N|]. split; [intros k; unfold countBy; simpl; lia|].
    split; [intros k; simpl; tauto | simpl; lia].
  - assert (N' : NoDup (Map_keys (tally key m x))) by (apply Map_keys_set_NoDup; exact N).
    destruct (IH _ N') as [Hn [Hc [Hk Hs]]]. cbv zeta.
    split; [exact Hn|]. split; [|split].
    + intros k. rewrite Hc. unfold countBy. cbn [filter]. unfold tally.
      destruct (String.eqb (key x) k) eqn:E.
      * apply String.eqb_eq in E. subst k. rewrite getOr0_set_same. cbn [List.length]. lia.
      * apply String.eqb_neq in E. rewrite getOr0_set_other by congruence. lia.
    + intros k. rewrite Hk. unfold tally. rewrite In_keys_set. cbn [map In].
      intuition congruence.
    + rewrite Hs. unfold tally.
      pose proof (sum_values_set m (key x) (getOr0 (key x) m + 1)%nat). cbn [List.length]. lia.
Qed.

Lemma countBy_0 k (l : list A) : countBy key k l = 0%nat <-> ~ In k (map key l).
Proof.
  unfold countBy. induction l as [|x l IH]; cbn [filter map In]; [simpl; tauto|].
  destruct (String.eqb (key x) k) eqn:E.
  - apply String.eqb_eq in E. cbn [List.length]. split; [discriminate | intros H; exfalso; auto].
  - apply String.eqb_neq in E. rewrite IH. tauto.
Qed.

Lemma tally_get (l : list A) k :
  Map_get k (fold_left (tally key) l [])
  = if (countBy key k l =? 0)%nat then None else Some (countBy key k l).
Proof.
  destruct (tally_fold l [] (NoDup_nil _)) as [_ [Hc [Hk _]]].
  specialize (Hc k). specialize (Hk k). cbn [Map_keys map In] in Hk.
  unfold getOr0 at 2 in Hc. cbn [Map_get] in Hc. cbn [plus] in Hc.
  destruct (countBy key k l =? 0)%nat eqn:E.
  - apply Nat.eqb_eq in E. apply Map_get_None. apply countBy_0 in E. tauto.
  - apply Nat.eqb_neq in E. unfold getOr0 in Hc.
    destruct (Map_get k (fold_left (tally key) l [])) as [n|] eqn:G; [congruence|].
    exfalso. apply Map_get_None in G. apply G, Hk. right.
    destruct (in_dec string_dec k (map key l)) as [H | H]; [exact H|].
    apply countBy_0 in H. contradiction.
Qed.

End Tally.

(** The keys of a tally are the keys counted, each once, in the order of
    their first occurrence. *)
Lemma keys_tally {A} (key : A -> string) (l : list A) :
  forall m : JsMap nat,
    Map_keys (fold_left (tally key) l m)
    = Map_keys m ++ Patterns.uniqueStrings (Map_keys m) (map key l).
Proof.
  induction l as [|x l IH]; intros m; cbn [fold_left map Patterns.uniqueStrings].
  - rewrite app_nil_r. reflexivity.
  - rewrite IH. unfold tally. rewrite <- Map_has_keys. unfold Map_has.
    destruct (Map_get (key x) m) as [v|] eqn:E.
    + rewrite (Map_keys_set_old m (key x) _ v E). reflexivity.
    + rewrite (Map_keys_set_new m (key x) _ E), <- app_assoc. reflexivity.
Qed.

(** ** The breakdown by framework *)

Lemma frameworkName_inj f1 f2 : frameworkName f1 = frameworkName f2 -> f1 = f2.
Proof. destruct f1, f2; cbn; intros H; try discriminate H; reflexivity. Qed.

Lemma frameworkBreakdown_scanLocal w options :
  frameworkBreakdown (snd (scanLocal w options))
  = fold_left (tally (fun a => frameworkName (framework a)))
              (agents (snd (scanLocal w options))) [].
Proof.
  unfold scanLocal. cbv zeta. destruct (enrichWithRisks w _) as [risks agents']. reflexivity.
Qed.

(** X18.  The breakdown by framework of a local scan counts the agents of
    the result: it has one entry for each framework that an agent of the
    result has and no other entry, the entry of a framework is the number
    of agents of that framework, and the entries add up to the total number
    of agents. *)
Theorem X18_frameworkBreakdown_counts (w : World) (options : ScanOptions) :
  let result := snd (scanLocal w options) in
  let count f :=
    List.length (filter (fun a => AgentFramework_eqb (framework a) f) (agents result)) in
  NoDup (Map_keys (frameworkBreakdown result))
  /\ (forall k, In k (Map_keys (frameworkBreakdown result)) <->
                exists a, In a (agents result) /\ k = frameworkName (framework a))
  /\ (forall f, Map_get (frameworkName f) (frameworkBreakdown result)
                = if (count f =? 0)%nat then None else Some (count f))
  /\ list_sum (Map_values (frameworkBreakdown result)) = totalAgents (summary result).
Proof.
  intros result count. unfold result. rewrite frameworkBreakdown_scanLocal.
  set (key := fun a => frameworkName (framework a)).
  destruct (tally_fold key (agents (snd (scanLocal w options))) [] (NoDup_nil _))
    as [Hn [_ [Hk Hs]]].
  split; [exact Hn|]. split; [|split].
  - intros k. rewrite Hk. cbn [Map_keys map In]. rewrite in_map_iff. unfold key.
    split.
    + intros [[] | [a [E Ha]]]. exists a. split; [exact Ha | congruence].
    + intros [a [Ha E]]. right. exists a. split; [congruence | exact Ha].
  - intros f. rewrite tally_get.
    assert (E : countBy key (frameworkName f) (agents (snd (scanLocal w options))) = count f).
    { unfold countBy, count, result. apply (f_equal (@List.length AgentRecord)).
      apply filter_ext. intros a. unfold key.
      destruct (AgentFramework_eqb (framework a) f) eqn:Ef.
      - apply AgentFramework_eqb_eq in Ef. subst f. apply String.eqb_refl.
      - apply String.eqb_neq. intros H. apply frameworkName_inj in H.
        apply AgentFramework_eqb_eq in H. congruence. }
    rewrite E. reflexivity.
  - rewrite Hs, totalAgents_scanLocal. reflexivity.
Qed.

(** ** The progress records *)

Section ProgressLoop.
Variable w : World.
Variable scanPath_ : string.
Variable threshold : Q.
Variables configFileNames depFileNames : list string.
Variable n : nat.

Lemma Scanning_mono k k' p : (k <= k')%nat -> Scanning n k p -> Scanning n k' p.
Proof. intros H [Hp [Hd Hs]]. repeat split; [assumption | assumption | lia]. Qed.

Lemma ProgressInv_mono k k' st : (k <= k')%nat -> ProgressInv n k st -> ProgressInv n k' st.
Proof.
  intros H [Hs [Ha [mid [Hr Hm]]]]. split; [exact (Scanning_mono k k' _ H Hs)|].
  split; [exact Ha|]. exists mid. split; [exact Hr|].
  eapply Forall_impl; [|exact Hm]. intros p. apply Scanning_mono. exact H.
Qed.

(** A report that leaves the registry as it is. *)
Lemma ProgressInv_report f k k' st :
  (k <= k')%nat ->
  (forall p, Scanning n k p -> Scanning n k' (f p)) ->
  (forall p, agentsFound (f p) = agentsFound p) ->
  ProgressInv n k st -> ProgressInv n k' (report f st).
Proof.
  intros Hk Hf Hfa [Hs [Ha [mid [Hr Hm]]]]. unfold report.
  split; [|split]; cbn [progress agentMap reported].
  - apply Hf. exact Hs.
  - rewrite Hfa. exact Ha.
  - exists (mid ++ [progress st]). split.
    + rewrite Hr. reflexivity.
    + apply Forall_app. split.
      * eapply Forall_impl; [|exact Hm]. intros p. apply Scanning_mono. exact Hk.
      * constructor; [|constructor]. exact (Scanning_mono k k' _ Hk Hs).
Qed.

Lemma ProgressInv_addAgent key mk k st :
  ProgressInv n k st -> ProgressInv n k (addAgent w key mk st).
Proof.
  intros [Hs [Ha [mid [Hr Hm]]]]. unfold addAgent, report.
  split; [|split]; cbn [progress agentMap reported].
  - exact Hs.
  - reflexivity.
  - exists (mid ++ [progress st]). split.
    + rewrite Hr. reflexivity.
    + apply Forall_app. split; [exact Hm|]. constructor; [exact Hs | constructor].
Qed.

Lemma ProgressInv_addDetection file fullPath language k (ds : list FileDetection.t) :
  forall st, ProgressInv n k st ->
             ProgressInv n k (fold_left (addDetection w threshold file fullPath language) ds st).
Proof.
  induction ds as [|d ds IH]; intros st H; cbn [fold_left]; [exact H|].
  apply IH. unfold addDetection.
  destruct (Qle_bool threshold (FileDetection.totalConfidence d)); [|exact H].
  destruct (Map_has _ _); cbn [negb]; [exact H | apply ProgressInv_addAgent; exact H].
Qed.

Lemma ProgressInv_scanSource file fullPath ext k st :
  ProgressInv n k st -> ProgressInv n k (scanSource w threshold file fullPath ext st).
Proof.
  intros H. unfold scanSource.
  destruct (Patterns.lookupExtension ext Patterns.LANGUAGE_EXTENSIONS); [|exact H].
  apply ProgressInv_addDetection. exact H.
Qed.

Lemma ProgressInv_scanDependencies file fullPath name_ k st :
  ProgressInv n k st -> ProgressInv n k (scanDependencies w depFileNames file fullPath name_ st).
Proof.
  intros H. unfold scanDependencies.
  destruct (Patterns.Array_includes depFileNames name_); [|exact H].
  destruct (readFile w fullPath); exact H.
Qed.

Lemma ProgressInv_scanEnv file fullPath name_ k st :
  ProgressInv n k st -> ProgressInv n k (scanEnv w file fullPath name_ st).
Proof.
  intros H. unfold scanEnv.
  destruct (String.eqb name_ ".env" || Js.startsWith ".env." name_); [|exact H].
  destruct (readFile w fullPath); exact H.
Qed.

Lemma ProgressInv_scanConfig file name_ k st :
  ProgressInv n k st -> ProgressInv n k (scanConfig w configFileNames file name_ st).
Proof.
  intros H. unfold scanConfig.
  destruct (Patterns.Array_includes configFileNames name_); [|exact H].
  destruct (String.eqb name_ "crewai.yaml" || String.eqb name_ "crewai.yml"); [|exact H].
  destruct (Map_has _ _); cbn [negb]; [exact H | apply ProgressInv_addAgent; exact H].
Qed.

Lemma ProgressInv_scanFile file k st :
  (k < n)%nat ->
  ProgressInv n k st ->
  ProgressInv n (S k) (scanFile w scanPath_ threshold configFileNames depFileNames st file).
Proof.
  intros Hk H. unfold scanFile.
  assert (Hcur : ProgressInv n k (report (setCurrentFile file) st)).
  { apply ProgressInv_report with (k := k); [lia | | reflexivity | exact H].
    intros p Hp. exact Hp. }
  destruct (stat w (Path.join scanPath_ file)) as [size|];
    [|apply ProgressInv_mono with k; [lia | exact Hcur]].
  destruct (Patterns.MAX_FILE_SIZE <? size)%N;
    [apply ProgressInv_mono with k; [lia | exact Hcur]|].
  cbv zeta. apply ProgressInv_report with (k := k); [lia | | reflexivity |].
  - intros p [Hp [Hd Hs]]. repeat split; cbn; [exact Hp | exact Hd | lia].
  - apply ProgressInv_scanConfig, ProgressInv_scanEnv, ProgressInv_scanDependencies,
      ProgressInv_scanSource. exact Hcur.
Qed.

Lemma ProgressInv_files (files : list string) :
  forall k st, (k + List.length files <= n)%nat ->
               ProgressInv n k st ->
               ProgressInv n (k + List.length files)
                 (fold_left (scanFile w scanPath_ threshold configFileNames depFileNames)
                            files st).
Proof.
  induction files as [|file files IH]; intros k st Hk H; cbn [fold_left List.length] in *.
  - rewrite Nat.add_0_r. exact H.
  - replace (k + S (List.length files))%nat with (S k + List.length files)%nat by lia.
    apply IH; [lia|]. apply ProgressInv_scanFile; [lia | exact H].
Qed.

End ProgressLoop.

Lemma ProgressInv_scanFiles w options :
  let n := List.length (discover w options (scanPathOf w options)) in
  ProgressInv n n (scanFiles w options).
Proof.
  intros n. unfold scanFiles. cbv zeta.
  apply (ProgressInv_files w (scanPathOf w options) (thresholdOf options) _ _ n
                           (discover w options (scanPathOf w options)) 0); [fold n; lia|].
  fold n. split; [|split].
  - unfold Scanning, report. cbn [progress phase filesDiscovered filesScanned].
    split; [reflexivity | split; [reflexivity | lia]].
  - reflexivity.
  - exists []. split; [reflexivity | constructor].
Qed.

Lemma reported_scanLocal w options :
  fst (scanLocal w options)
  = reported (scanFiles w options)
      ++ [setPhase enriching (progress (scanFiles w options));
          setPhase complete (progress (scanFiles w options))].
Proof.
  unfold scanLocal. cbv zeta. destruct (enrichWithRisks w _) as [risks agents'].
  cbn [fst reported report progress]. rewrite <- app_assoc. reflexivity.
Qed.

(** X19.  The progress records of a local scan are, in this order: the
    record of the discovering phase with all counts zero; records of the
    scanning phase, at least one, each with the number of files of the
    result as the files discovered and no more files scanned than that;
    the last of them again with the phase enriching, and again with the
    phase complete.  The agents found of these last records is the number
    of agents of the result. *)
Theorem X19_progress_records (w : World) (options : ScanOptions) :
  let result := snd (scanLocal w options) in
  let n := totalFiles (summary result) in
  exists mid p,
    fst (scanLocal w options)
    = firstProgress :: mid ++ [p; setPhase enriching p; setPhase complete p]
    /\ Forall (Scanning n n) (mid ++ [p])
    /\ agentsFound p = totalAgents (summary result).
Proof.
  intros result n. unfold n, result. rewrite totalFiles_scanLocal.
  destruct (ProgressInv_scanFiles w options) as [Hs [Ha [mid [Hr Hm]]]].
  exists mid, (progress (scanFiles w options)). split; [|split].
  - rewrite reported_scanLocal, Hr. cbn [app]. rewrite <- app_assoc. reflexivity.
  - apply Forall_app. split; [exact Hm | constructor; [exact Hs | constructor]].
  - rewrite Ha, totalAgents_scanLocal, agents_count. unfold Map_size, Map_keys.
    rewrite length_map. reflexivity.
Qed.

(** ** Ownership from the log of a file *)

Example getFileBlame_gitTree :
  let blame := getFileBlame gitTree "/repo" "crew.py" in
  owner blame = Some "ann" /\ authors blame = ["bob"; "ann"].
Proof. vm_compute. split; reflexivity. Qed.

Lemma authorCounts_tally (all : list GitLogEntry) :
  forall m,
    fold_left (fun authorCounts entry =>
                 let author := author_name entry in
                 if String.eqb author "" then authorCounts
                 else
                   let n := match Map_get author authorCounts with
                            | Some n => n
                            | None => 0%nat
                            end in
                   Map_set author (n + 1)%nat authorCounts) all m
    = fold_left (tally author_name) (namedEntries all) m.
Proof.
  unfold namedEntries. induction all as [|e all IH]; intros m; cbn [fold_left filter];
    [reflexivity|].
  destruct (String.eqb (author_name e) ""); cbn [negb fold_left]; apply IH.
Qed.

Lemma countBy_named (all : list GitLogEntry) (a : string) :
  a <> "" -> countBy author_name a (namedEntries all) = commitsBy all a.
Proof.
  intros Ha. unfold commitsBy, countBy, namedEntries.
  induction all as [|e all IH]; cbn [filter]; [reflexivity|].
  destruct (String.eqb (author_name e) "") eqn:E; cbn [negb filter].
  - apply String.eqb_eq in E.
    destruct (String.eqb (author_name e) a) eqn:E'; [|exact IH].
    apply String.eqb_eq in E'. congruence.
  - destruct (String.eqb (author_name e) a); cbn [List.length]; rewrite IH; reflexivity.
Qed.

Lemma pickOwner_fold (l : list (string * nat)) :
  forall o mx,
    let r := fold_left pickOwner l (o, mx) in
    (mx <= snd r)%nat
    /\ Forall (fun p => (snd p <= snd r)%nat) l
    /\ ((fst r = o /\ snd r = mx)
        \/ (mx < snd r)%nat
           /\ exists a before after,
                fst r = Some a /\ l = before ++ (a, snd r) :: after
                /\ Forall (fun p => (snd p < snd r)%nat) before).
Proof.
  induction l as [|[a c] l IH]; intros o mx; cbn [fold_left].
  - cbv zeta. cbn [fst snd]. split; [lia|]. split; [constructor|]. left. auto.
  - cbn [pickOwner]. destruct (mx <? c)%nat eqn:E.
    + apply Nat.ltb_lt in E. destruct (IH (Some a) c) as [Hle [Hall Hcase]]. cbv zeta in *.
      split; [lia|]. split; [constructor; [exact Hle | exact Hall]|]. right.
      destruct Hcase as [[Ho Hm] | [Hlt [a' [before [after [Ho [Hl Hb]]]]]]].
      * split; [lia|]. exists a, [], l. rewrite Hm. repeat split; [exact Ho | constructor].
      * split; [lia|]. exists a', ((a, c) :: before), after.
        split; [exact Ho|]. split; [cbn [app]; f_equal; exact Hl|].
        constructor; [exact Hlt | exact Hb].
    + apply Nat.ltb_ge in E. destruct (IH o mx) as [Hle [Hall Hcase]]. cbv zeta in *.
      split; [exact Hle|]. split; [constructor; [cbn [snd]; lia | exact Hall]|].
      destruct Hcase as [[Ho Hm] | [Hlt [a' [before [after [Ho [Hl Hb]]]]]]].
      * left. auto.
      * right. split; [exact Hlt|]. exists a', ((a, c) :: before), after.
        split; [exact Ho|]. split; [cbn [app]; f_equal; exact Hl|].
        constructor; [cbn [snd]; lia | exact Hb].
Qed.

Lemma getFileBlame_unfold w scanPath_ file all :
  gitLog w scanPath_ file = Some all -> all <> [] ->
  let counts := fold_left (tally author_name) (namedEntries all) [] in
  getFileBlame w scanPath_ file
  = mkBlame (fst (fold_left pickOwner counts (None, 0%nat)))
            match all with
            | lastEntry :: _ =>
                if String.eqb (date lastEntry) "" then None
                else Some (Date_parse w (date lastEntry))
            | [] => None
            end
            (Map_keys counts).
Proof.
  intros Hlog Hne counts. unfold getFileBlame. rewrite Hlog.
  destruct all as [|e all']; [congruence|]. cbn [List.length Nat.eqb].
  rewrite authorCounts_tally. fold counts.
  change (fun '(owner, maxCount) '(author, count) =>
            if (maxCount <? count)%nat then (Some author, count) else (owner, maxCount))
    with pickOwner.
  destruct (fold_left pickOwner counts (None, 0%nat)) as [o mx]. reflexivity.
Qed.

(** X20.  When the log of a file cannot be read or is empty, [getFileBlame]
    names no owner, no date and no author.  Otherwise its authors are the
    names, the empty name apart, that the entries of the log carry, each
    once and in the order of their first entry in the log; the owner is the
    first author of that list with the largest number of entries: the
    authors before it have fewer entries and those after it no more; and
    there is no owner only when no entry names an author. *)
Theorem X20_getFileBlame_owner (w : World) (scanPath_ file : string) :
  let blame := getFileBlame w scanPath_ file in
  match gitLog w scanPath_ file with
  | None | Some [] => blame = mkBlame None None []
  | Some all =>
      authors blame = Patterns.uniqueStrings [] (map author_name (namedEntries all))
      /\ NoDup (authors blame)
      /\ (forall a, In a (authors blame) <->
                    a <> "" /\ exists e, In e all /\ author_name e = a)
      /\ match owner blame with
         | None => authors blame = []
         | Some a =>
             exists before after,
               authors blame = before ++ a :: after
               /\ (forall b, In b before -> (commitsBy all b < commitsBy all a)%nat)
               /\ (forall b, In b after -> (commitsBy all b <= commitsBy all a)%nat)
         end
  end.
Proof.
  intros blame. unfold blame.
  destruct (gitLog w scanPath_ file) as [all|] eqn:Hlog;
    [|unfold getFileBlame; rewrite Hlog; reflexivity].
  destruct all as [|e0 all0]; [unfold getFileBlame; rewrite Hlog; reflexivity|].
  set (all := e0 :: all0) in *.
  rewrite (getFileBlame_unfold w scanPath_ file all Hlog) by discriminate.
  cbn [authors owner].
  set (counts := fold_left (tally author_name) (namedEntries all) []).
  destruct (tally_fold author_name (namedEntries all) [] (NoDup_nil _)) as [Hn [Hc [Hk _]]].
  fold counts in Hn, Hc, Hk.
  assert (Hkeys : forall a, In a (Map_keys counts) <->
                            a <> "" /\ exists e, In e all /\ author_name e = a).
  { intros a. rewrite Hk. cbn [Map_keys map In]. rewrite in_map_iff. unfold namedEntries.
    split.
    - intros [[] | [e [He Hin]]]. apply filter_In in Hin. destruct Hin as [Hin Hne].
      apply negb_true_iff, String.eqb_neq in Hne. split; [congruence|]. exists e. auto.
    - intros [Ha [e [Hin He]]]. right. exists e. split; [exact He|]. apply filter_In.
      split; [exact Hin|]. apply negb_true_iff, String.eqb_neq. congruence. }
  assert (Hcount : forall a c, In (a, c) counts -> c = commitsBy all a /\ (1 <= c)%nat).
  { intros a c Hin. pose proof (Map_get_In counts a c Hn Hin) as G.
    assert (Ha : In a (Map_keys counts)).
    { apply in_map_iff. exists (a, c). split; [reflexivity | exact Hin]. }
    pose proof (proj1 (Hkeys a) Ha) as [Hne [e [He Hea]]].
    specialize (Hc a). unfold getOr0 in Hc. rewrite G in Hc. cbn [Map_get] in Hc.
    rewrite countBy_named in Hc by exact Hne. split; [exact Hc|].
    rewrite Hc. unfold commitsBy, countBy.
    assert (Hf : In e (filter (fun x => String.eqb (author_name x) a) all)).
    { apply filter_In. split; [exact He | apply String.eqb_eq; exact Hea]. }
    destruct (filter (fun x => String.eqb (author_name x) a) all); [destruct Hf|].
    cbn [List.length]. lia. }
  split; [exact (keys_tally author_name (namedEntries all) [])|].
  split; [exact Hn|]. split; [exact Hkeys|].
  destruct (pickOwner_fold counts None 0%nat) as [_ [Hall Hcase]]. cbv zeta in Hall, Hcase.
  destruct (fold_left pickOwner counts (None, 0%nat)) as [o mx]. cbn [fst snd] in *.
  destruct Hcase as [[-> ->] | [Hlt [a [before [after [-> [Hl Hb]]]]]]].
  - destruct counts as [|[a c] counts']; [reflexivity|]. exfalso.
    destruct (Hcount a c (or_introl eq_refl)) as [_ H1].
    inversion Hall as [|? ? Hle _]. cbn [snd] in Hle. lia.
  - exists (map fst before), (map fst after). split; [|split].
    + unfold Map_keys. rewrite Hl, map_app. reflexivity.
    + assert (Hmx : mx = commitsBy all a).
      { apply (Hcount a mx). rewrite Hl. apply in_or_app. right. left. reflexivity. }
      intros b Hin. apply in_map_iff in Hin. destruct Hin as [[b' c] [Hb' Hin]].
      cbn [fst] in Hb'. subst b'. rewrite Forall_forall in Hb. specialize (Hb _ Hin).
      cbn [snd] in Hb. destruct (Hcount b c) as [Hcb _].
      { rewrite Hl. apply in_or_app. left. exact Hin. }
      lia.
    + assert (Hmx : mx = commitsBy all a).
      { apply (Hcount a mx). rewrite Hl. apply in_or_app. right. left. reflexivity. }
      intros b Hin. apply in_map_iff in Hin. destruct Hin as [[b' c] [Hb' Hin]].
      cbn [fst] in Hb'. subst b'.
      assert (Hin' : In (b, c) counts).
      { rewrite Hl. apply in_or_app. right. right. exact Hin. }
      rewrite Forall_forall in Hall. specialize (Hall _ Hin'). cbn [snd] in Hall.
      destruct (Hcount b c Hin') as [Hcb _]. lia.
Qed.

Lemma enrichWithGitBlame_loop w scanPath_ (agents : list AgentRecord) :
  forall (blameCache : JsMap GitBlameResult) (done : list AgentRecord),
    (forall f b, Map_get f blameCache = Some b -> b = getFileBlame w scanPath_ f) ->
    snd (fold_left (fun '(blameCache, done) agent =>
                      let filePath := location_filePath agent in
                      let blameCache : JsMap GitBlameResult :=
                        if negb (Map_has filePath blameCache) then
                          Map_set filePath (getFileBlame w scanPath_ filePath) blameCache
                        else blameCache in
                      match Map_get filePath blameCache with
                      | Some blame =>
                          (blameCache,
                           done ++ [withBlame agent (owner blame) (lastModified blame)])
                      | None => (blameCache, done ++ [agent])
                      end) agents (blameCache, done))
    = done ++ map (fun a =>
                     let blame := getFileBlame w scanPath_ (location_filePath a) in
                     withBlame a (owner blame) (lastModified blame)) agents.
Proof.
  induction agents as [|agent agents IH]; intros cache done Hc; cbn [fold_left map].
  - cbn [snd]. rewrite app_nil_r. reflexivity.
  - cbv zeta. unfold Map_has.
    destruct (Map_get (location_filePath agent) cache) as [b|] eqn:G; cbn [negb].
    + rewrite G. rewrite IH by exact Hc. rewrite <- app_assoc. cbn [app].
      rewrite (Hc _ _ G). reflexivity.
    + rewrite Map_get_set_same. rewrite IH.
      * rewrite <- app_assoc. reflexivity.
      * intros f b. destruct (string_dec f (location_filePath agent)) as [-> | Hf].
        -- rewrite Map_get_set_same. congruence.
        -- rewrite Map_get_set_other by exact Hf. apply Hc.
Qed.

Lemma enrichWithGitBlame_map (w : World) (agents : list AgentRecord) (scanPath_ : string) :
  enrichWithGitBlame w agents scanPath_
  = if isGitRepo w scanPath_ then
      map (fun a =>
             let blame := getFileBlame w scanPath_ (location_filePath a) in
             withBlame a (owner blame) (lastModified blame)) agents
    else agents.
Proof.
  unfold enrichWithGitBlame. destruct (isGitRepo w scanPath_); cbn [negb]; [|reflexivity].
  rewrite enrichWithGitBlame_loop; [reflexivity|]. intros f b H. discriminate H.
Qed.

(** X21.  Outside a git repository [enrichWithGitBlame] leaves the records
    as they are.  Inside one, every record gets the owner and the date that
    [getFileBlame] gives for its file, a record whose file has no history
    losing the owner and the date it had; nothing else of a record changes,
    and the cache of results by file changes nothing. *)
Theorem X21_enrichWithGitBlame_each (w : World) (agents : list AgentRecord)
        (scanPath_ : string) :
  enrichWithGitBlame w agents scanPath_
  = if isGitRepo w scanPath_ then
      map (fun a =>
             let blame := getFileBlame w scanPath_ (location_filePath a) in
             withBlame a (owner blame) (lastModified blame)) agents
    else agents.
Proof. exact (enrichWithGitBlame_map w agents scanPath_). Qed.

(** ** Risk flags *)

Lemma fold_left_options {A B} (f : A -> option B) (l : list A) :
  forall acc,
    fold_left (fun acc x => match f x with Some y => acc ++ [y] | None => acc end) l acc
    = acc ++ List.concat (map (fun x => optionToList (f x)) l).
Proof.
  induction l as [|x l IH]; intros acc; cbn [fold_left map List.concat].
  - rewrite app_nil_r. reflexivity.
  - rewrite IH. destruct (f x); cbn [optionToList app]; [|reflexivity].
    rewrite <- app_assoc. reflexivity.
Qed.

Lemma evaluateAgentRisks_concat w agent :
  evaluateAgentRisks w agent
  = List.concat (map (fun rule => optionToList (evaluate rule w agent)) RISK_RULES).
Proof. unfold evaluateAgentRisks. rewrite fold_left_options. reflexivity. Qed.

Lemma rule_flag w agent rule flag :
  In rule RISK_RULES -> evaluate rule w agent = Some flag ->
  riskType flag = rule_id rule /\ severity flag = ruleSeverity (rule_id rule)
  /\ In (rule_id rule) agentRiskTypes.
Proof.
  unfold RISK_RULES. intros Hin.
  repeat (destruct Hin as [<- | Hin]); [..|destruct Hin]; cbn [evaluate rule_id].
  - destruct (metadata_owner agent) as [o|]; [destruct (String.eqb o "")|];
      intros [= <-] || discriminate; repeat split; simpl; tauto.
  - destruct (metadata_lastModified agent) as [t|]; [destruct (t <? sixMonthsAgo w)%Z|];
      intros [= <-] || discriminate; repeat split; simpl; tauto.
  - destruct (negb (Qle_bool 0.6 (confidence agent)) && Qle_bool 0.4 (confidence agent));
      intros [= <-] || discriminate; repeat split; simpl; tauto.
  - destruct (anyEvidenceMatches dbPatterns agent); [|destruct (capability hasDatabase agent)];
      intros [= <-] || discriminate; repeat split; simpl; tauto.
  - destruct (anyEvidenceMatches emailPatterns agent);
      [|destruct (capability canSendEmail agent)];
      intros [= <-] || discriminate; repeat split; simpl; tauto.
  - destruct (anyEvidenceMatches spawnPatterns agent);
      [|destruct (capability canSpawnAgents agent)];
      intros [= <-] || discriminate; repeat split; simpl; tauto.
  - destruct (anyEvidenceMatches apiPatterns agent);
      intros [= <-] || discriminate; repeat split; simpl; tauto.
  - discriminate.
Qed.

Lemma flag_types w agent (rules : list RiskRule) :
  incl rules RISK_RULES ->
  map riskType (List.concat (map (fun rule => optionToList (evaluate rule w agent)) rules))
  = map rule_id (filter (fires w agent) rules).
Proof.
  induction rules as [|r rules IH]; intros Hincl; cbn [map List.concat filter];
    [reflexivity|].
  rewrite map_app, IH by (intros x Hx; apply Hincl; right; exact Hx).
  unfold fires at 2. destruct (evaluate r w agent) as [f|] eqn:E; cbn [optionToList map app].
  - destruct (rule_flag w agent r f (Hincl r (or_introl eq_refl)) E) as [-> _]. reflexivity.
  - reflexivity.
Qed.

Lemma filter_keeps_distinct {A B} (f : A -> B) (keep : A -> bool) :
  forall l : list A, NoDup (map f l) -> NoDup (map f (filter keep l)).
Proof.
  intros l. induction l as [|x l IH]; cbn [map filter]; intros N; [constructor|].
  inversion N as [|? ? Hx N']. subst. destruct (keep x); cbn [map]; [|exact (IH N')].
  constructor; [|exact (IH N')]. intros Hin. apply Hx.
  apply in_map_iff in Hin. destruct Hin as [y [Hy Hin]]. apply filter_In in Hin.
  apply in_map_iff. exists y. tauto.
Qed.

Lemma rule_ids_NoDup : NoDup (map rule_id RISK_RULES).
Proof.
  unfold RISK_RULES. cbn [map rule_id].
  repeat (constructor; [cbn [In]; intuition discriminate|]). constructor.
Qed.

Lemma flagged_iff w agent (ruleId : string) :
  In ruleId (map riskType (evaluateAgentRisks w agent)) <->
  exists rule, In rule RISK_RULES /\ rule_id rule = ruleId /\ fires w agent rule = true.
Proof.
  rewrite evaluateAgentRisks_concat, flag_types by apply incl_refl.
  rewrite in_map_iff. split.
  - intros [r [Hid Hin]]. apply filter_In in Hin. exists r. tauto.
  - intros [r [Hin [Hid Hf]]]. exists r. split; [exact Hid|]. apply filter_In. tauto.
Qed.

Lemma evaluateAgentRisks_flag w agent f :
  In f (evaluateAgentRisks w agent) ->
  In (riskType f) agentRiskTypes
  /\ severity f = ruleSeverity (riskType f)
  /\ severity f <> critical.
Proof.
  rewrite evaluateAgentRisks_concat. intros Hf.
  apply in_concat in Hf. destruct Hf as [l [Hl Hf]]. apply in_map_iff in Hl.
  destruct Hl as [r [<- Hr]].
  destruct (evaluate r w agent) as [f'|] eqn:E; [|destruct Hf].
  destruct Hf as [<- | []]. destruct (rule_flag w agent r f' Hr E) as [Ht [Hs Hin]].
  rewrite Ht. split; [exact Hin|]. split; [exact Hs|]. rewrite Hs.
  unfold agentRiskTypes in Hin. cbn [In] in Hin.
  repeat (destruct Hin as [<- | Hin]; [discriminate|]). destruct Hin.
Qed.

(** X22.  [evaluateAgentRisks] gives an agent at most one flag of each of
    seven types, each with the severity of its rule and none critical.  The
    flag no-owner is given exactly to the agents without an owner,
    stale-agent to those last modified before the date six months back,
    and low-confidence to those with a confidence from 0.4 up to, not
    including, 0.6. *)
Theorem X22_evaluateAgentRisks_flags (w : World) (agent : AgentRecord) :
  let flags := evaluateAgentRisks w agent in
  NoDup (map riskType flags)
  /\ Forall (fun f => In (riskType f) agentRiskTypes
                      /\ severity f = ruleSeverity (riskType f)
                      /\ severity f <> critical) flags
  /\ (In "no-owner" (map riskType flags) <->
      metadata_owner agent = None \/ metadata_owner agent = Some "")
  /\ (In "stale-agent" (map riskType flags) <->
      exists t, metadata_lastModified agent = Some t /\ (t < sixMonthsAgo w)%Z)
  /\ (In "low-confidence" (map riskType flags) <->
      0.4 <= confidence agent /\ confidence agent < 0.6).
Proof.
  intros flags. unfold flags. split; [|split; [|split; [|split]]].
  - rewrite evaluateAgentRisks_concat, flag_types by apply incl_refl.
    apply filter_keeps_distinct, rule_ids_NoDup.
  - apply Forall_forall. intros f Hf. apply (evaluateAgentRisks_flag w agent f Hf).
  - rewrite flagged_iff. split.
    + intros [r [Hin [Hid Hf]]]. unfold RISK_RULES in Hin. revert Hid Hf.
      repeat (destruct Hin as [<- | Hin]); [..|destruct Hin]; cbn [rule_id];
        try discriminate.
      intros _. unfold fires. cbn [evaluate].
      destruct (metadata_owner agent) as [o|]; [|auto].
      destruct (String.eqb o "") eqn:E; [|discriminate].
      apply String.eqb_eq in E. subst o. auto.
    + intros H. eexists. split; [left; reflexivity|]. split; [reflexivity|].
      unfold fires. cbn [evaluate]. destruct H as [-> | ->]; reflexivity.
  - rewrite flagged_iff. split.
    + intros [r [Hin [Hid Hf]]]. unfold RISK_RULES in Hin. revert Hid Hf.
      repeat (destruct Hin as [<- | Hin]); [..|destruct Hin]; cbn [rule_id];
        try discriminate.
      intros _. unfold fires. cbn [evaluate].
      destruct (metadata_lastModified agent) as [t|]; [|discriminate].
      destruct (t <? sixMonthsAgo w)%Z eqn:E; [|discriminate].
      intros _. exists t. split; [reflexivity | apply Z.ltb_lt; exact E].
    + intros [t [Ht Hlt]]. eexists. split; [right; left; reflexivity|].
      split; [reflexivity|]. unfold fires. cbn [evaluate]. rewrite Ht.
      apply Z.ltb_lt in Hlt. rewrite Hlt. reflexivity.
  - rewrite flagged_iff. split.
    + intros [r [Hin [Hid Hf]]]. unfold RISK_RULES in Hin. revert Hid Hf.
      repeat (destruct Hin as [<- | Hin]); [..|destruct Hin]; cbn [rule_id];
        try discriminate.
      intros _. unfold fires. cbn [evaluate].
      destruct (Qle_bool 0.6 (confidence agent)) eqn:E6; cbn [negb andb]; [discriminate|].
      destruct (Qle_bool 0.4 (confidence agent)) eqn:E4; [|discriminate].
      intros _. apply Qle_bool_iff in E4. split; [exact E4|].
      apply Qnot_le_lt. intros H. apply Qle_bool_iff in H. congruence.
    + intros [H4 H6]. eexists. split; [right; right; left; reflexivity|].
      split; [reflexivity|]. unfold fires. cbn [evaluate].
      apply Qle_bool_iff in H4. rewrite H4.
      destruct (Qle_bool 0.6 (confidence agent)) eqn:E6; [|reflexivity].
      apply Qle_bool_iff in E6. exfalso. apply (Qlt_not_le _ _ H6). exact E6.
Qed.

Lemma countSeverity_app s (l1 l2 : list RiskFlag) :
  countSeverity s (l1 ++ l2) = (countSeverity s l1 + countSeverity s l2)%nat.
Proof. unfold countSeverity. rewrite filter_app, length_app. reflexivity. Qed.

Lemma countSeverity_total (l : list RiskFlag) :
  (countSeverity critical l + countSeverity high l + countSeverity medium l
   + countSeverity low l = List.length l)%nat.
Proof.
  unfold countSeverity. induction l as [|f l IH]; cbn [filter List.length]; [reflexivity|].
  destruct (severity f); cbn [List.length]; lia.
Qed.

Lemma countSeverity_critical_0 (l : list RiskFlag) :
  Forall (fun f => severity f <> critical) l -> countSeverity critical l = 0%nat.
Proof.
  unfold countSeverity. induction 1 as [|f l Hf _ IH]; cbn [filter]; [reflexivity|].
  destruct (severity f); try congruence; exact IH.
Qed.

Lemma Tallied_countRisk s risk : Tallied s -> Tallied (countRisk s risk).
Proof.
  intros [Hc [Hh [Hm Hl]]]. unfold Tallied, countRisk.
  destruct (severity risk) eqn:E; cbn [count_critical count_high count_medium count_low details];
    rewrite !countSeverity_app; unfold countSeverity at 2 4 6 8; cbn [filter];
    rewrite E; cbn [List.length]; repeat split; lia.
Qed.

Lemma countRisk_fold (flags : list RiskFlag) :
  forall s, Tallied s ->
            Tallied (fold_left countRisk flags s)
            /\ details (fold_left countRisk flags s) = details s ++ flags.
Proof.
  induction flags as [|f flags IH]; intros s Hs; cbn [fold_left].
  - rewrite app_nil_r. auto.
  - destruct (IH (countRisk s f) (Tallied_countRisk s f Hs)) as [Ht Hd].
    split; [exact Ht|]. rewrite Hd.
    assert (E : details (countRisk s f) = details s ++ [f]).
    { unfold countRisk. destruct (severity f); reflexivity. }
    rewrite E, <- app_assoc. reflexivity.
Qed.

Lemma details_countRisk s f : details (countRisk s f) = details s ++ [f].
Proof. unfold countRisk. destruct (severity f); reflexivity. Qed.

Lemma enrichWithRisks_loop w (agents : list AgentRecord) :
  forall s done,
    fold_left (fun '(summary, done) agent =>
                 let agentRisks := evaluateAgentRisks w agent in
                 (fold_left countRisk agentRisks summary,
                  done ++ [withRisks agent agentRisks]))
              agents (s, done)
    = (fold_left countRisk (flat_map (evaluateAgentRisks w) agents) s,
       done ++ map (fun a => withRisks a (evaluateAgentRisks w a)) agents).
Proof.
  induction agents as [|a agents IH]; intros s done; cbn [fold_left flat_map map].
  - rewrite app_nil_r. reflexivity.
  - cbv zeta. rewrite IH, fold_left_app, <- app_assoc. reflexivity.
Qed.

Lemma uniqueFrameworks_withRisks w (agents : list AgentRecord) :
  uniqueFrameworks (map (fun a => withRisks a (evaluateAgentRisks w a)) agents)
  = uniqueFrameworks agents.
Proof. unfold uniqueFrameworks. rewrite map_map. reflexivity. Qed.

Lemma enrichWithRisks_agents w (agents : list AgentRecord) :
  snd (enrichWithRisks w agents)
  = map (fun a => withRisks a (evaluateAgentRisks w a)) agents.
Proof. unfold enrichWithRisks. rewrite enrichWithRisks_loop. reflexivity. Qed.

Lemma enrichWithRisks_details w (agents : list AgentRecord) :
  exists scanLevel,
    details (fst (enrichWithRisks w agents))
    = flat_map (evaluateAgentRisks w) agents ++ scanLevel.
Proof.
  unfold enrichWithRisks. rewrite enrichWithRisks_loop. cbn [app fst].
  rewrite uniqueFrameworks_withRisks, length_map.
  destruct (countRisk_fold (flat_map (evaluateAgentRisks w) agents)
                           (mkRiskSummary 0 0 0 0 [])) as [_ D1]; [repeat split|].
  cbn [details app] in D1.
  set (s1 := fold_left countRisk (flat_map (evaluateAgentRisks w) agents)
                       (mkRiskSummary 0 0 0 0 [])) in *.
  destruct (4 <=? uniqueFrameworks agents)%nat, (20 <? List.length agents)%nat;
    rewrite ?details_countRisk, D1, <- ?app_assoc.
  - eexists. reflexivity.
  - eexists. reflexivity.
  - eexists. reflexivity.
  - exists []. rewrite app_nil_r. reflexivity.
Qed.

(** X23.  [enrichWithRisks] gives every agent the flags of
    [evaluateAgentRisks] and changes nothing else of it.  The details of
    its summary are these flags, agent after agent, followed by the flag
    framework-sprawl when the agents have four frameworks or more and the
    flag high-agent-count when there are more than twenty agents; its four
    counters are the numbers of details of each severity, so they add up
    to the number of details, and the counter of critical flags is zero. *)
Theorem X23_enrichWithRisks_summary (w : World) (agents : list AgentRecord) :
  let s := fst (enrichWithRisks w agents) in
  snd (enrichWithRisks w agents)
  = map (fun a => withRisks a (evaluateAgentRisks w a)) agents
  /\ (exists scanLevel,
        details s = flat_map (evaluateAgentRisks w) agents ++ scanLevel
        /\ map riskType scanLevel
           = (if (4 <=? uniqueFrameworks agents)%nat then ["framework-sprawl"] else [])
               ++ (if (20 <? List.length agents)%nat then ["high-agent-count"] else []))
  /\ Tallied s
  /\ count_critical s = 0%nat
  /\ (count_high s + count_medium s + count_low s = List.length (details s))%nat.
Proof.
  intros s. unfold s, enrichWithRisks. rewrite enrichWithRisks_loop. cbn [app].
  rewrite uniqueFrameworks_withRisks, length_map.
  set (perAgent := flat_map (evaluateAgentRisks w) agents).
  assert (T0 : Tallied (mkRiskSummary 0 0 0 0 [])) by (repeat split).
  destruct (countRisk_fold perAgent _ T0) as [T1 D1]. cbn [details app] in D1.
  set (s1 := fold_left countRisk perAgent (mkRiskSummary 0 0 0 0 [])) in *.
  set (sprawl := mkRiskFlag medium "framework-sprawl" _).
  set (many := mkRiskFlag high "high-agent-count" _).
  set (s2 := if (4 <=? uniqueFrameworks agents)%nat then countRisk s1 sprawl else s1).
  set (s3 := if (20 <? List.length agents)%nat then countRisk s2 many else s2).
  cbn [fst snd].
  assert (T3 : Tallied s3).
  { unfold s3, s2. destruct (4 <=? uniqueFrameworks agents)%nat, (20 <? List.length agents)%nat;
      repeat apply Tallied_countRisk; exact T1. }
  assert (D3 : exists scanLevel,
             details s3 = perAgent ++ scanLevel
             /\ map riskType scanLevel
                = (if (4 <=? uniqueFrameworks agents)%nat then ["framework-sprawl"] else [])
                    ++ (if (20 <? List.length agents)%nat then ["high-agent-count"] else [])
             /\ Forall (fun f => severity f <> critical) scanLevel).
  { unfold s3, s2.
    destruct (4 <=? uniqueFrameworks agents)%nat, (20 <? List.length agents)%nat;
      rewrite ?details_countRisk, D1, <- ?app_assoc.
    - exists [sprawl; many]. repeat split. repeat constructor; discriminate.
    - exists [sprawl]. repeat split. repeat constructor; discriminate.
    - exists [many]. repeat split. repeat constructor; discriminate.
    - exists []. rewrite app_nil_r. repeat split. constructor. }
  destruct D3 as [scanLevel [Hd [Ht Hnc]]].
  assert (C0 : count_critical s3 = 0%nat).
  { destruct T3 as [-> _]. rewrite Hd. apply countSeverity_critical_0.
    apply Forall_app. split; [|exact Hnc]. apply Forall_forall. intros f Hf.
    unfold perAgent in Hf. apply in_flat_map in Hf. destruct Hf as [a [_ Hf]].
    apply (evaluateAgentRisks_flag w a f Hf). }
  split; [reflexivity|]. split; [exists scanLevel; auto|]. split; [exact T3|].
  split; [exact C0|].
  pose proof (countSeverity_total (details s3)) as Htot.
  destruct T3 as [Tc [Th [Tm Tl]]]. rewrite Th, Tm, Tl. rewrite <- Tc, C0 in Htot. lia.
Qed.

(** ** Owners and flags in the result of a scan *)

Lemma evaluateAgentRisks_withRisks w a r :
  evaluateAgentRisks w (withRisks a r) = evaluateAgentRisks w a.
Proof. reflexivity. Qed.

Lemma Inserted_Bare w scanPath_ threshold k a : Inserted w scanPath_ threshold k a -> Bare a.
Proof. intros H. destruct H; repeat split. Qed.

Lemma Bare_withEvidence a ev c : Bare a -> Bare (withEvidence a ev c).
Proof. intros H. exact H. Qed.

Lemma Bare_applyDependency dep a : Bare a -> Bare (applyDependency dep a).
Proof.
  intros H. destruct (applyDependency_cases dep a) as [[-> _] | [-> _]];
    [exact H | apply Bare_withEvidence; exact H].
Qed.

Lemma Bare_addEnvVar env a : Bare a -> Bare (addEnvVar env a).
Proof.
  intros H. destruct (addEnvVar_cases env a) as [[-> _] | [-> _]];
    [exact H | apply Bare_withEvidence; exact H].
Qed.

Lemma enriched_bare w options :
  Forall (fun p => Bare (snd p)) (enrichedAgents w options).
Proof.
  assert (H : StateOk (Forall (fun p => Bare (snd p))) (fun _ => True) (fun _ => True)
                      (scanFiles w options)).
  { unfold scanFiles.
    apply (StateOk_files w (scanPathOf w options) (thresholdOf options)).
    - intros m k a Hm Hhas Hins. rewrite Map_set_new by exact Hhas.
      apply Forall_app. split; [exact Hm|]. constructor; [|constructor].
      apply (Inserted_Bare w (scanPathOf w options) (thresholdOf options) k). exact Hins.
    - intros. exact I.
    - intros. exact I.
    - split; [|split]; cbn; repeat constructor. }
  unfold enrichedAgents. rewrite enrichWithEnvVars_each, enrichWithDependencies_each.
  apply Forall_forEachAgent.
  { intros a Ha. apply (fold_left_keeps _ (fun _ => True)) with (l := envEvidence (scanFiles w options));
      [| apply Forall_forall; intros; exact I | exact Ha].
    intros a0 env _. apply Bare_addEnvVar. }
  apply Forall_forEachAgent; [|exact (proj1 H)].
  intros a Ha. apply (fold_left_keeps _ (fun _ => True)) with (l := dependencyEvidence (scanFiles w options));
    [| apply Forall_forall; intros; exact I | exact Ha].
  intros a0 dep _. apply Bare_applyDependency.
Qed.

Lemma riskSummary_scanLocal w options :
  riskSummary (snd (scanLocal w options))
  = fst (enrichWithRisks w
           (enrichWithGitBlame w
              (Array_sort byConfidence (Map_values (enrichedAgents w options)))
              (scanPathOf w options))).
Proof.
  unfold scanLocal. cbv zeta. cbn [agentMap report].
  destruct (enrichWithRisks w _) as [risks agents']. reflexivity.
Qed.

(** X24.  In the result of a local scan every agent carries the flags that
    [evaluateAgentRisks] gives for it, and the details of the risk summary
    hold each of them.  The owner of an agent is the one [getFileBlame]
    gives for its file when the scanned directory is in a git repository;
    when it is not, no agent has an owner and every agent is flagged
    no-owner. *)
Theorem X24_result_owners_and_flags (w : World) (options : ScanOptions) (a : AgentRecord) :
  let result := snd (scanLocal w options) in
  let root := scanPathOf w options in
  In a (agents result) ->
  risks a = Some (evaluateAgentRisks w a)
  /\ incl (evaluateAgentRisks w a) (details (riskSummary result))
  /\ metadata_owner a
     = (if isGitRepo w root then owner (getFileBlame w root (location_filePath a)) else None)
  /\ (isGitRepo w root = false -> In "no-owner" (map riskType (evaluateAgentRisks w a))).
Proof.
  intros result root. unfold result. rewrite agents_scanLocal, riskSummary_scanLocal.
  fold root.
  set (sorted := Array_sort byConfidence (Map_values (enrichedAgents w options))).
  set (blamed := enrichWithGitBlame w sorted root).
  rewrite enrichWithRisks_agents. intros Ha. apply in_map_iff in Ha.
  destruct Ha as [b [<- Hb]]. rewrite evaluateAgentRisks_withRisks.
  cbn [withRisks risks metadata_owner location_filePath].
  split; [reflexivity|]. split.
  { destruct (enrichWithRisks_details w blamed) as [scanLevel ->].
    intros f Hf. apply in_or_app. left. apply in_flat_map. exists b. auto. }
  assert (Hbare : forall c, In c sorted -> Bare c).
  { intros c Hc. unfold sorted in Hc.
    apply (Permutation_in _ (Array_sort_perm byConfidence _)) in Hc.
    unfold Map_values in Hc. apply in_map_iff in Hc. destruct Hc as [[k c'] [<- Hc]].
    pose proof (enriched_bare w options) as F. rewrite Forall_forall in F.
    exact (F _ Hc). }
  unfold blamed in Hb. rewrite enrichWithGitBlame_map in Hb.
  destruct (isGitRepo w root) eqn:G.
  - apply in_map_iff in Hb. destruct Hb as [c [<- Hc]]. cbv zeta.
    cbn [withBlame metadata_owner location_filePath]. split; [reflexivity | discriminate].
  - destruct (Hbare b Hb) as [Ho _]. split; [exact Ho|]. intros _.
    apply flagged_iff. eexists. split; [left; reflexivity|]. split; [reflexivity|].
    unfold fires. cbn [evaluate]. rewrite Ho. reflexivity.
Qed.

Lemma X24_witness :
  In "no-owner" (map riskType (evaluateAgentRisks sourceAndEnvTree sourceAndEnvAgent)).
Proof.
  assert (H : In sourceAndEnvAgent (agents (snd (scanLocal sourceAndEnvTree defaultOptions))))
    by (vm_compute; left; reflexivity).
  apply (proj2 (proj2 (proj2
           (X24_result_owners_and_flags sourceAndEnvTree defaultOptions sourceAndEnvAgent H)))).
  reflexivity.
Defined.

(** ** Environment files *)

Lemma env_sources_NoDup :
  NoDup (map (fun p => source (EnvVarPattern.pattern p)) Patterns.ENV_VAR_PATTERNS).
Proof.
  unfold Patterns.ENV_VAR_PATTERNS. cbn [map EnvVarPattern.pattern source re].
  repeat (constructor; [cbn [In]; intuition discriminate|]). constructor.
Qed.

(** X25.  [analyzeEnvFile] reports each registered key at most once for a
    file, however often the file names it, and at most ten items in all;
    every item has the category [env_var], the path it was given and no
    line number. *)
Theorem X25_analyzeEnvFile_once_per_key (content file : string) :
  NoDup (map pattern (analyzeEnvFile content file))
  /\ (List.length (analyzeEnvFile content file) <= 10)%nat
  /\ Forall (fun e => type e = env_var /\ filePath e = file /\ line e = None)
            (analyzeEnvFile content file).
Proof.
  unfold analyzeEnvFile. rewrite analyzeEnvFile_loop. cbn [app]. split; [|split].
  - rewrite map_map. cbn [pattern]. apply filter_keeps_distinct. exact env_sources_NoDup.
  - rewrite length_map.
    apply Nat.le_trans with (List.length Patterns.ENV_VAR_PATTERNS);
      [apply filter_length_le | apply Nat.le_refl].
  - apply Forall_map. apply Forall_forall. intros p _. repeat split.
Qed.

(** ** The name of an agent *)

Lemma star_calls p k :
  forall s pv cp res,
    Re.star p k pv cp s = Some res ->
    exists pv' s', k (Re.MState pv' s' cp) = Some res
                   /\ (String.length s' <= String.length s)%nat.
Proof.
  induction s as [|c s IH]; intros pv cp res; cbn [Re.star].
  - intros H. exists pv, EmptyString. split; [exact H | lia].
  - destruct (p c).
    + unfold Re.orElse. destruct (Re.star p k (Some c) cp s) as [x|] eqn:E.
      * intros [= <-]. destruct (IH _ _ _ E) as [pv' [s' [Hk Hl]]].
        exists pv', s'. split; [exact Hk | cbn [String.length]; lia].
      * intros H. exists pv, (String c s). split; [exact H | lia].
    + intros H. exists pv, (String c s). split; [exact H | lia].
Qed.

Lemma run_calls (r : Re.regex) :
  forall k st res,
    Re.run r k st = Some res ->
    exists st', k st' = Some res
                /\ (String.length (Re.rest st') <= String.length (Re.rest st))%nat
                /\ (consuming r = true ->
                    (String.length (Re.rest st') < String.length (Re.rest st))%nat).
Proof.
  induction r as [| |p|p|p|p| | |r1 IH1|r1 IH1 r2 IH2|r1 IH1 r2 IH2]; intros k st res;
    cbn [Re.run consuming].
  - intros H. exists st. split; [exact H|]. split; [lia | discriminate].
  - discriminate.
  - destruct (Re.rest st) as [|c s'] eqn:E; [discriminate|].
    destruct (p c); [|discriminate]. intros H. exists (Re.advance c s' st).
    split; [exact H|]. cbn [Re.advance Re.rest String.length]. split; [lia | intros _; lia].
  - intros H. apply star_calls in H. destruct H as [pv' [s' [Hk Hl]]].
    exists (Re.MState pv' s' (Re.cap st)). split; [exact Hk|].
    cbn [Re.rest]. split; [exact Hl | discriminate].
  - destruct (Re.rest st) as [|c s'] eqn:E; [discriminate|].
    destruct (p c); [|discriminate]. intros H. apply star_calls in H.
    destruct H as [pv' [s'' [Hk Hl]]].
    exists (Re.MState pv' s'' (Re.cap st)). split; [exact Hk|].
    cbn [Re.rest String.length]. split; [lia | intros _; lia].
  - assert (Hst : k st = Some res ->
                  exists st', k st' = Some res
                              /\ (String.length (Re.rest st') <= String.length (Re.rest st))%nat
                              /\ (false = true ->
                                  (String.length (Re.rest st') < String.length (Re.rest st))%nat)).
    { intros H. exists st. split; [exact H|]. split; [lia | discriminate]. }
    destruct (Re.rest st) as [|c s'] eqn:E; [exact Hst|].
    destruct (p c); [|exact Hst].
    unfold Re.orElse. destruct (k (Re.advance c s' st)) as [x|] eqn:Ek.
    + intros [= <-]. exists (Re.advance c s' st). split; [exact Ek|].
      cbn [Re.advance Re.rest String.length]. split; [lia | discriminate].
    + exact Hst.
  - destruct (xorb _ _); [|discriminate]. intros H. exists st.
    split; [exact H|]. split; [lia | discriminate].
  - destruct (Re.rest st) eqn:E; [|discriminate]. intros H. exists st.
    split; [exact H|]. split; [rewrite E; apply Nat.le_refl | discriminate].
  - intros H. apply IH1 in H. destruct H as [st1 [Hk [Hle Hlt]]].
    eexists. split; [exact Hk|]. cbn [Re.rest]. split; [exact Hle | exact Hlt].
  - intros H. apply IH1 in H. destruct H as [st1 [Hk [Hle1 Hlt1]]].
    apply IH2 in Hk. destruct Hk as [st2 [Hk [Hle2 Hlt2]]].
    exists st2. split; [exact Hk|]. split; [lia|]. intros Hc. apply orb_true_iff in Hc.
    destruct Hc as [Hc | Hc]; [specialize (Hlt1 Hc) | specialize (Hlt2 Hc)]; lia.
  - unfold Re.orElse. destruct (Re.run r1 k st) as [x|] eqn:E1.
    + intros [= <-]. apply IH1 in E1. destruct E1 as [st1 [Hk [Hle Hlt]]].
      exists st1. split; [exact Hk|]. split; [exact Hle|]. intros Hc.
      apply andb_true_iff in Hc. apply Hlt. tauto.
    + intros H. apply IH2 in H. destruct H as [st2 [Hk [Hle Hlt]]].
      exists st2. split; [exact Hk|]. split; [exact Hle|]. intros Hc.
      apply andb_true_iff in Hc. apply Hlt. tauto.
Qed.

Lemma take_nonempty n s : (1 <= n)%nat -> (1 <= String.length s)%nat -> Js.take n s <> "".
Proof.
  intros Hn Hs. destruct n as [|n]; [lia|]. destruct s as [|c s]; [simpl in Hs; lia|].
  discriminate.
Qed.

Lemma capturing_cap (r : Re.regex) :
  capturing r = true ->
  forall st res, Re.run r Some st = Some res -> exists n, Re.cap res = Some n /\ n <> "".
Proof.
  induction r as [| |p|p|p|p| | |r1 _|r1 _ r2 IH2|r1 _ r2 _]; try discriminate.
  intros Hc st res H. cbn [Re.run] in H.
  assert (Htail : capturing r2 = true ->
                  exists n, Re.cap res = Some n /\ n <> "").
  { intros Hc2. apply run_calls in H. destruct H as [st1 [Hk _]]. exact (IH2 Hc2 _ _ Hk). }
  destruct r1 as [| |p|p|p|p| | |g|a b|a b]; try (exact (Htail Hc)).
  destruct r2 as [| |p|p|p|p| | |g2|a b|a b]; try (exact (Htail Hc)).
  cbn [capturing] in Hc. cbn [Re.run] in H. apply run_calls in H.
  destruct H as [st1 [Hk [_ Hlt]]]. specialize (Hlt Hc). injection Hk as <-.
  cbn [Re.cap]. eexists. split; [reflexivity|]. apply take_nonempty; lia.
Qed.

Lemma search_cap (r : Re.regex) :
  capturing r = true ->
  forall s pv i m, Re.search r pv i s = Some m -> exists n, Re.m1 m = Some n /\ n <> "".
Proof.
  intros Hc. induction s as [|c s IH]; intros pv i m; cbn [Re.search]; unfold Re.matchAt.
  - destruct (Re.run r Some (Re.MState pv "" None)) as [st'|] eqn:E; [|discriminate].
    intros [= <-]. cbn [Re.m1]. exact (capturing_cap r Hc _ _ E).
  - destruct (Re.run r Some (Re.MState pv (String c s) None)) as [st'|] eqn:E.
    + intros [= <-]. cbn [Re.m1]. exact (capturing_cap r Hc _ _ E).
    + apply IH.
Qed.

(** X26.  [extractAgentName] never returns the empty name: the name of a
    class that it takes from the content has at least one character, and
    the name it makes of the file name is replaced by Unknown Agent when
    nothing is left of it. *)
Theorem X26_extractAgentName_not_empty (file : string) (content : option string) :
  extractAgentName file content <> "".
Proof.
  unfold extractAgentName. cbv zeta.
  match goal with
  | |- context [if String.eqb ?cleaned "" then "Unknown Agent" else ?cleaned] =>
      set (fallback := if String.eqb cleaned "" then "Unknown Agent" else cleaned);
      assert (Hf : fallback <> "")
        by (unfold fallback; destruct (String.eqb cleaned "") eqn:E;
            [discriminate | apply String.eqb_neq; exact E])
  end.
  destruct content as [c|]; [|exact Hf].
  destruct (String.eqb c ""); [exact Hf|].
  unfold RegExp_exec.
  destruct (Re.search (ast (re "class\s+(\w*[Aa]gent\w*)")) None 0 c) as [m|] eqn:E1.
  - apply search_cap in E1; [|vm_compute; reflexivity].
    destruct E1 as [n [-> Hn]]. exact Hn.
  - destruct (Re.search (ast (re "class\s+(\w*[Cc]rew\w*)")) None 0 c) as [m|] eqn:E2;
      [|exact Hf].
    apply search_cap in E2; [|vm_compute; reflexivity].
    destruct E2 as [n [-> Hn]]. exact Hn.
Qed.

(** ** Python files *)

Lemma uniquePatternsFor_python : uniquePatternsFor python = pythonPatternSets.
Proof. reflexivity. Qed.

(** X27.  For a Python file no pattern set is merged with another: the
    detections are those of the eleven Python pattern sets, in their order,
    and the evidence of a detection lists what the import patterns of its
    set find, then what the instantiation patterns find, each once. *)
Theorem X27_python_evidence_once (content file : string) :
  let found := patternMatches file (Js.split Js.newline content) in
  FileAnalysisResult.detections (analyzeContent content file python)
  = flat_map (fun fp =>
                detectionOf fp
                  (found (FrameworkPatterns.imports fp)
                     ++ found (FrameworkPatterns.instantiations fp)))
             pythonPatternSets.
Proof.
  intros found.
  change (FileAnalysisResult.detections (analyzeContent content file python))
    with (detectFrameworks content file python).
  rewrite detectFrameworks_unfold, uniquePatternsFor_python, detections_flat_map. cbn [app].
  apply flat_map_ext. intros fp. rewrite matchPatterns_concat.
  unfold found, patternMatches. rewrite map_app, concat_app. reflexivity.
Qed.

(** ** The identifiers of the records *)

Section IdLoop.
Variable w : World.
Variable scanPath_ : string.
Variable threshold : Q.
Variables configFileNames depFileNames : list string.

Lemma IdsInv_addAgent key mk st :
  (forall x, id (mk x) = x) -> Map_has key (agentMap st) = false ->
  IdsInv w st -> IdsInv w (addAgent w key mk st).
Proof.
  intros Hmk Hnew H. unfold IdsInv in *. unfold addAgent, report. cbn [agentMap drawn].
  rewrite Map_set_new by exact Hnew. unfold Map_values in *.
  rewrite !map_app, H, seq_S, map_app. cbn [map snd Nat.add]. rewrite Hmk. reflexivity.
Qed.

Lemma IdsInv_addDetection file fullPath language (ds : list FileDetection.t) :
  forall st, IdsInv w st ->
             IdsInv w (fold_left (addDetection w threshold file fullPath language) ds st).
Proof.
  induction ds as [|d ds IH]; intros st H; cbn [fold_left]; [exact H|].
  apply IH. unfold addDetection.
  destruct (Qle_bool threshold (FileDetection.totalConfidence d)); [|exact H].
  destruct (Map_has _ _) eqn:E; cbn [negb]; [exact H|].
  apply IdsInv_addAgent; [reflexivity | exact E | exact H].
Qed.

Lemma IdsInv_report f st : IdsInv w st -> IdsInv w (report f st).
Proof. exact (fun H => H). Qed.

Lemma IdsInv_scanSource file fullPath ext st :
  IdsInv w st -> IdsInv w (scanSource w threshold file fullPath ext st).
Proof.
  intros H. unfold scanSource.
  destruct (Patterns.lookupExtension ext Patterns.LANGUAGE_EXTENSIONS); [|exact H].
  apply IdsInv_addDetection. exact H.
Qed.

Lemma IdsInv_scanDependencies file fullPath name_ st :
  IdsInv w st -> IdsInv w (scanDependencies w depFileNames file fullPath name_ st).
Proof.
  intros H. unfold scanDependencies.
  destruct (Patterns.Array_includes depFileNames name_); [|exact H].
  destruct (readFile w fullPath); exact H.
Qed.

Lemma IdsInv_scanEnv file fullPath name_ st :
  IdsInv w st -> IdsInv w (scanEnv w file fullPath name_ st).
Proof.
  intros H. unfold scanEnv.
  destruct (String.eqb name_ ".env" || Js.startsWith ".env." name_); [|exact H].
  destruct (readFile w fullPath); exact H.
Qed.

Lemma IdsInv_scanConfig file name_ st :
  IdsInv w st -> IdsInv w (scanConfig w configFileNames file name_ st).
Proof.
  intros H. unfold scanConfig.
  destruct (Patterns.Array_includes configFileNames name_); [|exact H].
  destruct (String.eqb name_ "crewai.yaml" || String.eqb name_ "crewai.yml"); [|exact H].
  destruct (Map_has _ _) eqn:E; cbn [negb]; [exact H|].
  apply IdsInv_addAgent; [reflexivity | exact E | exact H].
Qed.

Lemma IdsInv_scanFile file st :
  IdsInv w st ->
  IdsInv w (scanFile w scanPath_ threshold configFileNames depFileNames st file).
Proof.
  intros H. unfold scanFile.
  destruct (stat w (Path.join scanPath_ file)) as [size|]; [|apply IdsInv_report; exact H].
  destruct (Patterns.MAX_FILE_SIZE <? size)%N; [apply IdsInv_report; exact H|].
  apply IdsInv_report, IdsInv_scanConfig, IdsInv_scanEnv, IdsInv_scanDependencies,
    IdsInv_scanSource, IdsInv_report.
  exact H.
Qed.

Lemma IdsInv_files (files : list string) :
  forall st, IdsInv w st ->
             IdsInv w (fold_left (scanFile w scanPath_ threshold configFileNames depFileNames)
                                 files st).
Proof.
  induction files as [|file files IH]; intros st H; cbn [fold_left]; [exact H|].
  apply IH, IdsInv_scanFile, H.
Qed.

End IdLoop.

Lemma ids_forEachAgent body (m : JsMap AgentRecord) :
  (forall a, id (body a) = id a) ->
  map id (Map_values (forEachAgent body m)) = map id (Map_values m).
Proof.
  intros H. unfold Map_values, forEachAgent. rewrite !map_map. apply map_ext.
  intros [k a]. cbn [snd]. apply H.
Qed.

Lemma id_fold_left {B} (step : AgentRecord -> B -> AgentRecord) (l : list B) :
  (forall a b, id (step a b) = id a) -> forall a, id (fold_left step l a) = id a.
Proof.
  intros H. induction l as [|b l IH]; intros a; cbn [fold_left]; [reflexivity|].
  rewrite IH. apply H.
Qed.

Lemma ids_enrichedAgents w options :
  map id (Map_values (enrichedAgents w options))
  = map (idOf w) (seq 0 (drawn (scanFiles w options))).
Proof.
  unfold enrichedAgents. rewrite enrichWithEnvVars_each, enrichWithDependencies_each.
  rewrite !ids_forEachAgent.
  - apply (IdsInv_files w (scanPathOf w options) (thresholdOf options)). reflexivity.
  - intros a. apply id_fold_left. intros a0 dep.
    destruct (applyDependency_cases dep a0) as [[-> _] | [-> _]]; reflexivity.
  - intros a. apply id_fold_left. intros a0 env.
    destruct (addEnvVar_cases env a0) as [[-> _] | [-> _]]; reflexivity.
Qed.

Lemma ids_scanLocal w options :
  Permutation (map id (agents (snd (scanLocal w options))))
              (map (idOf w) (seq 0 (totalAgents (summary (snd (scanLocal w options)))))).
Proof.
  assert (L : totalAgents (summary (snd (scanLocal w options)))
              = drawn (scanFiles w options)).
  { rewrite totalAgents_scanLocal, agents_count.
    pose proof (f_equal (@List.length string) (ids_enrichedAgents w options)) as E.
    rewrite !length_map, length_seq in E. rewrite <- E.
    rewrite <- keys_enrichedAgents. unfold Map_keys, Map_values. rewrite !length_map.
    reflexivity. }
  rewrite L, <- ids_enrichedAgents, agents_scanLocal, enrichWithRisks_agents,
    enrichWithGitBlame_map.
  rewrite map_map. cbn [withRisks id].
  destruct (isGitRepo w (scanPathOf w options)).
  - rewrite map_map. cbn [withBlame id].
    apply Permutation_map, Array_sort_perm.
  - apply Permutation_map, Array_sort_perm.
Qed.

Lemma distinct_images {A B} (f : A -> B) (l : list A) :
  NoDup l ->
  (forall x y, In x l -> In y l -> f x = f y -> x = y) ->
  NoDup (map f l).
Proof.
  intros N. induction N as [|a l Ha N' IH]; intros Hinj; cbn [map]; [constructor|].
  constructor.
  - intros Hin. apply in_map_iff in Hin. destruct Hin as [y [Hy Hin]].
    assert (y = a) by (apply Hinj; [right; exact Hin | left; reflexivity | exact Hy]).
    subst y. exact (Ha Hin).
  - apply IH. intros x y Hx Hy. apply Hinj; right; assumption.
Qed.

(** X28.  The identifiers of the agents of the result of a local scan are
    the first values that [randomUUID] gave, one for each agent, behind the
    prefix [ag_]: no value is drawn for a record that is not kept, and the
    identifiers are pairwise distinct as soon as these values are. *)
Theorem X28_agent_ids (w : World) (options : ScanOptions) :
  let result := snd (scanLocal w options) in
  let n := totalAgents (summary result) in
  Permutation (map id (agents result)) (map (idOf w) (seq 0 n))
  /\ ((forall i j, (i < n)%nat -> (j < n)%nat ->
                   randomUUID w i = randomUUID w j -> i = j) ->
      NoDup (map id (agents result))).
Proof.
  intros result n. pose proof (ids_scanLocal w options) as P. fold result n in P.
  split; [exact P|]. intros Hinj.
  apply (Permutation_NoDup (Permutation_sym P)).
  apply distinct_images; [apply seq_NoDup|].
  intros i j Hi Hj E. apply in_seq in Hi. apply in_seq in Hj.
  unfold idOf in E. injection E as E. apply Hinj; [lia | lia | exact E].
Qed.

Lemma X28_witness :
  NoDup (map id (agents (snd (scanLocal sourceAndEnvTree defaultOptions)))).
Proof.
  apply (proj2 (X28_agent_ids sourceAndEnvTree defaultOptions)).
  intros i j Hi Hj _. vm_compute in Hi, Hj. lia.
Defined.
